(** * myvmk-cal.py: calendar scraper and .ics serializer

    A shallow embedding of [myvmk-cal.py] and the properties of its
    header resolution, time interpretation, text escaping, identifier
    derivation, serialization and event extraction.

    Conventions of the embedding:
    - a Python [str] is a Rocq [string]; each [ascii] is one code point in
      U+0000..U+00FF (the Latin-1 range).  Character classes ([isspace],
      [isdigit], [\s], [\d], [lower]) are Python's, restricted to that
      range, and the properties speak of pages, titles and URLs in it;
    - a Python [int] is a [Z];
    - an exception is a [Raise] result; [None] is [option]'s [None];
    - the library functions the script calls ([re], [datetime], [hashlib],
      [bs4]) are modelled next to it, each in a module of its own, and
      compute: [Py], [Re], [Dt], [Sha1], [Soup];
    - the rendered page is a tree of tags and text (what BeautifulSoup's
      html.parser hands to the script); the wall clock and the local date
      are inputs of the functions that read them, and the browser, the
      debug file and the parser are the fields of a [Run.world].

    The definitions come first: the libraries, the script in the order of
    its source, then the vocabulary of the properties.  The properties
    follow, each claim of the specification under its number. *)

From Stdlib Require Import ZArith NArith List String Ascii Bool Lia.
Import ListNotations.
Open Scope list_scope.
Open Scope string_scope.
Open Scope Z_scope.

(* ===================================================================== *)
(** * Results and exceptions *)

Inductive exn : Type :=
| ValueError
| OverflowError
| KeyError
| OSError
| PlaywrightError.

Inductive result (A : Type) : Type :=
| Ok (a : A)
| Raise (e : exn).
Arguments Ok {A} a.
Arguments Raise {A} e.

Definition rbind {A B} (m : result A) (f : A -> result B) : result B :=
  match m with
  | Ok a => f a
  | Raise e => Raise e
  end.

Declare Scope result_scope.
Delimit Scope result_scope with result.
Notation "x <- m ;; k" := (rbind m (fun x => k))
  (at level 61, m at next level, right associativity) : result_scope.
Notation "' pat <- m ;; k" := (rbind m (fun x => match x with pat => k end))
  (at level 61, pat pattern, m at next level, right associativity) : result_scope.

(* ===================================================================== *)
(** * Python strings *)

Module Py.

Definition ord (c : ascii) : Z := Z.of_N (N_of_ascii c).
Definition chr (z : Z) : ascii := ascii_of_N (Z.to_N z).

Definition between (lo hi : Z) (c : ascii) : bool :=
  (lo <=? ord c) && (ord c <=? hi).

(** [str.isspace] of one character, which is also the class [\s] of [re]
    on [str] patterns: TAB..CR, FS..US, space, NEL and NBSP. *)
Definition isspace (c : ascii) : bool :=
  between 9 13 c || between 28 32 c || (ord c =? 133) || (ord c =? 160).

(** The class [\d] of [re] and the digits [int] accepts. *)
Definition isdecimal (c : ascii) : bool := between 48 57 c.

(** [str.isdigit] of one character: the decimal digits and the
    superscripts U+00B2, U+00B3 and U+00B9. *)
Definition isdigit_char (c : ascii) : bool :=
  isdecimal c || (ord c =? 178) || (ord c =? 179) || (ord c =? 185).

Fixpoint all_chars (p : ascii -> bool) (s : string) : bool :=
  match s with
  | EmptyString => true
  | String c s' => p c && all_chars p s'
  end.

(** [s.isdigit()]: non-empty and every character a digit. *)
Definition isdigit (s : string) : bool :=
  negb (s =? "")%string && all_chars isdigit_char s.

(** Truth value of a [str]. *)
Definition truthy (s : string) : bool := negb (s =? "")%string.

Definition lower_char (c : ascii) : ascii :=
  if between 65 90 c || (between 192 222 c && negb (ord c =? 215))
  then chr (ord c + 32) else c.

(** [upper] of one character.  The three lower-case Latin-1 letters whose
    upper case is outside the range or longer than one character (U+00B5,
    U+00DF, U+00FF) are left as they are; the script upper-cases only text
    matched by [TIME_RANGE_RE], where they cannot occur. *)
Definition upper_char (c : ascii) : ascii :=
  if between 97 122 c || (between 224 254 c && negb (ord c =? 247))
  then chr (ord c - 32) else c.

Fixpoint map_chars (f : ascii -> ascii) (s : string) : string :=
  match s with
  | EmptyString => EmptyString
  | String c s' => String (f c) (map_chars f s')
  end.

Definition lower : string -> string := map_chars lower_char.
Definition upper : string -> string := map_chars upper_char.

Fixpoint lstrip_of (sp : ascii -> bool) (s : string) : string :=
  match s with
  | EmptyString => EmptyString
  | String c s' => if sp c then lstrip_of sp s' else s
  end.

Fixpoint rstrip_of (sp : ascii -> bool) (s : string) : string :=
  match s with
  | EmptyString => EmptyString
  | String c s' =>
      let r := rstrip_of sp s' in
      if (r =? "")%string && sp c then EmptyString else String c r
  end.

(** [s.strip()] *)
Definition strip (s : string) : string :=
  rstrip_of isspace (lstrip_of isspace s).

Fixpoint split_go (cur : string) (s : string) : list string :=
  match s with
  | EmptyString => if (cur =? "")%string then [] else [cur]
  | String c s' =>
      if isspace c
      then (if (cur =? "")%string then split_go "" s' else cur :: split_go "" s')
      else split_go (cur ++ String c "") s'
  end.

(** [s.split()]: the maximal runs of non-space characters. *)
Definition split (s : string) : list string := split_go "" s.

(** [x in l] for a list of strings. *)
Definition mem (x : string) (l : list string) : bool :=
  existsb (String.eqb x) l.

(** [sep.join(l)] *)
Fixpoint join (sep : string) (l : list string) : string :=
  match l with
  | [] => ""
  | [x] => x
  | x :: l' => x ++ sep ++ join sep l'
  end.

Fixpoint replace_go (old new : string) (skip : nat) (s : string) : string :=
  match s with
  | EmptyString => EmptyString
  | String c s' =>
      match skip with
      | S k => replace_go old new k s'
      | O =>
          if String.prefix old s
          then new ++ replace_go old new (String.length old - 1) s'
          else String c (replace_go old new 0 s')
      end
  end.

Fixpoint intersperse (new : string) (s : string) : string :=
  match s with
  | EmptyString => new
  | String c s' => new ++ String c (intersperse new s')
  end.

(** [s.replace(old, new)]: every non-overlapping occurrence, left to
    right; an empty [old] matches before every character and at the end. *)
Definition replace (old new s : string) : string :=
  if (old =? "")%string then intersperse new s else replace_go old new 0 s.

(** Value of a string of decimal digits. *)
Fixpoint digits_value (acc : Z) (s : string) : option Z :=
  match s with
  | EmptyString => Some acc
  | String c s' =>
      if isdecimal c then digits_value (10 * acc + (ord c - 48)) s'
      else if (ord c =? 95) then
        (* one underscore, between two digits *)
        match s' with
        | String d _ => if isdecimal d then digits_value acc s' else None
        | EmptyString => None
        end
      else None
  end.

(** The white space [int] strips: [isspace] less FS..US. *)
Definition int_space (c : ascii) : bool :=
  between 9 13 c || (ord c =? 32) || (ord c =? 133) || (ord c =? 160).

(** The number of decimal digits in a text. *)
Fixpoint digit_count (s : string) : Z :=
  match s with
  | EmptyString => 0
  | String c s' => (if isdecimal c then 1 else 0) + digit_count s'
  end.

(** [sys.get_int_max_str_digits()], as the interpreter starts. *)
Definition INT_MAX_STR_DIGITS : Z := 4300.

(** [int(s)] in base ten: surrounding white space, an optional sign,
    then decimal digits (single underscores allowed between digits);
    anything else is a [ValueError], and so is a numeral of more than
    4300 digits, leading zeros counted. *)
Definition int (s : string) : result Z :=
  let body (t : string) : option Z :=
    match t with
    | String d _ =>
        if isdecimal d
        then (if INT_MAX_STR_DIGITS <? digit_count t then None
              else digits_value 0 t)
        else None
    | EmptyString => None
    end in
  let signed :=
    match rstrip_of int_space (lstrip_of int_space s) with
    | String "-" t => option_map Z.opp (body t)
    | String "+" t => body t
    | t => body t
    end in
  match signed with
  | Some z => Ok z
  | None => Raise ValueError
  end.

End Py.

(* ===================================================================== *)
(** * Regular expressions ([re])

    A backtracking matcher in continuation-passing style: alternatives
    are tried left to right and repetition is greedy, as in [re].  A match
    records, for each group, the offsets of the text it matched. *)

Module Re.

Inductive regex : Type :=
| Eps
| Chr (p : ascii -> bool)
| Seq (a b : regex)
| Alt (a b : regex)
| Star (a : regex)
| Group (i : nat) (a : regex)
| Bos
| Eos.

(** Group index, start offset, end offset; the latest binding first. *)
Definition caps : Type := list (nat * (nat * nat)).

Fixpoint run {A : Type} (r : regex) (pos : nat) (s : string) (c : caps)
  (k : nat -> string -> caps -> option A) {struct r} : option A :=
  match r with
  | Eps => k pos s c
  | Chr p =>
      match s with
      | String x s' => if p x then k (S pos) s' c else None
      | EmptyString => None
      end
  | Seq a b => run a pos s c (fun pos' s' c' => run b pos' s' c' k)
  | Alt a b =>
      match run a pos s c k with
      | Some m => Some m
      | None => run b pos s c k
      end
  | Star a =>
      (fix loop (fuel : nat) (pos : nat) (s : string) (c : caps) : option A :=
         match fuel with
         | O => k pos s c
         | S fuel' =>
             match run a pos s c
                     (fun pos' s' c' =>
                        if (pos <? pos')%nat then loop fuel' pos' s' c' else None)
             with
             | Some m => Some m
             | None => k pos s c
             end
         end) (String.length s) pos s c
  | Group i a =>
      run a pos s c (fun pos' s' c' => k pos' s' ((i, (pos, pos')) :: c'))
  | Bos => if (pos =? 0)%nat then k pos s c else None
  | Eos =>
      (* the end of the text, or just before a final newline *)
      if ((s =? "") || (s =? String (Py.chr 10) ""))%string then k pos s c else None
  end.

(** A match object: the text, the end offset of the match and the groups. *)
Record match_object : Type := mkmatch {
  m_text : string;
  m_end : nat;
  m_caps : caps
}.

Fixpoint lookup (i : nat) (c : caps) : option (nat * nat) :=
  match c with
  | [] => None
  | (j, se) :: c' => if (i =? j)%nat then Some se else lookup i c'
  end.

(** [m.group(i)]; a group that took no part in the match reads as [""]
    here (the patterns below have no optional group). *)
Definition group (m : match_object) (i : nat) : string :=
  match lookup i (m_caps m) with
  | Some (b, e) => String.substring b (e - b) (m_text m)
  | None => ""
  end.

Definition run_at (r : regex) (text : string) (pos : nat) (s : string)
  : option match_object :=
  run r pos s [] (fun e _ c => Some (mkmatch text e c)).

(** [pattern.match(text)] *)
Definition match_ (r : regex) (text : string) : option match_object :=
  run_at r text 0%nat text.

Fixpoint search_go (r : regex) (text : string) (pos : nat) (s : string)
  : option match_object :=
  match run_at r text pos s with
  | Some m => Some m
  | None =>
      match s with
      | EmptyString => None
      | String _ s' => search_go r text (S pos) s'
      end
  end.

(** [re.search(pattern, text)]: the match at the leftmost position. *)
Definition search (r : regex) (text : string) : option match_object :=
  search_go r text 0%nat text.

(** Pattern building blocks.  [ci] is one literal character under
    [re.IGNORECASE], on texts of code points up to U+00FF: there a letter
    matches itself and its other case.  (On other texts [re] also matches
    U+017F with [s], U+0130 and U+0131 with [i] and U+212A with [k]; no
    text of the embedding holds them.) *)
Definition ch (x : ascii) : regex := Chr (Ascii.eqb x).
Definition ci (x : ascii) : regex :=
  Chr (fun y => Ascii.eqb (Py.lower_char y) (Py.lower_char x)).
Definition ws : regex := Chr Py.isspace.                (* \s *)
Definition digit : regex := Chr Py.isdecimal.           (* \d and [0-9] *)
Definition range (lo hi : ascii) : regex :=             (* [lo-hi] *)
  Chr (Py.between (Py.ord lo) (Py.ord hi)).
Definition opt (a : regex) : regex := Alt a Eps.        (* a? *)
Definition plus (a : regex) : regex := Seq a (Star a).  (* a+ *)

Fixpoint seqs (l : list regex) : regex :=
  match l with
  | [] => Eps
  | [a] => a
  | a :: l' => Seq a (seqs l')
  end.

Fixpoint alts (l : list regex) : regex :=
  match l with
  | [] => Chr (fun _ => false)
  | [a] => a
  | a :: l' => Alt a (alts l')
  end.

(** A literal word under [re.IGNORECASE]. *)
Fixpoint word_ci (w : string) : regex :=
  match w with
  | EmptyString => Eps
  | String x EmptyString => ci x
  | String x w' => Seq (ci x) (word_ci w')
  end.

End Re.

(* ===================================================================== *)
(** * Module-level constants of the script *)

Definition MONTHS : list (string * Z) :=
  [ ("january", 1); ("february", 2); ("march", 3); ("april", 4);
    ("may", 5); ("june", 6); ("july", 7); ("august", 8);
    ("september", 9); ("october", 10); ("november", 11); ("december", 12) ].

(** [MONTHS[k]] *)
Fixpoint MONTHS_get (d : list (string * Z)) (k : string) : option Z :=
  match d with
  | [] => None
  | (k', v) :: d' => if (k =? k')%string then Some v else MONTHS_get d' k
  end.

(** [[0-9]{1,2}:[0-9]{2}\s*[AP]M] *)
Definition clock_re : Re.regex :=
  Re.seqs [ Re.digit; Re.opt Re.digit; Re.ch ":"; Re.digit; Re.digit;
            Re.Star Re.ws; Re.Alt (Re.ci "A") (Re.ci "P"); Re.ci "M" ].

(** [re.compile(r'^\s*([0-9]{1,2}:[0-9]{2}\s*[AP]M)\s*-\s*([0-9]{1,2}:[0-9]{2}\s*[AP]M)\s*$', re.I)] *)
Definition TIME_RANGE_RE : Re.regex :=
  Re.seqs [ Re.Bos; Re.Star Re.ws; Re.Group 1 clock_re; Re.Star Re.ws;
            Re.ch "-"; Re.Star Re.ws; Re.Group 2 clock_re; Re.Star Re.ws;
            Re.Eos ].

(** [r'(' + '|'.join(MONTHS.keys()) + r')\s+(\d{4})'], with [re.I] *)
Definition HEADER_RE : Re.regex :=
  Re.seqs [ Re.Group 1 (Re.alts (map (fun kv => Re.word_ci (fst kv)) MONTHS));
            Re.plus Re.ws;
            Re.Group 2 (Re.seqs [Re.digit; Re.digit; Re.digit; Re.digit]) ].

(* ===================================================================== *)
(** * Dates and times ([datetime])

    Naive dates and date-times with whole seconds, which is all the script
    builds.  Constructors check their arguments as the library does. *)

Module Dt.

Record date : Type := mkdate { year : Z; month : Z; day : Z }.
Record time : Type := mktime { t_hour : Z; t_minute : Z }.
Record datetime : Type := mkdatetime {
  d_date : date; hour : Z; minute : Z; second : Z
}.
(** Normalised as the library keeps it: [0 <= td_seconds < 86400]. *)
Record timedelta_t : Type := mktimedelta { td_days : Z; td_seconds : Z }.

Definition MINYEAR : Z := 1.
Definition MAXYEAR : Z := 9999.

Definition is_leap (y : Z) : bool :=
  (y mod 4 =? 0) && (negb (y mod 100 =? 0) || (y mod 400 =? 0)).

Definition days_in_month (y m : Z) : Z :=
  if m =? 2 then (if is_leap y then 29 else 28)
  else if (m =? 4) || (m =? 6) || (m =? 9) || (m =? 11) then 30
  else 31.

(** An argument that does not fit a C [int] is an [OverflowError]. *)
Definition c_int (z : Z) : bool := (- 2147483648 <=? z) && (z <=? 2147483647).

Definition valid_date (y m d : Z) : bool :=
  (MINYEAR <=? y) && (y <=? MAXYEAR) && (1 <=? m) && (m <=? 12)
  && (1 <=? d) && (d <=? days_in_month y m).

Definition valid_time (h mi s : Z) : bool :=
  (0 <=? h) && (h <=? 23) && (0 <=? mi) && (mi <=? 59) && (0 <=? s) && (s <=? 59).

(** [dt.date(y, m, d)] *)
Definition date_new (y m d : Z) : result date :=
  if negb (c_int y && c_int m && c_int d) then Raise OverflowError
  else if valid_date y m d then Ok (mkdate y m d)
  else Raise ValueError.

(** [dt.time(h, mi)] *)
Definition time_new (h mi : Z) : result time :=
  if negb (c_int h && c_int mi) then Raise OverflowError
  else if valid_time h mi 0 then Ok (mktime h mi)
  else Raise ValueError.

(** [dt.datetime(y, m, d, h, mi, s)] *)
Definition datetime_new (y m d h mi s : Z) : result datetime :=
  if negb (c_int y && c_int m && c_int d && c_int h && c_int mi && c_int s)
  then Raise OverflowError
  else if valid_date y m d && valid_time h mi s
  then Ok (mkdatetime (mkdate y m d) h mi s)
  else Raise ValueError.

(** [dt.datetime.combine(d, t)] *)
Definition combine (d : date) (t : time) : datetime :=
  mkdatetime d (t_hour t) (t_minute t) 0.

(** [dt.timedelta(days=d, hours=h, minutes=mi)] *)
Definition timedelta (d h mi : Z) : timedelta_t :=
  let secs := h * 3600 + mi * 60 in
  mktimedelta (d + secs / 86400) (secs mod 86400).

(** The day after and the day before; the library works on day ordinals,
    which gives the same dates, and raises past either end of the range. *)
Definition next_day (d : date) : result date :=
  if day d <? days_in_month (year d) (month d)
  then Ok (mkdate (year d) (month d) (day d + 1))
  else if month d <? 12 then Ok (mkdate (year d) (month d + 1) 1)
  else if year d <? MAXYEAR then Ok (mkdate (year d + 1) 1 1)
  else Raise OverflowError.

Definition prev_day (d : date) : result date :=
  if 1 <? day d then Ok (mkdate (year d) (month d) (day d - 1))
  else if 1 <? month d
  then Ok (mkdate (year d) (month d - 1) (days_in_month (year d) (month d - 1)))
  else if MINYEAR <? year d then Ok (mkdate (year d - 1) 12 31)
  else Raise OverflowError.

Definition shift_days (d : date) (n : Z) : result date :=
  match n with
  | Z0 => Ok d
  | Zpos p => Pos.iter (fun r => rbind r next_day) (Ok d) p
  | Zneg p => Pos.iter (fun r => rbind r prev_day) (Ok d) p
  end.

(** [x + td] *)
Definition add (x : datetime) (td : timedelta_t) : result datetime :=
  let secs := hour x * 3600 + minute x * 60 + second x + td_seconds td in
  let tod := secs mod 86400 in
  rbind (shift_days (d_date x) (td_days td + secs / 86400))
    (fun d' => Ok (mkdatetime d' (tod / 3600) (tod / 60 mod 60) (tod mod 60))).

(** Comparison of naive date-times: field by field. *)
Definition lex (c1 c2 : comparison) : comparison :=
  match c1 with
  | Eq => c2
  | _ => c1
  end.

Definition date_cmp (a b : date) : comparison :=
  lex (year a ?= year b) (lex (month a ?= month b) (day a ?= day b)).

Definition cmp (a b : datetime) : comparison :=
  lex (date_cmp (d_date a) (d_date b))
    (lex (hour a ?= hour b) (lex (minute a ?= minute b) (second a ?= second b))).

(** [a <= b] and [a < b] *)
Definition le (a b : datetime) : bool :=
  match cmp a b with
  | Gt => false
  | _ => true
  end.

Definition lt (a b : datetime) : bool :=
  match cmp a b with
  | Lt => true
  | _ => false
  end.

(** Decimal digits, zero-padded to a width (the lowest [w] digits). *)
Definition digit_char (n : Z) : ascii := Py.chr (48 + n mod 10).

Fixpoint zpad (w : nat) (n : Z) : string :=
  match w with
  | O => ""
  | S w' => zpad w' (n / 10) ++ String (digit_char n) ""
  end.

(** [x.isoformat()] of a naive date-time with whole seconds. *)
Definition isoformat (x : datetime) : string :=
  zpad 4 (year (d_date x)) ++ "-" ++ zpad 2 (month (d_date x)) ++ "-"
  ++ zpad 2 (day (d_date x)) ++ "T" ++ zpad 2 (hour x) ++ ":"
  ++ zpad 2 (minute x) ++ ":" ++ zpad 2 (second x).

(** The number of digits [%Y] writes for a year from 1 to 9999: the C
    library on Linux writes the year without leading zeros, [999] for the
    year 999. *)
Definition year_width (y : Z) : nat :=
  if y <? 10 then 1 else if y <? 100 then 2 else if y <? 1000 then 3 else 4.

(** [x.strftime("%Y%m%dT%H%M%S")] *)
Definition strftime_compact (x : datetime) : string :=
  zpad (year_width (year (d_date x))) (year (d_date x))
  ++ zpad 2 (month (d_date x))
  ++ zpad 2 (day (d_date x)) ++ "T" ++ zpad 2 (hour x)
  ++ zpad 2 (minute x) ++ zpad 2 (second x).

(** The pattern [_strptime] compiles for the format ["%I:%M%p"] in the C
    locale: [(?P<I>1[0-2]|0[1-9]|[1-9]):(?P<M>[0-5]\d|\d)(?P<p>am|pm)],
    ignoring case. *)
Definition STRPTIME_RE : Re.regex :=
  Re.seqs
    [ Re.Group 1 (Re.alts [ Re.Seq (Re.ch "1") (Re.range "0" "2");
                            Re.Seq (Re.ch "0") (Re.range "1" "9");
                            Re.range "1" "9" ]);
      Re.ch ":";
      Re.Group 2 (Re.Alt (Re.Seq (Re.range "0" "5") Re.digit) Re.digit);
      Re.Group 3 (Re.Alt (Re.word_ci "am") (Re.word_ci "pm")) ].

(** [dt.datetime.strptime(data, "%I:%M%p")]: the pattern must match and
    leave nothing over; the fields then go through the [datetime]
    constructor, on 1900-01-01. *)
Definition strptime_I_M_p (data : string) : result datetime :=
  match Re.match_ STRPTIME_RE data with
  | None => Raise ValueError
  | Some m =>
      if negb (Re.m_end m =? String.length data)%nat then Raise ValueError
      else
        (h <- Py.int (Re.group m 1) ;;
         mi <- Py.int (Re.group m 2) ;;
         let ampm := Py.lower (Re.group m 3) in
         let h' :=
           if (ampm =? "am")%string then (if h =? 12 then 0 else h)
           else if (ampm =? "pm")%string then (if h =? 12 then h else h + 12)
           else h in
         datetime_new 1900 1 1 h' mi 0)%result
  end.

End Dt.

(* ===================================================================== *)
(** * The time interpreter *)

(** The inner function of [parse_time_range]. *)
Definition to_hm (s : string) : result (Z * Z) :=
  (t <- Dt.strptime_I_M_p (Py.replace " " "" (Py.upper s)) ;;
   Ok (Dt.hour t, Dt.minute t))%result.

(** [parse_time_range(text, base_date)]; [text] is always a [str] here,
    so [text or ""] is [text]. *)
Definition parse_time_range (text : string) (base_date : Dt.date)
  : result (Dt.datetime * Dt.datetime) :=
  match Re.match_ TIME_RANGE_RE text with
  | None =>
      (t0 <- Dt.time_new 0 0 ;;
       let start := Dt.combine base_date t0 in
       end_ <- Dt.add start (Dt.timedelta 0 23 59) ;;
       Ok (start, end_))%result
  | Some m =>
      ('(sh, sm) <- to_hm (Re.group m 1) ;;
       '(eh, em) <- to_hm (Re.group m 2) ;;
       ts <- Dt.time_new sh sm ;;
       let start := Dt.combine base_date ts in
       te <- Dt.time_new eh em ;;
       let end_ := Dt.combine base_date te in
       if Dt.le end_ start
       then (end' <- Dt.add end_ (Dt.timedelta 1 0 0) ;; Ok (start, end'))
       else Ok (start, end_))%result
  end.

(* ===================================================================== *)
(** * UTF-8 and SHA-1 ([str.encode], [hashlib.sha1]) *)

Module Sha1.

(** [s.encode("utf-8")], as a list of byte values; a code point below
    U+0080 is one byte, one from U+0080 to U+00FF is two.  (The code
    points [encode] rejects, the surrogates, are above U+00FF: on the
    texts of the embedding it always returns.) *)
Fixpoint utf8 (s : string) : list Z :=
  match s with
  | EmptyString => []
  | String c s' =>
      let n := Py.ord c in
      if n <? 128 then n :: utf8 s'
      else (192 + n / 64) :: (128 + n mod 64) :: utf8 s'
  end.

Definition w32 (x : Z) : Z := x mod 4294967296.

Definition rotl (n : Z) (x : Z) : Z :=
  w32 (Z.lor (Z.shiftl x n) (Z.shiftr x (32 - n))).

(** Big-endian bytes of [x], [n] of them. *)
Fixpoint be_bytes (n : nat) (x : Z) : list Z :=
  match n with
  | O => []
  | S n' => (be_bytes n' (x / 256) ++ [x mod 256])%list
  end.

(** Message padding: a one bit, zeros up to 56 modulo 64 bytes, and the
    bit length on 64 bits. *)
Definition pad (msg : list Z) : list Z :=
  let len := Z.of_nat (List.length msg) in
  (msg ++ [128] ++ repeat 0 (Z.to_nat ((55 - len) mod 64)) ++ be_bytes 8 (8 * len))%list.

Fixpoint chunks (fuel : nat) (l : list Z) : list (list Z) :=
  match fuel with
  | O => []
  | S fuel' =>
      match l with
      | [] => []
      | _ => firstn 64 l :: chunks fuel' (skipn 64 l)
      end
  end.

Fixpoint be_words (n : nat) (l : list Z) : list Z :=
  match n with
  | O => []
  | S n' =>
      match l with
      | b0 :: b1 :: b2 :: b3 :: l' =>
          (((b0 * 256 + b1) * 256 + b2) * 256 + b3) :: be_words n' l'
      | _ => []
      end
  end.

Fixpoint extend (n : nat) (w : list Z) : list Z :=
  match n with
  | O => w
  | S n' =>
      let t := List.length w in
      let x := Z.lxor (Z.lxor (nth (t - 3) w 0) (nth (t - 8) w 0))
                      (Z.lxor (nth (t - 14) w 0) (nth (t - 16) w 0)) in
      extend n' (w ++ [rotl 1 x])%list
  end.

Definition state : Type := (Z * Z * Z * Z * Z)%type.

Definition round (t : nat) (wt : Z) (st : state) : state :=
  let '(a, b, c, d, e) := st in
  let '(f, k) :=
    if (t <? 20)%nat then (Z.lor (Z.land b c) (Z.land (Z.lnot b) d), 1518500249)
    else if (t <? 40)%nat then (Z.lxor (Z.lxor b c) d, 1859775393)
    else if (t <? 60)%nat
    then (Z.lor (Z.lor (Z.land b c) (Z.land b d)) (Z.land c d), 2400959708)
    else (Z.lxor (Z.lxor b c) d, 3395469782) in
  (w32 (rotl 5 a + f + e + k + wt), a, rotl 30 b, c, d).

Fixpoint rounds (t : nat) (w : list Z) (st : state) : state :=
  match w with
  | [] => st
  | wt :: w' => rounds (S t) w' (round t wt st)
  end.

Definition compress (h : state) (block : list Z) : state :=
  let '(h0, h1, h2, h3, h4) := h in
  let '(a, b, c, d, e) := rounds 0 (extend 64 (be_words 16 block)) h in
  (w32 (h0 + a), w32 (h1 + b), w32 (h2 + c), w32 (h3 + d), w32 (h4 + e)).

Definition init : state :=
  (1732584193, 4023233417, 2562383102, 271733878, 3285377520).

(** The digest as a number of 160 bits (its twenty bytes, big-endian). *)
Definition digest_value (h : state) : Z :=
  let '(h0, h1, h2, h3, h4) := h in
  (((h0 * 4294967296 + h1) * 4294967296 + h2) * 4294967296 + h3) * 4294967296 + h4.

Definition sha1 (msg : list Z) : Z :=
  let p := pad msg in
  digest_value (fold_left compress (chunks (List.length p) p) init).

Definition hex_char (n : Z) : ascii :=
  let d := n mod 16 in
  if d <? 10 then Py.chr (48 + d) else Py.chr (87 + d).

Fixpoint hexpad (w : nat) (n : Z) : string :=
  match w with
  | O => ""
  | S w' => hexpad w' (n / 16) ++ String (hex_char n) ""
  end.

(** [hashlib.sha1(data).hexdigest()] *)
Definition hexdigest (msg : list Z) : string := hexpad 40 (sha1 msg).

End Sha1.

(* ===================================================================== *)
(** * The feed serializer *)

(** The line feed character, Python's ["\n"]. *)
Definition NL : string := String (Py.chr 10) "".

(** An event dictionary: the keys [title], [start], [end] and [source];
    [source] is read with [get], so it may be missing. *)
Record event : Type := mkevent {
  ev_title : string;
  ev_start : Dt.datetime;
  ev_end : Dt.datetime;
  ev_source : option string
}.

Definition ics_escape (s : string) : string :=
  Py.replace "," "\," (Py.replace ";" "\;" (Py.replace "\" "\\" s)).

Definition ics_dt (dt_obj : Dt.datetime) (tzid : option string) : string :=
  let stamp := Dt.strftime_compact dt_obj in
  match tzid with
  | Some tz => if Py.truthy tz then ";TZID=" ++ tz ++ ":" ++ stamp else ":" ++ stamp
  | None => ":" ++ stamp
  end.

(** The text that [make_uid] hashes. *)
Definition uid_data (title : string) (start end_ : Dt.datetime) : string :=
  title ++ "|" ++ Dt.isoformat start ++ "|" ++ Dt.isoformat end_.

Definition make_uid (title : string) (start end_ : Dt.datetime) : string :=
  Sha1.hexdigest (Sha1.utf8 (uid_data title start end_)) ++ "@myvmk".

(** [x or "MyVMK Event"] *)
Definition or_default (x : string) : string :=
  if Py.truthy x then x else "MyVMK Event".

(** The lines one event adds to [lines] in the loop of [build_ics];
    [now] is the formatted UTC clock reading. *)
Definition event_lines (now : string) (tzid : option string) (ev : event)
  : list string :=
  let title := or_default (ev_title ev) in
  let start := ev_start ev in
  let end_ := ev_end ev in
  let uid := make_uid title start end_ in
  let block :=
    [ "BEGIN:VEVENT";
      "DTSTAMP:" ++ now;
      "UID:" ++ uid;
      "SUMMARY:" ++ ics_escape title;
      "DTSTART" ++ ics_dt start tzid;
      "DTEND" ++ ics_dt end_ tzid ] in
  let block :=
    match ev_source ev with
    | Some src =>
        if Py.truthy src
        then List.app block ["DESCRIPTION:" ++ ics_escape src]
        else block
    | None => block
    end in
  List.app block ["END:VEVENT"].

(** The list [lines] of [build_ics] when the loop is over and the closing
    line is appended. *)
Definition ics_lines (events : list event) (tzid : option string)
  (cal_name : string) (utcnow : Dt.datetime) : list string :=
  let now := Dt.strftime_compact utcnow ++ "Z" in
  let lines :=
    [ "BEGIN:VCALENDAR";
      "VERSION:2.0";
      "PRODID:-//MyVMK Scraper//EN";
      "CALSCALE:GREGORIAN";
      "X-WR-CALNAME:" ++ ics_escape cal_name ] in
  let lines :=
    fold_left (fun lines ev => List.app lines (event_lines now tzid ev)) events lines in
  List.app lines ["END:VCALENDAR"].

(** [build_ics(events, tzid, cal_name)], with the UTC clock reading as an
    argument. *)
Definition build_ics (events : list event) (tzid : option string)
  (cal_name : string) (utcnow : Dt.datetime) : string :=
  Py.join NL (ics_lines events tzid cal_name utcnow) ++ NL.

(** The default of the parameter [cal_name]. *)
Definition DEFAULT_CAL_NAME : string := "MyVMK Events".

(* ===================================================================== *)
(** * The parsed page ([bs4])

    The tree BeautifulSoup builds: tags with a name, the value of their
    [class] attribute (split into its tokens, [None] when the attribute is
    missing) and children; text nodes.  Only what the script reads of a
    tag is kept. *)

Module Soup.

#[local] Set Warnings "-register-all".

Inductive node : Type :=
| Text (s : string)
| Tag (name : string) (cls : option (list string)) (children : list node).

(** [.descendants]: every node below, in document order. *)
Fixpoint descendants (n : node) : list node :=
  match n with
  | Text _ => []
  | Tag _ _ children =>
      (fix go (l : list node) : list node :=
         match l with
         | [] => []
         | c :: l' => c :: List.app (descendants c) (go l')
         end) children
  end.

(** How a [class_] filter meets a tag's multi-valued [class] attribute:
    the filter is tried on each token in turn and then on the tokens
    joined by single spaces; a tag with no [class] hands [None] to it. *)
Definition class_matches (f : option string -> bool) (cls : option (list string))
  : bool :=
  match cls with
  | None => f None
  | Some toks =>
      existsb (fun t => f (Some t)) toks || f (Some (Py.join " " toks))
  end.

(** [class_="..."]: a string filter is an equality test. *)
Definition class_is (v : string) (c : option string) : bool :=
  match c with
  | Some s => (s =? v)%string
  | None => false
  end.

Definition tag_matches (names : list string) (f : option string -> bool)
  (n : node) : bool :=
  match n with
  | Text _ => false
  | Tag name cls _ => Py.mem name names && class_matches f cls
  end.

Definition name_matches (names : list string) (n : node) : bool :=
  match n with
  | Text _ => false
  | Tag name _ _ => Py.mem name names
  end.

(** [x.find_all(names, class_=f)] *)
Definition find_all (x : node) (names : list string) (f : option string -> bool)
  : list node :=
  filter (tag_matches names f) (descendants x).

(** [x.find_all(names)] *)
Definition find_all_named (x : node) (names : list string) : list node :=
  filter (name_matches names) (descendants x).

(** [x.find(name, class_=f)] *)
Definition find (x : node) (name : string) (f : option string -> bool)
  : option node :=
  hd_error (find_all x [name] f).

(** [x.select_one("." + v)]: the first tag with the class token [v]. *)
Definition select_one_class (x : node) (v : string) : option node :=
  hd_error (filter (fun n =>
                      match n with
                      | Tag _ (Some toks) _ => Py.mem v toks
                      | _ => false
                      end) (descendants x)).

(** The strings [get_text(strip=True)] joins: each text below the tag,
    stripped, the empty ones dropped. *)
Definition stripped_strings (x : node) : list string :=
  flat_map (fun n =>
              match n with
              | Text s => if Py.truthy (Py.strip s) then [Py.strip s] else []
              | Tag _ _ _ => []
              end) (descendants x).

(** [x.get_text(strip=True)] *)
Definition get_text_strip (x : node) : string :=
  Py.join "" (stripped_strings x).

End Soup.

(* ===================================================================== *)
(** * The header resolver and the event extractor *)

(** [safe_text(x)]; a tag is always true. *)
Definition safe_text (x : option Soup.node) : string :=
  Py.strip (match x with
            | Some n => Soup.get_text_strip n
            | None => ""
            end).

(** The loop of [parse_header_month_year] over [candidates]. *)
Fixpoint first_header_match (candidates : list Soup.node)
  : result (option Z * option Z) :=
  match candidates with
  | [] => Ok (None, None)
  | node :: rest =>
      let text := Py.lower (safe_text (Some node)) in
      match Re.search HEADER_RE text with
      | Some m =>
          (y <- Py.int (Re.group m 2) ;;
           match MONTHS_get MONTHS (Py.lower (Re.group m 1)) with
           | Some mo => Ok (Some y, Some mo)
           | None => Raise KeyError
           end)%result
      | None => first_header_match rest
      end
  end.

Definition parse_header_month_year (soup : Soup.node)
  : result (option Z * option Z) :=
  let header :=
    match Soup.select_one_class soup "header" with
    | Some h => Some h
    | None => Soup.find soup "div" (Soup.class_is "header")
    end in
  let candidates :=
    match header with
    | Some h => [h]
    | None => []
    end in
  let candidates := List.app candidates (Soup.find_all_named soup ["h1"; "h2"]) in
  first_header_match candidates.

(** Truth value of an [Optional[int]]: [None] and [0] are false. *)
Definition truthy_int (x : option Z) : bool :=
  match x with
  | Some z => negb (z =? 0)
  | None => false
  end.

(** Diagnostics printed in verbose mode: the five lines of [load_html],
    then those of [scrape_events]. *)
Inductive diag : Type :=
| DebugLoading (url : string)
| DebugLaunching
| DebugNavigating
| DebugWaiting
| DebugLoaded
| DebugSavedHtml
| WarnHeaderDefault (month year : Z)
| DebugFoundDays (n : nat)
| DebugFoundLi (base_date : Dt.date) (n : nat)
| InfoParsed (n : nat).

(** "Determine month/year" in [scrape_events]: the parsed header, the
    two overrides and the local date give the year and the month; the
    flag tells whether the local date was used. *)
Definition month_context (parsed : option Z * option Z)
  (forced_year forced_month : option Z) (today : Dt.date) : Z * Z * bool :=
  let '(year, month) := parsed in
  let year := if truthy_int forced_year then forced_year else year in
  let month := if truthy_int forced_month then forced_month else month in
  if negb (truthy_int year && truthy_int month)
  then (Dt.year today, Dt.month today, true)
  else
    match year, month with
    | Some y, Some m => (y, m, false)
    | _, _ => (Dt.year today, Dt.month today, true)
    end.

(** The class filters of [scrape_events], as written there. *)
Definition tokens_of (c : option string) : option (list string) :=
  match c with
  | Some s => if Py.truthy s then Some (Py.split s) else None
  | None => None
  end.

(** [lambda c: c and "day" in c.split() and "hidden" not in c.split()] *)
Definition is_day_class (c : option string) : bool :=
  match tokens_of c with
  | Some toks => Py.mem "day" toks && negb (Py.mem "hidden" toks)
  | None => false
  end.

(** [lambda c: c and tok in c.split()] *)
Definition has_class (tok : string) (c : option string) : bool :=
  match tokens_of c with
  | Some toks => Py.mem tok toks
  | None => false
  end.

(** [lambda c: c and "event" in c.split() and "day-targetable" in c.split()] *)
Definition is_event_container_class (c : option string) : bool :=
  match tokens_of c with
  | Some toks => Py.mem "event" toks && Py.mem "day-targetable" toks
  | None => false
  end.

(** Title and time text of one [li] node. *)
Definition li_fields (li : Soup.node) : string * string :=
  let container :=
    match Soup.find li "div" is_event_container_class with
    | Some c => c
    | None => li
    end in
  let title := safe_text (Soup.find container "p" (has_class "event-title")) in
  let time_txt := safe_text (Soup.find container "p" (has_class "event-time")) in
  (title, time_txt).

(** The body of the loop over [li_nodes]; [None] is [continue]. *)
Definition li_event (url : string) (base_date : Dt.date) (li : Soup.node)
  : option (result event) :=
  let '(title, time_txt) := li_fields li in
  if negb (Py.truthy title) && negb (Py.truthy time_txt) then None
  else Some ('(start_dt, end_dt) <- parse_time_range time_txt base_date ;;
             Ok {| ev_title := or_default title;
                   ev_start := start_dt;
                   ev_end := end_dt;
                   ev_source := Some url |})%result.

Fixpoint li_loop (url : string) (base_date : Dt.date) (li_nodes : list Soup.node)
  (events : list event) : result (list event) :=
  match li_nodes with
  | [] => Ok events
  | li :: rest =>
      match li_event url base_date li with
      | None => li_loop url base_date rest events
      | Some r =>
          (ev <- r ;; li_loop url base_date rest (List.app events [ev]))%result
      end
  end.

(** The date of a day container: [None] is [continue] (no number tag, a
    label that is not a number, or a date the calendar does not have). *)
Definition day_date (year month : Z) (day_div : Soup.node)
  : result (option Dt.date) :=
  match Soup.find day_div "p" (has_class "number") with
  | None => Ok None
  | Some num_tag =>
      let day_str := safe_text (Some num_tag) in
      if negb (Py.isdigit day_str) then Ok None
      else
        (day_num <- Py.int day_str ;;
         match Dt.date_new year month day_num with
         | Ok base_date => Ok (Some base_date)
         | Raise ValueError => Ok None
         | Raise e => Raise e
         end)%result
  end.

(** The loop over [all_day_divs], with the diagnostics it prints. *)
Fixpoint day_loop (url : string) (verbose : bool) (year month : Z)
  (all_day_divs : list Soup.node) (events : list event)
  : list diag * result (list event) :=
  match all_day_divs with
  | [] => ([], Ok events)
  | day_div :: rest =>
      match day_date year month day_div with
      | Raise e => ([], Raise e)
      | Ok None => day_loop url verbose year month rest events
      | Ok (Some base_date) =>
          let li_nodes := Soup.find_all day_div ["li"] (has_class "event-li") in
          let out :=
            match li_nodes with
            | _ :: _ =>
                if verbose then [DebugFoundLi base_date (List.length li_nodes)] else []
            | [] => []
            end in
          match li_loop url base_date li_nodes events with
          | Raise e => (out, Raise e)
          | Ok events' =>
              let '(out', r) := day_loop url verbose year month rest events' in
              (List.app out out', r)
          end
      end
  end.

(** [scrape_events(url, forced_year, forced_month, verbose)] from the
    point where the page is loaded, the debug copy is written and
    BeautifulSoup has parsed the page into [soup]; [today] is
    [dt.date.today()].  The result is what is printed from the line
    "Saved HTML" on and the list returned (or the exception that ends the
    call).  The steps before that point, which can end the call as well,
    are those of [Run.scrape_events] below. *)
Definition scrape_events (soup : Soup.node) (today : Dt.date) (url : string)
  (forced_year forced_month : option Z) (verbose : bool)
  : list diag * result (list event) :=
  let out0 := if verbose then [DebugSavedHtml] else [] in
  match parse_header_month_year soup with
  | Raise e => (out0, Raise e)
  | Ok parsed =>
      let '(year, month, defaulted) :=
        month_context parsed forced_year forced_month today in
      let out1 :=
        if defaulted && verbose then [WarnHeaderDefault month year] else [] in
      let all_day_divs := Soup.find_all soup ["div"] is_day_class in
      let out2 :=
        if verbose then [DebugFoundDays (List.length all_day_divs)] else [] in
      let '(out3, r) := day_loop url verbose year month all_day_divs [] in
      match r with
      | Raise e => (List.app out0 (List.app out1 (List.app out2 out3)), Raise e)
      | Ok events =>
          let out4 := if verbose then [InfoParsed (List.length events)] else [] in
          (List.app out0 (List.app out1 (List.app out2 (List.app out3 out4))),
           Ok events)
      end
  end.

(* ===================================================================== *)
(** * The call as a whole

    What the script reaches outside itself: the browser it drives through
    Playwright, the file [calendar_debug.html], the HTML parser and the
    local date.  A [world] holds the answer of each; any of the fallible
    ones may be an exception, which ends the call where it is raised. *)

Module Run.

Record world : Type := mkworld {
  (** [sync_playwright()] entered *)
  start : result unit;
  (** [p.chromium.launch(headless=True)] and [browser.new_page()] *)
  launch : result unit;
  (** [page.goto(url, wait_until='load', timeout=30000)] for a URL the
      browser takes *)
  navigate : string -> result unit;
  (** [page.wait_for_load_state('networkidle', timeout=30000)] and
      [page.wait_for_timeout(3000)] *)
  settle : string -> result unit;
  (** [page.content()] and [browser.close()] *)
  content : string -> result string;
  (** opening [calendar_debug.html] for writing and writing a text to it *)
  save : string -> result unit;
  (** [BeautifulSoup(html, "html.parser")] *)
  parse : string -> Soup.node;
  (** [dt.date.today()] *)
  today : Dt.date
}.

(** A computation that prints and then returns or raises. *)
Definition io (A : Type) : Type := (list diag * result A)%type.

Definition bind {A B} (m : io A) (k : A -> io B) : io B :=
  match m with
  | (out, Ok a) => let '(out', r) := k a in (List.app out out', r)
  | (out, Raise e) => (out, Raise e)
  end.

(** [if verbose: print(...)] *)
Definition say (verbose : bool) (d : diag) : io unit :=
  (if verbose then [d] else [], Ok tt).

(** A call that prints nothing. *)
Definition call {A} (r : result A) : io A := ([], r).

Declare Scope io_scope.
Delimit Scope io_scope with io.
Notation "x <- m ;; k" := (bind m (fun x => k))
  (at level 61, m at next level, right associativity) : io_scope.

(** [page.goto]: Chromium does not navigate to a URL it cannot read, and
    the empty text is one; for any other text the world answers. *)
Definition goto (w : world) (url : string) : result unit :=
  if Py.truthy url then navigate w url else Raise PlaywrightError.

Definition load_html (w : world) (url : string) (verbose : bool) : io string :=
  (_ <- say verbose (DebugLoading url) ;;
   _ <- call (start w) ;;
   _ <- say verbose DebugLaunching ;;
   _ <- call (launch w) ;;
   _ <- say verbose DebugNavigating ;;
   _ <- call (goto w url) ;;
   _ <- say verbose DebugWaiting ;;
   _ <- call (settle w url) ;;
   _ <- say verbose DebugLoaded ;;
   call (content w url))%io.

(** [scrape_events(url, forced_year, forced_month, verbose)]: the page is
    loaded, in verbose mode written to the debug file, then parsed and
    searched. *)
Definition scrape_events (w : world) (url : string)
  (forced_year forced_month : option Z) (verbose : bool) : io (list event) :=
  (html <- load_html w url verbose ;;
   _ <- call (if verbose then save w html else Ok tt) ;;
   scrape_events (parse w html) (today w) url forced_year forced_month verbose)%io.

End Run.

(* ===================================================================== *)
(** * Vocabulary of the specification *)

(** ** Vocabulary for the time interpreter *)

(** The last date of the calendar. *)
Definition LAST_DAY : Dt.date := Dt.mkdate 9999 12 31.

(** The fields of a date are those of a [date] object. *)
Definition calendar_date (d : Dt.date) : Prop :=
  Dt.valid_date (Dt.year d) (Dt.month d) (Dt.day d) = true.

(** The end clock reading is strictly later in the day than the start
    clock reading. *)
Definition clock_later (sh sm eh em : Z) : bool :=
  (sh <? eh) || ((sh =? eh) && (sm <? em)).

(** ** Vocabulary for escaping *)

(** One character of a free-text field as the feed shows it: the
    backslash, the semicolon and the comma get one backslash in front,
    every other character stands for itself. *)
Definition escape_char (c : ascii) : string :=
  if (Ascii.eqb c "\" || Ascii.eqb c ";" || Ascii.eqb c ",")%bool
  then String "\" (String c "")
  else String c "".

Fixpoint escape_each (s : string) : string :=
  match s with
  | EmptyString => EmptyString
  | String c s' => escape_char c ++ escape_each s'
  end.

(** Replacement of every occurrence of one character. *)
Fixpoint subst_char (a : ascii) (new : string) (s : string) : string :=
  match s with
  | EmptyString => EmptyString
  | String c s' =>
      if Ascii.eqb a c then new ++ subst_char a new s'
      else String c (subst_char a new s')
  end.

(** ** The document as a reader sees it *)

(** The text holds no line feed. *)
Definition one_line (s : string) : bool :=
  Py.all_chars (fun c => negb (Ascii.eqb c (Py.chr 10))) s.

Fixpoint split_lines_go (cur : string) (s : string) : list string :=
  match s with
  | EmptyString => [cur]
  | String c s' =>
      if Ascii.eqb c (Py.chr 10) then cur :: split_lines_go "" s'
      else split_lines_go (cur ++ String c "") s'
  end.

(** The lines of a document: the text between line feeds. *)
Definition split_lines (s : string) : list string := split_lines_go "" s.

Definition after (n : nat) (s : string) : string :=
  String.substring n (String.length s - n) s.

(** Every [BEGIN:name] line is followed, after the blocks opened inside
    it are closed, by its [END:name] line, and no [END:] line comes
    unopened; [opened] are the blocks open so far, innermost first. *)
Fixpoint blocks_closed (opened : list string) (lines : list string) : bool :=
  match lines with
  | [] =>
      match opened with
      | [] => true
      | _ :: _ => false
      end
  | l :: rest =>
      if String.prefix "BEGIN:" l then blocks_closed (after 6 l :: opened) rest
      else if String.prefix "END:" l then
        match opened with
        | name :: opened' => (name =? after 4 l)%string && blocks_closed opened' rest
        | [] => false
        end
      else blocks_closed opened rest
  end.

Definition complete_document (doc : string) : bool :=
  blocks_closed [] (split_lines doc).

(** The free text of an event, and an optional label, hold no line feed. *)
Definition event_one_line (ev : event) : bool :=
  one_line (ev_title ev)
  && match ev_source ev with
     | Some src => one_line src
     | None => true
     end.

Definition label_one_line (tzid : option string) : bool :=
  match tzid with
  | Some tz => one_line tz
  | None => true
  end.

(** The five lines that open the document. *)
Definition header_lines (cal_name : string) : list string :=
  [ "BEGIN:VCALENDAR";
    "VERSION:2.0";
    "PRODID:-//MyVMK Scraper//EN";
    "CALSCALE:GREGORIAN";
    "X-WR-CALNAME:" ++ ics_escape cal_name ].

(** ** Vocabulary for identifiers *)

(** The fields of a date-time are those of a [datetime] object. *)
Definition valid_datetime (x : Dt.datetime) : Prop :=
  Dt.valid_date (Dt.year (Dt.d_date x)) (Dt.month (Dt.d_date x))
    (Dt.day (Dt.d_date x)) = true
  /\ Dt.valid_time (Dt.hour x) (Dt.minute x) (Dt.second x) = true.



(** ** Sample pages *)

Module Sample.
Import Soup.

(** [<p class="cls">txt</p>] *)
Definition p (cls : string) (txt : string) : node :=
  Tag "p" (Some [cls]) (if Py.truthy txt then [Text txt] else []).

(** [<li class="event-li"><div class="event day-targetable">
      <p class="event-title">..</p><p class="event-time">..</p></div></li>] *)
Definition entry (title time_txt : string) : node :=
  Tag "li" (Some ["event-li"])
    [Tag "div" (Some ["event"; "day-targetable"])
       [p "event-title" title; p "event-time" time_txt]].

(** [<div class="..."><p class="number">n</p><ul>..</ul></div>] *)
Definition day_cell (classes : list string) (number : string)
  (entries : list node) : node :=
  Tag "div" (Some classes) [p "number" number; Tag "ul" None entries].

(** A page: an optional [<div class="header">] and the day cells. *)
Definition page (header : option string) (cells : list node) : node :=
  Tag "[document]" None
    [Tag "html" None
       [Tag "body" None
          (match header with
           | Some h => [Tag "div" (Some ["header"]) [Tag "span" None [Text h]]]
           | None => []
           end ++ cells)%list]].

Definition url : string := "https://download.myvmk.com/calendar.html".

(** A visible day 31 with one evening event, under "October 2025". *)
Definition october : node :=
  page (Some "October 2025")
    [day_cell ["day"] "31" [entry "Halloween Party" "6:00 PM - 7:00 PM"]].

(** The event that cell holds. *)
Definition halloween : event :=
  {| ev_title := "Halloween Party";
     ev_start := Dt.mkdatetime (Dt.mkdate 2025 10 31) 18 0 0;
     ev_end := Dt.mkdatetime (Dt.mkdate 2025 10 31) 19 0 0;
     ev_source := Some url |}.

(** The same cell, carrying the hidden marker as well. *)
Definition october_hidden : node :=
  page (Some "October 2025")
    [day_cell ["day"; "hidden"] "31" [entry "Halloween Party" "6:00 PM - 7:00 PM"]].

(** A page whose header cannot be parsed. *)
Definition no_header : node :=
  page None [day_cell ["day"] "3" [entry "Parade" "6:00 PM - 7:00 PM"]].

(** The event extracted from an entry with a time and no title, on the
    fifteenth. *)
Definition unnamed_event : event :=
  {| ev_title := "MyVMK Event";
     ev_start := Dt.mkdatetime (Dt.mkdate 2025 10 15) 18 0 0;
     ev_end := Dt.mkdatetime (Dt.mkdate 2025 10 15) 19 0 0;
     ev_source := Some url |}.

(** An entry with a time and no title. *)
Definition untitled : node :=
  page (Some "October 2025")
    [day_cell ["day"] "15" [entry "" "6:00 PM - 7:00 PM"]].

(** An entry whose title is two lines of text, the second one reading
    [BEGIN:VEVENT], and the event extracted from it. *)
Definition two_line : node :=
  page (Some "October 2025")
    [day_cell ["day"] "15"
       [entry ("Party" ++ NL ++ "BEGIN:VEVENT") "6:00 PM - 7:00 PM"]].

Definition two_line_event : event :=
  {| ev_title := "Party" ++ NL ++ "BEGIN:VEVENT";
     ev_start := Dt.mkdatetime (Dt.mkdate 2025 10 15) 18 0 0;
     ev_end := Dt.mkdatetime (Dt.mkdate 2025 10 15) 19 0 0;
     ev_source := Some url |}.

(** A late event on the last day of the calendar. *)
Definition last_night : node :=
  page (Some "December 9999")
    [day_cell ["day"] "31" [entry "Farewell" "11:30 PM - 12:30 AM"]].

(** A world in which the browser renders every URL it takes and the
    parser reads what it rendered as [page]; [saved] is what writing the
    debug file gives. *)
Definition world (page : node) (saved : result unit) : Run.world :=
  {| Run.start := Ok tt;
     Run.launch := Ok tt;
     Run.navigate := fun _ => Ok tt;
     Run.settle := fun _ => Ok tt;
     Run.content := fun _ => Ok "<html></html>";
     Run.save := fun _ => saved;
     Run.parse := fun _ => page;
     Run.today := Dt.mkdate 2026 11 3 |}.

End Sample.

(** ** Vocabulary for the further properties *)

(** Reading an escaped text back: a backslash stands for the character
    that follows it. *)
Fixpoint ics_unescape (s : string) : string :=
  match s with
  | EmptyString => EmptyString
  | String c s' =>
      if Ascii.eqb c "\" then
        match s' with
        | String d s'' => String d (ics_unescape s'')
        | EmptyString => String c EmptyString
        end
      else String c (ics_unescape s')
  end.

(** Every semicolon and every comma of the text comes right after a
    backslash that escapes it, and no backslash is left without a
    character to escape. *)
Fixpoint separators_guarded (s : string) : bool :=
  match s with
  | EmptyString => true
  | String c s' =>
      if Ascii.eqb c "\" then
        match s' with
        | String _ s'' => separators_guarded s''
        | EmptyString => false
        end
      else if (Ascii.eqb c ";" || Ascii.eqb c ",")%bool then false
      else separators_guarded s'
  end.

(** The text holds none of the three characters that are escaped. *)
Definition plain_text (s : string) : bool :=
  Py.all_chars
    (fun c => negb (Ascii.eqb c "\" || Ascii.eqb c ";" || Ascii.eqb c ",")) s.

(** White space at the start and at the end of a text. *)
Definition starts_with_space (s : string) : bool :=
  match s with
  | String c _ => Py.isspace c
  | EmptyString => false
  end.

Fixpoint ends_with_space (s : string) : bool :=
  match s with
  | EmptyString => false
  | String c EmptyString => Py.isspace c
  | String _ s' => ends_with_space s'
  end.

(** The clock reading [(h1, m1)] is not later than [(h2, m2)]. *)
Definition clock_le (h1 m1 h2 m2 : Z) : Prop :=
  h1 < h2 \/ (h1 = h2 /\ m1 <= m2).

(** The events of the entries of one day, in the order of the entries:
    an entry that is skipped gives none. *)
Definition entry_events (url : string) (base_date : Dt.date)
  (li_nodes : list Soup.node) : list event :=
  flat_map (fun li =>
              match li_event url base_date li with
              | Some (Ok ev) => [ev]
              | _ => []
              end) li_nodes.

(** The events of one day container; a container that is skipped gives
    none. *)
Definition day_events (url : string) (year month : Z) (day_div : Soup.node)
  : list event :=
  match day_date year month day_div with
  | Ok (Some base_date) =>
      entry_events url base_date
        (Soup.find_all day_div ["li"] (has_class "event-li"))
  | _ => []
  end.

(** The year and the month [scrape_events] works with. *)
Definition resolved_month (soup : Soup.node) (today : Dt.date)
  (forced_year forced_month : option Z) : result (Z * Z) :=
  match parse_header_month_year soup with
  | Ok parsed =>
      let '(year, month, _) :=
        month_context parsed forced_year forced_month today in
      Ok (year, month)
  | Raise e => Raise e
  end.

(** The number a text of decimal digits writes, read after [acc]. *)
Fixpoint decimal_value (acc : Z) (s : string) : Z :=
  match s with
  | EmptyString => acc
  | String c s' => decimal_value (10 * acc + (Py.ord c - 48)) s'
  end.

(** The label of a day container: the text of its number tag. *)
Definition day_label (day_div : Soup.node) : option string :=
  match Soup.find day_div "p" (has_class "number") with
  | Some num_tag => Some (safe_text (Some num_tag))
  | None => None
  end.

(** How many of the lines are the line [l]. *)
Definition count_lines (l : string) (lines : list string) : nat :=
  List.length (filter (String.eqb l) lines).

(** A page with two entries on one day, the second with a clock reading
    no clock shows. *)
Definition bad_clock_page : Soup.node :=
  Sample.page (Some "October 2025")
    [Sample.day_cell ["day"] "15"
       [Sample.entry "Parade" "6:00 PM - 7:00 PM";
        Sample.entry "Fireworks" "13:00 PM - 2:00 PM"]].


(** A day container labelled with a superscript two. *)
Definition superscript_cell : Soup.node :=
  Sample.day_cell ["day"] (String (Py.chr 178) "") [].

(** What a pattern matches, apart from how the matcher searches for it:
    [matched r pos w c c'] says that [r] can match the text [w] at offset
    [pos], turning the groups [c] into [c']. *)
Inductive matched : Re.regex -> nat -> string -> Re.caps -> Re.caps -> Prop :=
| matched_eps pos c : matched Re.Eps pos "" c c
| matched_chr p pos x c :
    p x = true -> matched (Re.Chr p) pos (String x "") c c
| matched_seq a b pos w1 w2 c c1 c2 :
    matched a pos w1 c c1 ->
    matched b (pos + String.length w1) w2 c1 c2 ->
    matched (Re.Seq a b) pos (w1 ++ w2) c c2
| matched_alt_l a b pos w c c' :
    matched a pos w c c' -> matched (Re.Alt a b) pos w c c'
| matched_alt_r a b pos w c c' :
    matched b pos w c c' -> matched (Re.Alt a b) pos w c c'
| matched_star_nil a pos c : matched (Re.Star a) pos "" c c
| matched_star_cons a pos w1 w2 c c1 c2 :
    matched a pos w1 c c1 ->
    matched (Re.Star a) (pos + String.length w1) w2 c1 c2 ->
    matched (Re.Star a) pos (w1 ++ w2) c c2
| matched_group i a pos w c c' :
    matched a pos w c c' ->
    matched (Re.Group i a) pos w c ((i, (pos, (pos + String.length w)%nat)) :: c')
| matched_bos c : matched Re.Bos 0 "" c c
| matched_eos pos c : matched Re.Eos pos "" c c.

(** The pattern has no group. *)
Fixpoint groupless (r : Re.regex) : bool :=
  match r with
  | Re.Seq a b | Re.Alt a b => groupless a && groupless b
  | Re.Star a => groupless a
  | Re.Group _ _ => false
  | _ => true
  end.

(** [n] spaces. *)
Fixpoint spaces (n : nat) : string :=
  match n with
  | O => ""
  | S n' => String " " (spaces n')
  end.

(** The ways of writing the meridiem, each with whether it is PM. *)
Definition MERIDIEMS : list (string * bool) :=
  [ ("AM", false); ("Am", false); ("aM", false); ("am", false);
    ("PM", true); ("Pm", true); ("pM", true); ("pm", true) ].

(** The reading of a twelve-hour clock on a 24-hour clock; readings no
    twelve-hour clock shows are a [ValueError]. *)
Definition clock24 (h mi : Z) (pm : bool) : result (Z * Z) :=
  if (1 <=? h) && (h <=? 12) && (0 <=? mi) && (mi <=? 59)
  then Ok ((if h =? 12 then 0 else h) + (if pm then 12 else 0), mi)
  else Raise ValueError.

Definition clock_result_eqb (a b : result (Z * Z)) : bool :=
  match a, b with
  | Ok (h, mi), Ok (h', mi') => (h =? h') && (mi =? mi')
  | Raise ValueError, Raise ValueError => true
  | Raise OverflowError, Raise OverflowError => true
  | Raise KeyError, Raise KeyError => true
  | _, _ => false
  end.

(** The numbers from 0 to [n - 1]. *)
Definition upto (n : nat) : list Z := map Z.of_nat (seq 0 n).

(** [to_hm] agrees with [clock24] on the upper-case readings with a
    two-digit hour ([w = 2]) or a one-digit hour ([w = 1]). *)
Definition to_hm_table (w : nat) (hours : nat) : bool :=
  forallb (fun h =>
    forallb (fun mi =>
      forallb (fun pm =>
        clock_result_eqb
          (to_hm (Dt.zpad w h ++ ":" ++ Dt.zpad 2 mi
                  ++ (if pm : bool then "PM" else "AM")))
          (clock24 h mi pm)) [false; true]) (upto 100)) (upto hours).

(** The characters a pattern can take: those of its character classes. *)
Fixpoint accepts_char (r : Re.regex) (x : ascii) : bool :=
  match r with
  | Re.Chr p => p x
  | Re.Seq a b | Re.Alt a b => accepts_char a x || accepts_char b x
  | Re.Star a | Re.Group _ a => accepts_char a x
  | _ => false
  end.

(** The characters of a clock reading [to_hm] can read: decimal digits,
    the colon, the space and the letters A, M and P in either case. *)
Definition clock_char (c : ascii) : bool :=
  Py.isdecimal c || Ascii.eqb c ":" || Ascii.eqb c " "
  || Ascii.eqb (Py.lower_char c) "a" || Ascii.eqb (Py.lower_char c) "m"
  || Ascii.eqb (Py.lower_char c) "p".

(** A hexadecimal digit in lower case. *)
Definition hex_digit (c : ascii) : bool :=
  Py.between 48 57 c || Py.between 97 102 c.

(** A class token as BeautifulSoup splits them: not empty, no white
    space inside. *)
Definition class_token (t : string) : bool :=
  Py.truthy t && Py.all_chars (fun c => negb (Py.isspace c)) t.

(* ===================================================================== *)
(** * Properties *)

(** ** The model on known values *)

(** Texts the time-range pattern takes and leaves. *)
Example time_range_re_samples :
  option_map (fun m => (Re.group m 1, Re.group m 2))
    (Re.match_ TIME_RANGE_RE "  6:00pm-7:00 Am ") = Some ("6:00pm", "7:00 Am")
  /\ option_map (fun m => (Re.group m 1, Re.group m 2))
       (Re.match_ TIME_RANGE_RE "13:00 PM - 2:00 PM") = Some ("13:00 PM", "2:00 PM")
  /\ Re.match_ TIME_RANGE_RE "" = None
  /\ Re.match_ TIME_RANGE_RE "6:00 PM" = None
  /\ Re.match_ TIME_RANGE_RE "All day" = None
  /\ Re.match_ TIME_RANGE_RE "123:00 PM - 1:00 AM" = None
  /\ Re.match_ TIME_RANGE_RE "6:00 PM - 7:00 PM (EST)" = None.
Proof. repeat split; vm_compute; reflexivity. Qed.

(** Clock readings: twelve-hour readings convert, anything else the
    pattern lets through is a [ValueError]. *)
Example to_hm_samples :
  to_hm "12:00 AM" = Ok (0, 0)
  /\ to_hm "12:30 pm" = Ok (12, 30)
  /\ to_hm "07:05 PM" = Ok (19, 5)
  /\ to_hm "13:00 PM" = Raise ValueError
  /\ to_hm "0:30 AM" = Raise ValueError
  /\ to_hm "6:75 PM" = Raise ValueError
  /\ to_hm ("6:00" ++ String (Py.chr 9) "PM") = Raise ValueError.
Proof. repeat split; vm_compute; reflexivity. Qed.

(** A matching text whose clock reading does not parse ends the
    interpreter with the exception. *)
Example parse_time_range_raises :
  parse_time_range "13:00 PM - 2:00 PM" (Dt.mkdate 2025 10 15) = Raise ValueError.
Proof. vm_compute; reflexivity. Qed.

(** The calendar: leap years, month lengths and the ends of the range. *)
Example date_samples :
  Dt.date_new 2025 10 31 = Ok (Dt.mkdate 2025 10 31)
  /\ Dt.date_new 2025 4 31 = Raise ValueError
  /\ Dt.date_new 2024 2 29 = Ok (Dt.mkdate 2024 2 29)
  /\ Dt.date_new 1900 2 29 = Raise ValueError
  /\ Dt.date_new 0 1 1 = Raise ValueError
  /\ Dt.date_new 2025 10 4294967296 = Raise OverflowError
  /\ Dt.next_day (Dt.mkdate 2024 2 28) = Ok (Dt.mkdate 2024 2 29)
  /\ Dt.next_day (Dt.mkdate 2025 12 31) = Ok (Dt.mkdate 2026 1 1)
  /\ Dt.next_day (Dt.mkdate 9999 12 31) = Raise OverflowError.
Proof. repeat split; vm_compute; reflexivity. Qed.

(** Published SHA-1 digests. *)
Example sha1_samples :
  Sha1.hexdigest (Sha1.utf8 "") = "da39a3ee5e6b4b0d3255bfef95601890afd80709"
  /\ Sha1.hexdigest (Sha1.utf8 "abc") = "a9993e364706816aba3e25717850c26c9cd0d89d"
  /\ Sha1.hexdigest
       (Sha1.utf8 "abcdbcdecdefdefgefghfghighijhijkijkljklmklmnlmnomnopnopq")
     = "84983e441c3bd26ebaae4aa1f95129e5e54670f1".
Proof. repeat split; vm_compute; reflexivity. Qed.

(** Header texts. *)
Example header_samples :
  parse_header_month_year Sample.october = Ok (Some 2025, Some 10)
  /\ first_header_match [Soup.Tag "h1" None [Soup.Text "Events for MAY   1999"]]
     = Ok (Some 1999, Some 5)
  /\ first_header_match [Soup.Tag "h1" None [Soup.Text "October2025"];
                          Soup.Tag "h2" None [Soup.Text "june 2024"]]
     = Ok (Some 2024, Some 6)
  /\ first_header_match [Soup.Tag "h1" None [Soup.Text "Calendar"]]
     = Ok (None, None).
Proof. repeat split; vm_compute; reflexivity. Qed.

(** The class filters on whole attribute values and through
    [class_matches]: a filter with two required tokens is met by the
    joined value only; the day filter is met by the token [day] alone. *)
Example class_filter_samples :
  is_event_container_class (Some "event day-targetable") = true
  /\ Soup.class_matches is_event_container_class (Some ["event"; "day-targetable"])
     = true
  /\ Soup.class_matches is_event_container_class (Some ["event"]) = false
  /\ is_day_class (Some "day hidden") = false
  /\ is_day_class (Some "day") = true
  /\ Soup.class_matches is_day_class (Some ["day"; "hidden"]) = true
  /\ Soup.class_matches is_day_class (Some ["birthday"]) = false
  /\ Soup.class_matches is_day_class None = false.
Proof. repeat split; vm_compute; reflexivity. Qed.

(** The sample page for October 2025, all diagnostics on. *)
Example scrape_october :
  scrape_events Sample.october (Dt.mkdate 2026 11 3) Sample.url None None true
  = ([DebugSavedHtml; DebugFoundDays 1; DebugFoundLi (Dt.mkdate 2025 10 31) 1;
      InfoParsed 1],
     Ok [Sample.halloween]).
Proof. vm_compute; reflexivity. Qed.

(** Day 31 under a forced month of April: the cell is skipped. *)
Example scrape_october_as_april :
  snd (scrape_events Sample.october (Dt.mkdate 2026 11 3) Sample.url
         None (Some 4) false) = Ok [].
Proof. vm_compute; reflexivity. Qed.

(** ** Facts about strings *)

Lemma sapp_assoc (x y z : string) : (x ++ y) ++ z = x ++ (y ++ z).
Proof. induction x as [|c x IH]; simpl; [reflexivity | now rewrite IH]. Qed.

Lemma sapp_nil_r (x : string) : x ++ "" = x.
Proof. induction x as [|c x IH]; simpl; [reflexivity | now rewrite IH]. Qed.

Lemma slength_app (x y : string) :
  String.length (x ++ y) = (String.length x + String.length y)%nat.
Proof. induction x as [|c x IH]; simpl; [reflexivity | now rewrite IH]. Qed.

(** Two concatenations with right parts of the same length agree part
    by part. *)
Lemma sapp_inj_r (x x' y y' : string) :
  x ++ y = x' ++ y' -> String.length y = String.length y' -> x = x' /\ y = y'.
Proof.
  revert x'. induction x as [|c x IH]; intros [|c' x'] H L; simpl in H.
  - auto.
  - exfalso. rewrite H in L. simpl in L. rewrite slength_app in L. lia.
  - exfalso. rewrite <- H in L. simpl in L. rewrite slength_app in L. lia.
  - injection H as -> H. destruct (IH _ H L) as [-> ->]. auto.
Qed.

Lemma sapp_inj_l (x x' y y' : string) :
  x ++ y = x' ++ y' -> String.length x = String.length x' -> x = x' /\ y = y'.
Proof.
  revert x'. induction x as [|c x IH]; intros [|c' x'] H L; simpl in *;
    try discriminate.
  - auto.
  - injection H as -> H. injection L as L. destruct (IH _ H L) as [-> ->]. auto.
Qed.

(** ** Facts about results *)

Lemma rbind_ok {A B} (m : result A) (f : A -> result B) (b : B) :
  rbind m f = Ok b -> exists a, m = Ok a /\ f a = Ok b.
Proof.
  destruct m as [a|e]; simpl; intros H; [eauto | discriminate].
Qed.

(** ** Facts about dates and times *)

Lemma valid_time_bounds h mi s :
  Dt.valid_time h mi s = true ->
  0 <= h <= 23 /\ 0 <= mi <= 59 /\ 0 <= s <= 59.
Proof.
  unfold Dt.valid_time. rewrite !andb_true_iff, !Z.leb_le. lia.
Qed.

Lemma datetime_new_ok y m d h mi s t :
  Dt.datetime_new y m d h mi s = Ok t ->
  t = Dt.mkdatetime (Dt.mkdate y m d) h mi s /\ Dt.valid_time h mi s = true.
Proof.
  unfold Dt.datetime_new.
  destruct (negb _); [discriminate|].
  destruct (Dt.valid_date y m d); simpl; [|discriminate].
  destruct (Dt.valid_time h mi s); [|discriminate].
  intros H; inversion H; auto.
Qed.

Lemma strptime_range data t :
  Dt.strptime_I_M_p data = Ok t ->
  0 <= Dt.hour t <= 23 /\ 0 <= Dt.minute t <= 59.
Proof.
  unfold Dt.strptime_I_M_p.
  destruct (Re.match_ Dt.STRPTIME_RE data) as [m|]; [|discriminate].
  destruct (negb _); [discriminate|].
  intros H.
  apply rbind_ok in H. destruct H as (h & _ & H).
  apply rbind_ok in H. destruct H as (mi & _ & H).
  apply datetime_new_ok in H. destruct H as (-> & Hv).
  apply valid_time_bounds in Hv. simpl. lia.
Qed.

Lemma to_hm_range s h mi :
  to_hm s = Ok (h, mi) -> 0 <= h <= 23 /\ 0 <= mi <= 59.
Proof.
  unfold to_hm. intros H.
  apply rbind_ok in H. destruct H as (t & Ht & H).
  inversion H; subst. eapply strptime_range; eauto.
Qed.

(** Turns a goal [b = true], with [b] a conjunction of [<=?] tests, into
    linear arithmetic. *)
Ltac leb_true :=
  rewrite ?andb_true_iff, ?Z.leb_le; lia.

Lemma time_new_ok h mi :
  0 <= h <= 23 -> 0 <= mi <= 59 -> Dt.time_new h mi = Ok (Dt.mktime h mi).
Proof.
  intros Hh Hm. unfold Dt.time_new.
  replace (Dt.c_int h && Dt.c_int mi) with true
    by (symmetry; unfold Dt.c_int; leb_true).
  replace (Dt.valid_time h mi 0) with true
    by (symmetry; unfold Dt.valid_time; leb_true).
  reflexivity.
Qed.

Lemma date_cmp_refl d : Dt.date_cmp d d = Eq.
Proof. unfold Dt.date_cmp. rewrite !Z.compare_refl. reflexivity. Qed.

Lemma lex_antisym c1 c2 : CompOpp (Dt.lex c1 c2) = Dt.lex (CompOpp c1) (CompOpp c2).
Proof. destruct c1; reflexivity. Qed.

Lemma cmp_antisym a b : Dt.cmp b a = CompOpp (Dt.cmp a b).
Proof.
  unfold Dt.cmp, Dt.date_cmp. rewrite !lex_antisym, <- !Z.compare_antisym.
  reflexivity.
Qed.

Lemma not_le_lt a b : Dt.le a b = false -> Dt.lt b a = true.
Proof.
  unfold Dt.le, Dt.lt. rewrite (cmp_antisym a b).
  destruct (Dt.cmp a b); simpl; congruence.
Qed.

Lemma next_day_later d d' : Dt.next_day d = Ok d' -> Dt.date_cmp d d' = Lt.
Proof.
  unfold Dt.next_day, Dt.date_cmp.
  destruct (Dt.day d <? _).
  { intros H; inversion H; simpl. rewrite !Z.compare_refl. simpl.
    apply Z.compare_lt_iff. lia. }
  destruct (Dt.month d <? 12).
  { intros H; inversion H; simpl. rewrite !Z.compare_refl. simpl.
    replace (Dt.month d ?= Dt.month d + 1) with Lt; [reflexivity|].
    symmetry. apply Z.compare_lt_iff. lia. }
  destruct (Dt.year d <? Dt.MAXYEAR); [|discriminate].
  intros H; inversion H; simpl.
  replace (Dt.year d ?= Dt.year d + 1) with Lt; [reflexivity|].
  symmetry. apply Z.compare_lt_iff. lia.
Qed.

Lemma add_one_day d h mi :
  0 <= h <= 23 -> 0 <= mi <= 59 ->
  Dt.add (Dt.mkdatetime d h mi 0) (Dt.timedelta 1 0 0) =
  rbind (Dt.next_day d) (fun d' => Ok (Dt.mkdatetime d' h mi 0)).
Proof.
  intros Hh Hm. unfold Dt.add. simpl Dt.hour. simpl Dt.minute. simpl Dt.second.
  simpl Dt.d_date.
  change (Dt.td_seconds (Dt.timedelta 1 0 0)) with 0.
  change (Dt.td_days (Dt.timedelta 1 0 0)) with 1.
  replace (h * 3600 + mi * 60 + 0 + 0) with (h * 3600 + mi * 60) by lia.
  assert (Hs : 0 <= h * 3600 + mi * 60 < 86400) by lia.
  rewrite (Z.div_small _ _ Hs), (Z.mod_small _ _ Hs).
  change (Dt.shift_days d (1 + 0)) with (rbind (Ok d) Dt.next_day).
  simpl rbind at 2.
  assert (E1 : (h * 3600 + mi * 60) / 3600 = h).
  { symmetry. apply (Z.div_unique _ _ _ (mi * 60)); lia. }
  assert (E2 : (h * 3600 + mi * 60) / 60 mod 60 = mi).
  { replace (h * 3600 + mi * 60) with ((h * 60 + mi) * 60) by lia.
    rewrite Z.div_mul by lia.
    symmetry. apply (Z.mod_unique _ _ h); lia. }
  assert (E3 : (h * 3600 + mi * 60) mod 60 = 0).
  { replace (h * 3600 + mi * 60) with ((h * 60 + mi) * 60) by lia.
    apply Z.mod_mul. lia. }
  rewrite E1, E2, E3. reflexivity.
Qed.

Lemma all_day_fallback base_date :
  (t0 <- Dt.time_new 0 0 ;;
   let start := Dt.combine base_date t0 in
   end_ <- Dt.add start (Dt.timedelta 0 23 59) ;;
   Ok (start, end_))%result
  = Ok (Dt.mkdatetime base_date 0 0 0, Dt.mkdatetime base_date 23 59 0).
Proof. reflexivity. Qed.

Lemma le_same_day d sh sm eh em :
  Dt.le (Dt.mkdatetime d eh em 0) (Dt.mkdatetime d sh sm 0)
  = negb (clock_later sh sm eh em).
Proof.
  unfold Dt.le, Dt.cmp, clock_later. simpl.
  rewrite date_cmp_refl. simpl.
  destruct (Z.compare_spec eh sh) as [->|H|H]; simpl.
  - rewrite Z.ltb_irrefl, Z.eqb_refl. simpl.
    destruct (Z.compare_spec em sm) as [->|H|H]; simpl.
    + now rewrite Z.ltb_irrefl.
    + replace (sm <? em) with false; [reflexivity|]. symmetry. apply Z.ltb_ge. lia.
    + replace (sm <? em) with true; [reflexivity|]. symmetry. apply Z.ltb_lt. lia.
  - replace (sh <? eh) with false by (symmetry; apply Z.ltb_ge; lia).
    replace (sh =? eh) with false by (symmetry; apply Z.eqb_neq; lia).
    reflexivity.
  - replace (sh <? eh) with true by (symmetry; apply Z.ltb_lt; lia).
    reflexivity.
Qed.

Lemma next_day_exists d :
  calendar_date d -> d <> LAST_DAY -> exists d', Dt.next_day d = Ok d'.
Proof.
  unfold calendar_date, Dt.valid_date, Dt.next_day. destruct d as [y m dd]. simpl.
  rewrite !andb_true_iff, !Z.leb_le. intros H Hne.
  destruct (dd <? Dt.days_in_month y m) eqn:E1; [eauto|].
  destruct (m <? 12) eqn:E2; [eauto|].
  destruct (y <? Dt.MAXYEAR) eqn:E3; [eauto|].
  exfalso. apply Hne.
  apply Z.ltb_ge in E1, E2, E3. unfold Dt.MAXYEAR in *.
  assert (m = 12) by lia. assert (y = 9999) by lia. subst.
  change (Dt.days_in_month 9999 12) with 31 in *.
  assert (dd = 31) by lia. subst. reflexivity.
Qed.

Lemma next_day_last : Dt.next_day LAST_DAY = Raise OverflowError.
Proof. reflexivity. Qed.

(** What [parse_time_range] returns on a text that matches. *)
Lemma parse_time_range_matched text base_date m sh sm eh em :
  Re.match_ TIME_RANGE_RE text = Some m ->
  to_hm (Re.group m 1) = Ok (sh, sm) ->
  to_hm (Re.group m 2) = Ok (eh, em) ->
  parse_time_range text base_date =
  if clock_later sh sm eh em
  then Ok (Dt.mkdatetime base_date sh sm 0, Dt.mkdatetime base_date eh em 0)
  else rbind (Dt.next_day base_date)
         (fun d' => Ok (Dt.mkdatetime base_date sh sm 0, Dt.mkdatetime d' eh em 0)).
Proof.
  intros Hm Hs He. unfold parse_time_range. rewrite Hm, Hs. simpl rbind.
  rewrite He. simpl rbind.
  destruct (to_hm_range _ _ _ Hs) as [Hsh Hsm].
  destruct (to_hm_range _ _ _ He) as [Heh Hem].
  rewrite (time_new_ok sh sm Hsh Hsm). simpl rbind.
  rewrite (time_new_ok eh em Heh Hem). simpl rbind.
  unfold Dt.combine. simpl Dt.t_hour. simpl Dt.t_minute.
  rewrite le_same_day.
  destruct (clock_later sh sm eh em); simpl negb; cbv iota; [reflexivity|].
  rewrite (add_one_day base_date eh em Heh Hem).
  destruct (Dt.next_day base_date); reflexivity.
Qed.

(** C2. A text that does not match the time-range pattern (the empty
    string, a single time, any other text) gives, on every base date, the
    all-day interval: start at 00:00:00 of the base date and end at
    23:59:00 of the same date, which is the start plus 23 hours 59
    minutes; no exception is raised. *)
Theorem parse_time_range_unmatched_is_all_day (text : string) (base_date : Dt.date) :
  Re.match_ TIME_RANGE_RE text = None ->
  parse_time_range text base_date =
    Ok (Dt.mkdatetime base_date 0 0 0, Dt.mkdatetime base_date 23 59 0)
  /\ Dt.add (Dt.mkdatetime base_date 0 0 0) (Dt.timedelta 0 23 59)
     = Ok (Dt.mkdatetime base_date 23 59 0).
Proof.
  intros Hm. split; [|reflexivity].
  unfold parse_time_range. rewrite Hm. apply all_day_fallback.
Qed.

Lemma parse_time_range_unmatched_witness :
  Re.match_ TIME_RANGE_RE "" = None
  /\ Re.match_ TIME_RANGE_RE "6:00 PM" = None
  /\ parse_time_range "" (Dt.mkdate 2025 10 15) =
       Ok (Dt.mkdatetime (Dt.mkdate 2025 10 15) 0 0 0,
           Dt.mkdatetime (Dt.mkdate 2025 10 15) 23 59 0)
  /\ parse_time_range "6:00 PM" (Dt.mkdate 2025 10 15) =
       Ok (Dt.mkdatetime (Dt.mkdate 2025 10 15) 0 0 0,
           Dt.mkdatetime (Dt.mkdate 2025 10 15) 23 59 0).
Proof.
  split; [reflexivity|]. split; [reflexivity|]. split.
  - apply (parse_time_range_unmatched_is_all_day "" (Dt.mkdate 2025 10 15)).
    reflexivity.
  - apply (parse_time_range_unmatched_is_all_day "6:00 PM" (Dt.mkdate 2025 10 15)).
    reflexivity.
Defined.

(** C3, as the spec states it, fails on the last day of the calendar:
    the text matches, the end clock reading 00:30 is not later than the
    start 23:30, and adding the day raises [OverflowError]; a page for
    December 9999 with such an entry on the 31st ends the extraction
    with that exception. *)
Lemma rollover_overflows_on_last_day :
  exists m,
    Re.match_ TIME_RANGE_RE "11:30 PM - 12:30 AM" = Some m
    /\ to_hm (Re.group m 1) = Ok (23, 30)
    /\ to_hm (Re.group m 2) = Ok (0, 30)
    /\ clock_later 23 30 0 30 = false
    /\ parse_time_range "11:30 PM - 12:30 AM" LAST_DAY = Raise OverflowError
    /\ snd (scrape_events Sample.last_night (Dt.mkdate 2026 11 3) Sample.url
              None None false) = Raise OverflowError.
Proof.
  eexists. split; [vm_compute; reflexivity|].
  repeat split; vm_compute; reflexivity.
Qed.

(** C3 (amended). For a text that matches the pattern and whose two clock
    readings parse: when the end reading is strictly later than the start
    reading both timestamps are on the base date; otherwise, on every base
    date but 9999-12-31, 24 hours are added to the end timestamp, which
    is then the end reading on the next calendar day; on 9999-12-31 that
    addition raises [OverflowError]. *)
Theorem parse_time_range_rollover
  (text : string) (base_date : Dt.date) (m : Re.match_object) (sh sm eh em : Z) :
  Re.match_ TIME_RANGE_RE text = Some m ->
  to_hm (Re.group m 1) = Ok (sh, sm) ->
  to_hm (Re.group m 2) = Ok (eh, em) ->
  calendar_date base_date ->
  let start := Dt.mkdatetime base_date sh sm 0 in
  let end_ := Dt.mkdatetime base_date eh em 0 in
  (clock_later sh sm eh em = true ->
     parse_time_range text base_date = Ok (start, end_))
  /\ (clock_later sh sm eh em = false -> base_date <> LAST_DAY ->
      exists d',
        Dt.next_day base_date = Ok d'
        /\ Dt.add end_ (Dt.timedelta 1 0 0) = Ok (Dt.mkdatetime d' eh em 0)
        /\ parse_time_range text base_date = Ok (start, Dt.mkdatetime d' eh em 0))
  /\ (clock_later sh sm eh em = false -> base_date = LAST_DAY ->
      parse_time_range text base_date = Raise OverflowError).
Proof.
  intros Hm Hs He Hv start end_.
  pose proof (parse_time_range_matched text base_date m sh sm eh em Hm Hs He) as E.
  destruct (to_hm_range _ _ _ He) as [Heh Hem].
  split; [|split].
  - intros Hc. rewrite E, Hc. reflexivity.
  - intros Hc Hne. destruct (next_day_exists base_date Hv Hne) as [d' Hd].
    exists d'. split; [exact Hd|]. split.
    + unfold end_. rewrite add_one_day by assumption. rewrite Hd. reflexivity.
    + rewrite E, Hc, Hd. reflexivity.
  - intros Hc ->. rewrite E, Hc. reflexivity.
Qed.

Lemma parse_time_range_rollover_witness :
  parse_time_range "11:30 PM - 12:30 AM" (Dt.mkdate 2025 10 15) =
    Ok (Dt.mkdatetime (Dt.mkdate 2025 10 15) 23 30 0,
        Dt.mkdatetime (Dt.mkdate 2025 10 16) 0 30 0)
  /\ parse_time_range "6:00 PM - 7:00 PM" (Dt.mkdate 2025 10 15) =
    Ok (Dt.mkdatetime (Dt.mkdate 2025 10 15) 18 0 0,
        Dt.mkdatetime (Dt.mkdate 2025 10 15) 19 0 0).
Proof.
  split.
  - destruct (parse_time_range_rollover "11:30 PM - 12:30 AM" (Dt.mkdate 2025 10 15)
                (Re.mkmatch "11:30 PM - 12:30 AM" 19 [(2%nat, (11%nat, 19%nat)); (1%nat, (0%nat, 8%nat))])
                23 30 0 30 eq_refl eq_refl eq_refl eq_refl) as (_ & H & _).
    destruct (H eq_refl) as (d' & Hd & _ & Hr).
    + discriminate.
    + rewrite Hr. injection Hd as <-. reflexivity.
  - destruct (parse_time_range_rollover "6:00 PM - 7:00 PM" (Dt.mkdate 2025 10 15)
                (Re.mkmatch "6:00 PM - 7:00 PM" 17 [(2%nat, (10%nat, 17%nat)); (1%nat, (0%nat, 7%nat))])
                18 0 19 0 eq_refl eq_refl eq_refl eq_refl) as (H & _).
    exact (H eq_refl).
Defined.

Lemma lt_same_day_fallback d :
  Dt.lt (Dt.mkdatetime d 0 0 0) (Dt.mkdatetime d 23 59 0) = true.
Proof. unfold Dt.lt, Dt.cmp. simpl. rewrite date_cmp_refl. reflexivity. Qed.

Lemma lt_next_day d d' h mi h' mi' :
  Dt.next_day d = Ok d' ->
  Dt.lt (Dt.mkdatetime d h mi 0) (Dt.mkdatetime d' h' mi' 0) = true.
Proof.
  intros H. unfold Dt.lt, Dt.cmp. simpl.
  rewrite (next_day_later _ _ H). reflexivity.
Qed.

Lemma parse_time_range_lt text base_date s e :
  parse_time_range text base_date = Ok (s, e) -> Dt.lt s e = true.
Proof.
  destruct (Re.match_ TIME_RANGE_RE text) as [m|] eqn:Hm.
  - destruct (to_hm (Re.group m 1)) as [[sh sm]|x] eqn:Hs.
    2:{ unfold parse_time_range. rewrite Hm, Hs. discriminate. }
    destruct (to_hm (Re.group m 2)) as [[eh em]|x] eqn:He.
    2:{ unfold parse_time_range. rewrite Hm, Hs. simpl. rewrite He. discriminate. }
    rewrite (parse_time_range_matched _ base_date _ _ _ _ _ Hm Hs He).
    destruct (clock_later sh sm eh em) eqn:Hc.
    + intros H; inversion H; subst. apply not_le_lt.
      rewrite le_same_day, Hc. reflexivity.
    + destruct (Dt.next_day base_date) as [d'|x] eqn:Hd; [|discriminate].
      intros H; inversion H; subst. now apply lt_next_day.
  - unfold parse_time_range. rewrite Hm, all_day_fallback.
    intros H; inversion H; subst. apply lt_same_day_fallback.
Qed.

(** ** Invariants of the extraction loops *)

Section Extraction.

Variable url : string.
Variable P : event -> Prop.
Hypothesis li_event_P :
  forall base_date li ev, li_event url base_date li = Some (Ok ev) -> P ev.

Lemma li_loop_forall base_date li_nodes :
  forall events r,
    Forall P events ->
    li_loop url base_date li_nodes events = Ok r -> Forall P r.
Proof.
  induction li_nodes as [|li rest IH]; simpl; intros events r HP H.
  - inversion H; subst; assumption.
  - destruct (li_event url base_date li) as [[ev|x]|] eqn:E; simpl in H.
    + apply (IH _ _ (proj2 (Forall_app P events [ev])
                      (conj HP (Forall_cons ev (li_event_P _ _ _ E) (Forall_nil P)))) H).
    + discriminate.
    + apply (IH _ _ HP H).
Qed.

Lemma day_loop_forall verbose year month all_day_divs :
  forall events r,
    Forall P events ->
    snd (day_loop url verbose year month all_day_divs events) = Ok r ->
    Forall P r.
Proof.
  induction all_day_divs as [|day_div rest IH]; simpl; intros events r HP H.
  - inversion H; subst; assumption.
  - destruct (day_date year month day_div) as [[base_date|]|x]; simpl in H.
    + destruct (li_loop url base_date _ events) as [events'|x] eqn:E;
        [|discriminate].
      destruct (day_loop url verbose year month rest events') as [out' r'] eqn:E'.
      simpl in H. subst r'.
      apply (IH events' r (li_loop_forall _ _ _ _ HP E)).
      rewrite E'. reflexivity.
    + apply (IH _ _ HP H).
    + discriminate.
Qed.

Lemma scrape_events_forall soup today forced_year forced_month verbose events :
  snd (scrape_events soup today url forced_year forced_month verbose) = Ok events ->
  Forall P events.
Proof.
  unfold scrape_events.
  destruct (parse_header_month_year soup) as [parsed|x]; [|discriminate].
  destruct (month_context parsed forced_year forced_month today) as [[year month] defaulted].
  destruct (day_loop url verbose year month _ []) as [out3 r] eqn:E.
  destruct r as [evs|x]; simpl; [|discriminate].
  intros H; inversion H; subst.
  eapply (day_loop_forall verbose year month _ [] events (Forall_nil P)).
  rewrite E. reflexivity.
Qed.

End Extraction.

Lemma li_event_ok url base_date li ev :
  li_event url base_date li = Some (Ok ev) ->
  exists start_dt end_dt,
    parse_time_range (snd (li_fields li)) base_date = Ok (start_dt, end_dt)
    /\ ev = {| ev_title := or_default (fst (li_fields li));
               ev_start := start_dt; ev_end := end_dt; ev_source := Some url |}.
Proof.
  unfold li_event. destruct (li_fields li) as [title time_txt]. simpl.
  destruct (negb (Py.truthy title) && negb (Py.truthy time_txt)); [discriminate|].
  intros H. injection H as H.
  destruct (parse_time_range time_txt base_date) as [[s e]|x]; [|discriminate].
  simpl in H. injection H as <-. eauto.
Qed.

(** C4. Every pair the time interpreter returns has its end strictly
    after its start, whatever the text and the base date, and so has every
    event of the list the extractor returns. *)
Theorem events_end_after_start :
  (forall text base_date start_dt end_dt,
      parse_time_range text base_date = Ok (start_dt, end_dt) ->
      Dt.lt start_dt end_dt = true)
  /\ (forall soup today url forced_year forced_month verbose events,
         snd (scrape_events soup today url forced_year forced_month verbose)
         = Ok events ->
         Forall (fun ev => Dt.lt (ev_start ev) (ev_end ev) = true) events).
Proof.
  split.
  - exact parse_time_range_lt.
  - intros soup today url fy fm verbose events.
    apply scrape_events_forall.
    intros base_date li ev H.
    destruct (li_event_ok _ _ _ _ H) as (s & e & Hp & ->). simpl.
    exact (parse_time_range_lt _ _ _ _ Hp).
Qed.

Lemma events_end_after_start_witness :
  parse_time_range "12:00 PM - 12:00 PM" (Dt.mkdate 2024 2 29) =
    Ok (Dt.mkdatetime (Dt.mkdate 2024 2 29) 12 0 0,
        Dt.mkdatetime (Dt.mkdate 2024 3 1) 12 0 0)
  /\ Dt.lt (Dt.mkdatetime (Dt.mkdate 2024 2 29) 12 0 0)
           (Dt.mkdatetime (Dt.mkdate 2024 3 1) 12 0 0) = true.
Proof.
  split; [reflexivity|].
  apply (proj1 events_end_after_start "12:00 PM - 12:00 PM" (Dt.mkdate 2024 2 29)).
  reflexivity.
Defined.

(** ** Escaping *)

Lemma replace_one_char a new s :
  Py.replace (String a "") new s = subst_char a new s.
Proof.
  unfold Py.replace. simpl String.eqb.
  induction s as [|c s IH]; [reflexivity|].
  simpl. destruct (ascii_dec a c) as [->|Hne].
  - rewrite Ascii.eqb_refl.
    replace (String.prefix "" s) with true by (destruct s; reflexivity).
    rewrite IH. reflexivity.
  - destruct (Ascii.eqb_spec a c); [contradiction|]. rewrite IH. reflexivity.
Qed.

Lemma subst_char_app a new x y :
  subst_char a new (x ++ y) = subst_char a new x ++ subst_char a new y.
Proof.
  induction x as [|c x IH]; [reflexivity|].
  simpl. destruct (Ascii.eqb a c); rewrite IH.
  - now rewrite sapp_assoc.
  - reflexivity.
Qed.

Lemma ics_escape_subst s :
  ics_escape s =
  subst_char "," "\," (subst_char ";" "\;" (subst_char "\" "\\" s)).
Proof. unfold ics_escape. now rewrite !replace_one_char. Qed.

Lemma ics_escape_each s : ics_escape s = escape_each s.
Proof.
  rewrite ics_escape_subst.
  induction s as [|c s IH]; [reflexivity|].
  cbn [subst_char escape_each]. unfold escape_char.
  destruct (Ascii.eqb_spec "\" c) as [<-|H1].
  { rewrite !subst_char_app, IH. reflexivity. }
  destruct (Ascii.eqb_spec c "\") as [->|_]; [contradiction|].
  cbn [subst_char].
  destruct (Ascii.eqb_spec ";" c) as [<-|H2].
  { rewrite !subst_char_app, IH. reflexivity. }
  destruct (Ascii.eqb_spec c ";") as [->|_]; [contradiction|].
  cbn [subst_char].
  destruct (Ascii.eqb_spec "," c) as [<-|H3].
  { rewrite IH. reflexivity. }
  destruct (Ascii.eqb_spec c ",") as [->|_]; [contradiction|].
  rewrite IH. reflexivity.
Qed.

(** C5. [ics_escape] replaces the backslash first, then the semicolon,
    then the comma; the result is the text with each backslash, semicolon
    and comma preceded by exactly one backslash and every other character
    unchanged, so nothing a replacement wrote is escaped again; the title
    [A, B; C\D] becomes [A\, B\; C\\D]. *)
Theorem ics_escape_once :
  (forall s, ics_escape s =
             Py.replace "," "\," (Py.replace ";" "\;" (Py.replace "\" "\\" s)))
  /\ (forall s, ics_escape s = escape_each s)
  /\ ics_escape "A, B; C\D" = "A\, B\; C\\D".
Proof.
  split; [reflexivity|]. split; [exact ics_escape_each|reflexivity].
Qed.

(** Escaping the backslash last would escape the backslashes written for
    the semicolon and the comma a second time. *)
Example escape_backslash_last_doubles :
  Py.replace "\" "\\" (Py.replace "," "\," (Py.replace ";" "\;" "a;b")) = "a\\;b"
  /\ ics_escape "a;b" = "a\;b".
Proof. split; reflexivity. Qed.

(** ** Header resolution *)

(** When the header gives a year and a month, each override replaces its
    own field and the local date is not used. *)
Lemma month_context_header_found y m forced_year forced_month today :
  y <> 0 -> m <> 0 ->
  month_context (Some y, Some m) forced_year forced_month today =
  (match forced_year with Some fy => if fy =? 0 then y else fy | None => y end,
   match forced_month with Some fm => if fm =? 0 then m else fm | None => m end,
   false).
Proof.
  intros Hy Hm. unfold month_context, truthy_int.
  apply Z.eqb_neq in Hy, Hm.
  destruct forced_year as [fy|], forced_month as [fm|]; simpl;
    repeat match goal with
      | |- context [?a =? 0] => destruct (a =? 0) eqn:?; simpl
      end; congruence.
Qed.

(** When the header gives nothing, the local date is used unless both
    overrides are given. *)
Lemma month_context_header_missing forced_year forced_month today :
  month_context (None, None) forced_year forced_month today =
  if truthy_int forced_year && truthy_int forced_month
  then (match forced_year with Some fy => fy | None => 0 end,
        match forced_month with Some fm => fm | None => 0 end, false)
  else (Dt.year today, Dt.month today, true).
Proof.
  unfold month_context, truthy_int.
  destruct forced_year as [fy|], forced_month as [fm|]; simpl;
    repeat match goal with
      | |- context [?a =? 0] => destruct (a =? 0) eqn:?; simpl
      end; try reflexivity; congruence.
Qed.

(** C1 at its failing input: no header on the page, a year override of
    2024, no month override, local date 2026-11-03.  The override is
    dropped: year and month are those of the local date, and the event is
    dated 2026-11-03. *)
Theorem year_override_dropped_without_header :
  parse_header_month_year Sample.no_header = Ok (None, None)
  /\ month_context (None, None) (Some 2024) None (Dt.mkdate 2026 11 3)
     = (2026, 11, true)
  /\ scrape_events Sample.no_header (Dt.mkdate 2026 11 3) Sample.url
       (Some 2024) None true
     = ([DebugSavedHtml; WarnHeaderDefault 11 2026; DebugFoundDays 1;
         DebugFoundLi (Dt.mkdate 2026 11 3) 1; InfoParsed 1],
        Ok [ {| ev_title := "Parade";
                ev_start := Dt.mkdatetime (Dt.mkdate 2026 11 3) 18 0 0;
                ev_end := Dt.mkdatetime (Dt.mkdate 2026 11 3) 19 0 0;
                ev_source := Some Sample.url |} ]).
Proof. repeat split; vm_compute; reflexivity. Qed.

(** ** Day containers *)

(** A tag with the class token [day] passes the day filter whatever its
    other tokens are: the filter sees the token [day] on its own. *)
Lemma day_token_suffices toks :
  In "day" toks -> Soup.class_matches is_day_class (Some toks) = true.
Proof.
  intros H. unfold Soup.class_matches. apply orb_true_iff. left.
  apply existsb_exists. exists "day". split; [assumption | reflexivity].
Qed.

(** C8 at its failing input: a day cell with the classes [day hidden]
    and one well-formed entry.  The cell is selected and its event is
    extracted and serialized. *)
Theorem hidden_day_event_is_extracted :
  Soup.find_all Sample.october_hidden ["div"] is_day_class
  = [Sample.day_cell ["day"; "hidden"] "31"
       [Sample.entry "Halloween Party" "6:00 PM - 7:00 PM"]]
  /\ snd (scrape_events Sample.october_hidden (Dt.mkdate 2026 11 3) Sample.url
            None None false)
     = Ok [Sample.halloween].
Proof. split; vm_compute; reflexivity. Qed.

(** ** Entries *)

Lemma truthy_false s : Py.truthy s = false <-> s = "".
Proof.
  unfold Py.truthy. destruct (String.eqb_spec s ""); simpl; split; congruence.
Qed.

Lemma or_default_idem t : or_default (or_default t) = or_default t.
Proof.
  unfold or_default. destruct (Py.truthy t) eqn:E; [now rewrite E | reflexivity].
Qed.

(** C9, as the spec states it, fails: an entry with a time and no title
    is extracted with the placeholder as its title, not the empty string. *)
Lemma empty_title_not_preserved :
  li_fields (Sample.entry "" "6:00 PM - 7:00 PM") = ("", "6:00 PM - 7:00 PM")
  /\ snd (scrape_events Sample.untitled (Dt.mkdate 2026 11 3) Sample.url
            None None false)
     = Ok [Sample.unnamed_event].
Proof. split; vm_compute; reflexivity. Qed.

(** C9 (amended). An entry is skipped exactly when its title and its time
    text are both empty.  An entry that yields an event has the title
    found on the page, or the placeholder [MyVMK Event] when that title is
    empty: the placeholder is written at extraction.  The serializer
    applies the same default again, which leaves the title of an
    extracted event as it is. *)
Theorem entry_skipped_iff_both_empty (url : string) (base_date : Dt.date)
  (li : Soup.node) :
  let title := fst (li_fields li) in
  let time_txt := snd (li_fields li) in
  (li_event url base_date li = None <-> title = "" /\ time_txt = "")
  /\ (forall ev,
         li_event url base_date li = Some (Ok ev) ->
         ev_title ev = (if (title =? "")%string then "MyVMK Event" else title)
         /\ or_default (ev_title ev) = ev_title ev).
Proof.
  intros title time_txt. split.
  - unfold li_event. fold title time_txt.
    destruct (li_fields li) as [t tt]. simpl in title, time_txt.
    subst title time_txt.
    rewrite <- !truthy_false.
    destruct (Py.truthy t), (Py.truthy tt); simpl; split;
      intros H; try discriminate; try (destruct H; discriminate); auto.
  - intros ev H. destruct (li_event_ok _ _ _ _ H) as (s & e & _ & ->).
    cbn [ev_title]. fold title. split.
    + unfold or_default, Py.truthy. destruct (title =? "")%string; reflexivity.
    + apply or_default_idem.
Qed.

Lemma entry_skipped_iff_both_empty_witness :
  li_event Sample.url (Dt.mkdate 2025 10 15) (Sample.entry "" "") = None
  /\ li_event Sample.url (Dt.mkdate 2025 10 15)
       (Sample.entry "" "6:00 PM - 7:00 PM")
     = Some (Ok Sample.unnamed_event)
  /\ ev_title Sample.unnamed_event = "MyVMK Event".
Proof.
  split; [|split].
  - apply (proj1 (entry_skipped_iff_both_empty Sample.url (Dt.mkdate 2025 10 15)
                    (Sample.entry "" ""))).
    split; reflexivity.
  - vm_compute; reflexivity.
  - apply (proj2 (entry_skipped_iff_both_empty Sample.url (Dt.mkdate 2025 10 15)
                    (Sample.entry "" "6:00 PM - 7:00 PM")) Sample.unnamed_event).
    vm_compute; reflexivity.
Defined.

(** ** The lines of the feed *)

Lemma fold_left_app_flat_map {A B} (f : A -> list B) (l : list A) (init : list B) :
  fold_left (fun acc x => acc ++ f x)%list l init = (init ++ flat_map f l)%list.
Proof.
  revert init. induction l as [|x l IH]; intros init; simpl.
  - now rewrite app_nil_r.
  - now rewrite IH, app_assoc.
Qed.

Lemma ics_lines_shape events tzid cal_name utcnow :
  ics_lines events tzid cal_name utcnow =
  (header_lines cal_name
   ++ flat_map (event_lines (Dt.strftime_compact utcnow ++ "Z")%string tzid) events
   ++ ["END:VCALENDAR"])%list.
Proof.
  unfold ics_lines. cbv zeta.
  rewrite (fold_left_app_flat_map
             (event_lines (Dt.strftime_compact utcnow ++ "Z") tzid)).
  now rewrite <- app_assoc.
Qed.

Lemma truthy_true s : s <> "" -> Py.truthy s = true.
Proof.
  intros H. unfold Py.truthy. destruct (String.eqb_spec s ""); [contradiction|reflexivity].
Qed.

(** ** The call as a whole *)

Lemma run_bind_snd {A B} (m : Run.io A) (k : A -> Run.io B) :
  snd (Run.bind m k)
  = match snd m with Ok a => snd (k a) | Raise e => Raise e end.
Proof.
  destruct m as [out [a|e]]; cbn [Run.bind snd]; [|reflexivity].
  destruct (k a); reflexivity.
Qed.


(** What [load_html] returns does not depend on [verbose]: it is the
    outcome of the browser steps in turn. *)
Lemma load_html_snd w url verbose :
  snd (Run.load_html w url verbose)
  = (_ <- Run.start w ;; _ <- Run.launch w ;; _ <- Run.goto w url ;;
     _ <- Run.settle w url ;; Run.content w url)%result.
Proof.
  unfold Run.load_html, Run.bind, Run.say, Run.call.
  destruct verbose, (Run.start w), (Run.launch w), (Run.goto w url),
    (Run.settle w url), (Run.content w url); reflexivity.
Qed.


(** A page that was loaded has a URL that is not empty. *)
Lemma load_html_ok w url verbose html :
  snd (Run.load_html w url verbose) = Ok html -> url <> "".
Proof.
  rewrite load_html_snd. unfold Run.goto. intros H ->.
  destruct (Run.start w); [|discriminate]. destruct (Run.launch w); discriminate.
Qed.

(** A call that returns has loaded the page, has written the debug copy
    if it was asked to, and returns what the parsed page gives. *)
Lemma run_scrape_events_ok w url forced_year forced_month verbose events :
  snd (Run.scrape_events w url forced_year forced_month verbose) = Ok events ->
  exists html,
    snd (Run.load_html w url verbose) = Ok html
    /\ url <> ""
    /\ (verbose = true -> Run.save w html = Ok tt)
    /\ snd (scrape_events (Run.parse w html) (Run.today w) url
              forced_year forced_month verbose) = Ok events.
Proof.
  unfold Run.scrape_events. rewrite run_bind_snd.
  destruct (snd (Run.load_html w url verbose)) as [html|e] eqn:L; [|discriminate].
  rewrite run_bind_snd. cbn [Run.call snd]. intros H.
  exists html. split; [reflexivity|]. split; [exact (load_html_ok _ _ _ _ L)|].
  destruct verbose.
  - destruct (Run.save w html) as [[]|e]; [|discriminate]. auto.
  - split; [discriminate | exact H].
Qed.

Lemma flat_map_same {A B} (f g : A -> list B) l :
  Forall (fun x => f x = g x) l -> flat_map f l = flat_map g l.
Proof.
  induction 1 as [|x l Hx _ IH]; [reflexivity|].
  cbn [flat_map]. now rewrite Hx, IH.
Qed.

(** C10. Every event a call returns has the URL of the call as its
    source.  A call returns only after the browser has loaded the URL,
    which is then not empty, so in the document [build_ics] makes of the
    events every event block has its description line, with the escaped
    URL, before [END:VEVENT]. *)
Theorem scraped_events_have_description
  (w : Run.world) (url : string) (forced_year forced_month : option Z)
  (verbose : bool) (events : list event)
  (tzid : option string) (cal_name : string) (utcnow : Dt.datetime) :
  snd (Run.scrape_events w url forced_year forced_month verbose) = Ok events ->
  let now := Dt.strftime_compact utcnow ++ "Z" in
  let block (ev : event) :=
    [ "BEGIN:VEVENT";
      "DTSTAMP:" ++ now;
      "UID:" ++ make_uid (ev_title ev) (ev_start ev) (ev_end ev);
      "SUMMARY:" ++ ics_escape (ev_title ev);
      "DTSTART" ++ ics_dt (ev_start ev) tzid;
      "DTEND" ++ ics_dt (ev_end ev) tzid;
      "DESCRIPTION:" ++ ics_escape url;
      "END:VEVENT" ] in
  Forall (fun ev => ev_source ev = Some url) events
  /\ build_ics events tzid cal_name utcnow
     = Py.join NL (header_lines cal_name ++ flat_map block events
                   ++ ["END:VCALENDAR"])%list ++ NL.
Proof.
  intros H now block.
  destruct (run_scrape_events_ok _ _ _ _ _ _ H) as (html & _ & Hurl & _ & Hp).
  assert (HS : Forall (fun ev => ev_source ev = Some url
                                 /\ or_default (ev_title ev) = ev_title ev) events).
  { apply (scrape_events_forall url _) with (2 := Hp).
    intros base_date li ev E.
    destruct (li_event_ok _ _ _ _ E) as (s & e & _ & ->). simpl.
    split; [reflexivity | apply or_default_idem]. }
  split.
  - eapply Forall_impl; [|exact HS]. now intros ev [? _].
  - unfold build_ics. rewrite ics_lines_shape. fold now.
    rewrite (flat_map_same (event_lines now tzid) block); [reflexivity|].
    eapply Forall_impl; [|exact HS]. intros ev [Hs Ht].
    unfold event_lines, block. rewrite Hs, Ht, (truthy_true url Hurl). reflexivity.
Qed.

Lemma scraped_events_have_description_witness :
  snd (Run.scrape_events (Sample.world Sample.october (Ok tt)) Sample.url
         None None false) = Ok [Sample.halloween]
  /\ ev_source Sample.halloween = Some Sample.url
  /\ nth 11 (split_lines
               (build_ics [Sample.halloween] (Some "America/New_York")
                  DEFAULT_CAL_NAME (Dt.mkdatetime (Dt.mkdate 2026 11 3) 12 0 0))) ""
     = "DESCRIPTION:https://download.myvmk.com/calendar.html".
Proof.
  split; [vm_compute; reflexivity|].
  destruct (scraped_events_have_description
              (Sample.world Sample.october (Ok tt))
              Sample.url None None false [Sample.halloween]
              (Some "America/New_York") DEFAULT_CAL_NAME
              (Dt.mkdatetime (Dt.mkdate 2026 11 3) 12 0 0)
              ltac:(vm_compute; reflexivity)) as (Hs & Hb).
  split.
  - exact (Forall_inv Hs).
  - rewrite Hb. vm_compute. reflexivity.
Defined.

(** ** Lines without line feeds *)

Lemma one_line_app x y : one_line (x ++ y) = one_line x && one_line y.
Proof.
  unfold one_line. induction x as [|c x IH]; simpl; [reflexivity|].
  now rewrite IH, andb_assoc.
Qed.

Lemma digit_char_cases n :
  In (Dt.digit_char n) ["0"; "1"; "2"; "3"; "4"; "5"; "6"; "7"; "8"; "9"]%char.
Proof.
  unfold Dt.digit_char.
  assert (H : 0 <= n mod 10 < 10) by (apply Z.mod_pos_bound; lia).
  assert (C : n mod 10 = 0 \/ n mod 10 = 1 \/ n mod 10 = 2 \/ n mod 10 = 3
              \/ n mod 10 = 4 \/ n mod 10 = 5 \/ n mod 10 = 6 \/ n mod 10 = 7
              \/ n mod 10 = 8 \/ n mod 10 = 9) by lia.
  repeat (destruct C as [-> | C]; [simpl; tauto|]). rewrite C. simpl. tauto.
Qed.

Lemma hex_char_cases n :
  In (Sha1.hex_char n)
     ["0"; "1"; "2"; "3"; "4"; "5"; "6"; "7"; "8"; "9";
      "a"; "b"; "c"; "d"; "e"; "f"]%char.
Proof.
  unfold Sha1.hex_char.
  assert (H : 0 <= n mod 16 < 16) by (apply Z.mod_pos_bound; lia).
  assert (C : n mod 16 = 0 \/ n mod 16 = 1 \/ n mod 16 = 2 \/ n mod 16 = 3
              \/ n mod 16 = 4 \/ n mod 16 = 5 \/ n mod 16 = 6 \/ n mod 16 = 7
              \/ n mod 16 = 8 \/ n mod 16 = 9 \/ n mod 16 = 10 \/ n mod 16 = 11
              \/ n mod 16 = 12 \/ n mod 16 = 13 \/ n mod 16 = 14 \/ n mod 16 = 15)
    by lia.
  repeat (destruct C as [-> | C]; [simpl; tauto|]). rewrite C. simpl. tauto.
Qed.

Lemma one_line_digit n : one_line (String (Dt.digit_char n) "") = true.
Proof.
  pose proof (digit_char_cases n) as H. simpl in H.
  repeat (destruct H as [<- | H]; [reflexivity|]). contradiction.
Qed.

Lemma one_line_hex n : one_line (String (Sha1.hex_char n) "") = true.
Proof.
  pose proof (hex_char_cases n) as H. simpl in H.
  repeat (destruct H as [<- | H]; [reflexivity|]). contradiction.
Qed.

Lemma one_line_zpad w n : one_line (Dt.zpad w n) = true.
Proof.
  revert n. induction w as [|w IH]; intros n; simpl; [reflexivity|].
  now rewrite one_line_app, IH, one_line_digit.
Qed.

Lemma one_line_hexpad w n : one_line (Sha1.hexpad w n) = true.
Proof.
  revert n. induction w as [|w IH]; intros n; simpl; [reflexivity|].
  now rewrite one_line_app, IH, one_line_hex.
Qed.

Lemma one_line_strftime x : one_line (Dt.strftime_compact x) = true.
Proof.
  unfold Dt.strftime_compact.
  now rewrite !one_line_app, !one_line_zpad.
Qed.

Lemma one_line_escape s : one_line (ics_escape s) = one_line s.
Proof.
  rewrite ics_escape_each.
  induction s as [|c s IH]; [reflexivity|].
  cbn [escape_each]. rewrite one_line_app, IH.
  change (String c s) with (String c "" ++ s). rewrite one_line_app. f_equal.
  unfold escape_char.
  destruct (Ascii.eqb_spec c "\") as [->|]; [reflexivity|].
  destruct (Ascii.eqb_spec c ";") as [->|]; [reflexivity|].
  destruct (Ascii.eqb_spec c ",") as [->|]; reflexivity.
Qed.

Lemma one_line_or_default t : one_line t = true -> one_line (or_default t) = true.
Proof. unfold or_default. destruct (Py.truthy t); [auto | reflexivity]. Qed.

Lemma one_line_ics_dt x tzid :
  label_one_line tzid = true -> one_line (ics_dt x tzid) = true.
Proof.
  unfold ics_dt, label_one_line. destruct tzid as [tz|].
  - intros H. destruct (Py.truthy tz).
    + now rewrite !one_line_app, H, one_line_strftime.
    + now rewrite one_line_app, one_line_strftime.
  - intros _. now rewrite one_line_app, one_line_strftime.
Qed.

Lemma one_line_make_uid t s e : one_line (make_uid t s e) = true.
Proof.
  unfold make_uid, Sha1.hexdigest. now rewrite one_line_app, one_line_hexpad.
Qed.

(** ** Splitting a document into lines *)

Lemma split_lines_go_one_line x cur rest :
  one_line x = true ->
  split_lines_go cur (x ++ rest) = split_lines_go (cur ++ x) rest.
Proof.
  revert cur. induction x as [|c x IH]; intros cur H; simpl.
  - now rewrite sapp_nil_r.
  - unfold one_line in H. simpl in H. apply andb_true_iff in H. destruct H as [Hc Hx].
    apply negb_true_iff in Hc. rewrite Hc, (IH _ Hx), sapp_assoc. reflexivity.
Qed.

Lemma split_lines_go_nl cur rest :
  split_lines_go cur (NL ++ rest) = cur :: split_lines_go "" rest.
Proof. reflexivity. Qed.

Lemma split_lines_join lines cur :
  Forall (fun l => one_line l = true) lines ->
  lines <> [] ->
  split_lines_go cur (Py.join NL lines ++ NL) =
  match lines with
  | [] => []
  | l :: rest => (cur ++ l)%string :: (rest ++ [""])%list
  end.
Proof.
  intros H. revert cur. induction H as [|l rest Hl Hrest IH]; intros cur Hne.
  - contradiction.
  - destruct rest as [|l' rest'].
    + simpl Py.join. rewrite (split_lines_go_one_line _ _ _ Hl).
      reflexivity.
    + change (Py.join NL (l :: l' :: rest')) with (l ++ NL ++ Py.join NL (l' :: rest')).
      rewrite !sapp_assoc, (split_lines_go_one_line _ _ _ Hl), split_lines_go_nl.
      rewrite IH by discriminate. reflexivity.
Qed.

Lemma split_lines_build lines :
  Forall (fun l => one_line l = true) lines ->
  lines <> [] ->
  split_lines (Py.join NL lines ++ NL) = (lines ++ [""])%list.
Proof.
  intros H Hne. unfold split_lines. rewrite (split_lines_join _ _ H Hne).
  destruct lines; [contradiction | reflexivity].
Qed.

(** ** Blocks of the document *)

Lemma blocks_closed_header opened x rest :
  blocks_closed opened
    ("BEGIN:VCALENDAR" :: "VERSION:2.0" :: "PRODID:-//MyVMK Scraper//EN"
     :: "CALSCALE:GREGORIAN" :: ("X-WR-CALNAME:" ++ x) :: rest)
  = blocks_closed ("VCALENDAR" :: opened) rest.
Proof. reflexivity. Qed.

Lemma blocks_closed_event_plain opened a b c d e rest :
  blocks_closed opened
    ("BEGIN:VEVENT" :: ("DTSTAMP:" ++ a) :: ("UID:" ++ b) :: ("SUMMARY:" ++ c)
     :: ("DTSTART" ++ d) :: ("DTEND" ++ e) :: "END:VEVENT" :: rest)
  = blocks_closed opened rest.
Proof. reflexivity. Qed.

Lemma blocks_closed_event_described opened a b c d e f rest :
  blocks_closed opened
    ("BEGIN:VEVENT" :: ("DTSTAMP:" ++ a) :: ("UID:" ++ b) :: ("SUMMARY:" ++ c)
     :: ("DTSTART" ++ d) :: ("DTEND" ++ e) :: ("DESCRIPTION:" ++ f)
     :: "END:VEVENT" :: rest)
  = blocks_closed opened rest.
Proof. reflexivity. Qed.

Lemma blocks_closed_event opened now tzid ev rest :
  blocks_closed opened (event_lines now tzid ev ++ rest)%list
  = blocks_closed opened rest.
Proof.
  unfold event_lines. cbv zeta.
  destruct (ev_source ev) as [src|]; [destruct (Py.truthy src)|].
  - apply blocks_closed_event_described.
  - apply blocks_closed_event_plain.
  - apply blocks_closed_event_plain.
Qed.

Lemma blocks_closed_events opened now tzid events rest :
  blocks_closed opened (flat_map (event_lines now tzid) events ++ rest)%list
  = blocks_closed opened rest.
Proof.
  induction events as [|ev events IH]; [reflexivity|].
  simpl flat_map. rewrite <- app_assoc, blocks_closed_event. exact IH.
Qed.

Lemma event_lines_one_line now tzid ev :
  one_line now = true -> label_one_line tzid = true -> event_one_line ev = true ->
  Forall (fun l => one_line l = true) (event_lines now tzid ev).
Proof.
  intros Hn Ht He. unfold event_one_line in He.
  apply andb_true_iff in He. destruct He as [He Hs].
  assert (H6 : Forall (fun l => one_line l = true)
                 [ "BEGIN:VEVENT";
                   "DTSTAMP:" ++ now;
                   "UID:" ++ make_uid (or_default (ev_title ev)) (ev_start ev) (ev_end ev);
                   "SUMMARY:" ++ ics_escape (or_default (ev_title ev));
                   "DTSTART" ++ ics_dt (ev_start ev) tzid;
                   "DTEND" ++ ics_dt (ev_end ev) tzid ]).
  { repeat constructor; rewrite ?one_line_app, ?one_line_escape;
      rewrite ?Hn, ?one_line_make_uid, ?one_line_or_default, ?one_line_ics_dt;
      auto. }
  unfold event_lines. cbv zeta.
  destruct (ev_source ev) as [src|]; [destruct (Py.truthy src)|];
    repeat (apply Forall_app; split); try exact H6;
    repeat constructor.
  now rewrite one_line_app, one_line_escape, Hs.
Qed.

Lemma ics_lines_one_line events tzid cal_name utcnow :
  Forall (fun ev => event_one_line ev = true) events ->
  label_one_line tzid = true -> one_line cal_name = true ->
  Forall (fun l => one_line l = true) (ics_lines events tzid cal_name utcnow).
Proof.
  intros He Ht Hc. rewrite ics_lines_shape.
  apply Forall_app; split; [|apply Forall_app; split].
  - repeat constructor. now rewrite one_line_app, one_line_escape, Hc.
  - apply Forall_flat_map. eapply Forall_impl; [|exact He].
    intros ev Hev. apply event_lines_one_line; auto.
    now rewrite one_line_app, one_line_strftime.
  - repeat constructor.
Qed.

(** C7, as the spec states it, fails for some event sequences: a title
    with a line feed followed by [BEGIN:VEVENT] is extracted and written
    as it is, and the document then has a block that is opened and never
    closed. *)
Lemma line_feed_in_title_opens_a_block :
  snd (scrape_events Sample.two_line (Dt.mkdate 2026 11 3) Sample.url
         None None false) = Ok [Sample.two_line_event]
  /\ complete_document
       (build_ics [Sample.two_line_event] None DEFAULT_CAL_NAME
          (Dt.mkdatetime (Dt.mkdate 2026 11 3) 12 0 0)) = false
  /\ nth 8 (split_lines
              (build_ics [Sample.two_line_event] None DEFAULT_CAL_NAME
                 (Dt.mkdatetime (Dt.mkdate 2026 11 3) 12 0 0))) ""
     = "SUMMARY:Party"
  /\ nth 9 (split_lines
              (build_ics [Sample.two_line_event] None DEFAULT_CAL_NAME
                 (Dt.mkdatetime (Dt.mkdate 2026 11 3) 12 0 0))) ""
     = "BEGIN:VEVENT".
Proof. repeat split; vm_compute; reflexivity. Qed.

(** C7 (amended). Given no event, the document is the five header lines
    followed at once by the closing line, each ended by a line feed, with
    no event block.  For every event sequence in which no title, source
    or label holds a line feed, the document read line by line is the list
    of lines the serializer wrote, and every block opened in it is
    closed. *)
Theorem build_ics_complete :
  (forall tzid cal_name utcnow,
      build_ics [] tzid cal_name utcnow =
      Py.join NL [ "BEGIN:VCALENDAR"; "VERSION:2.0";
                   "PRODID:-//MyVMK Scraper//EN"; "CALSCALE:GREGORIAN";
                   "X-WR-CALNAME:" ++ ics_escape cal_name;
                   "END:VCALENDAR" ] ++ NL)
  /\ (forall events tzid cal_name utcnow,
         Forall (fun ev => event_one_line ev = true) events ->
         label_one_line tzid = true ->
         one_line cal_name = true ->
         split_lines (build_ics events tzid cal_name utcnow)
         = (ics_lines events tzid cal_name utcnow ++ [""])%list
         /\ complete_document (build_ics events tzid cal_name utcnow) = true).
Proof.
  split; [reflexivity|].
  intros events tzid cal_name utcnow He Ht Hc.
  assert (E : split_lines (build_ics events tzid cal_name utcnow)
              = (ics_lines events tzid cal_name utcnow ++ [""])%list).
  { unfold build_ics. apply split_lines_build.
    - now apply ics_lines_one_line.
    - rewrite ics_lines_shape. discriminate. }
  split; [exact E|].
  unfold complete_document. rewrite E, ics_lines_shape.
  unfold header_lines. rewrite <- !app_assoc. cbn [app].
  rewrite blocks_closed_header, blocks_closed_events. reflexivity.
Qed.

Lemma build_ics_complete_witness :
  complete_document
    (build_ics [Sample.halloween] (Some "America/New_York") DEFAULT_CAL_NAME
       (Dt.mkdatetime (Dt.mkdate 2026 11 3) 12 0 0)) = true
  /\ complete_document
       (build_ics [] (Some "America/New_York") DEFAULT_CAL_NAME
          (Dt.mkdatetime (Dt.mkdate 2026 11 3) 12 0 0)) = true.
Proof.
  split.
  - apply (proj2 build_ics_complete [Sample.halloween] (Some "America/New_York")
             DEFAULT_CAL_NAME (Dt.mkdatetime (Dt.mkdate 2026 11 3) 12 0 0)).
    + repeat constructor.
    + reflexivity.
    + reflexivity.
  - apply (proj2 build_ics_complete [] (Some "America/New_York")
             DEFAULT_CAL_NAME (Dt.mkdatetime (Dt.mkdate 2026 11 3) 12 0 0)).
    + constructor.
    + reflexivity.
    + reflexivity.
Defined.

(** ** The range of SHA-1 *)





(** ** Characters and their codes *)



Lemma ord_chr z : 0 <= z < 256 -> Py.ord (Py.chr z) = z.
Proof.
  intros H. unfold Py.ord, Py.chr. rewrite N_ascii_embedding by lia. lia.
Qed.

Lemma digit_char_inj a b :
  Dt.digit_char a = Dt.digit_char b -> a mod 10 = b mod 10.
Proof.
  unfold Dt.digit_char. intros H. apply (f_equal Py.ord) in H.
  pose proof (Z.mod_pos_bound a 10 ltac:(lia)).
  pose proof (Z.mod_pos_bound b 10 ltac:(lia)).
  rewrite !ord_chr in H by lia. lia.
Qed.


(** ** Padded numerals *)

Lemma zpad_length w n : String.length (Dt.zpad w n) = w.
Proof.
  revert n. induction w as [|w IH]; intros n; simpl; [reflexivity|].
  rewrite slength_app, IH. simpl. lia.
Qed.

Lemma hexpad_length w n : String.length (Sha1.hexpad w n) = w.
Proof.
  revert n. induction w as [|w IH]; intros n; simpl; [reflexivity|].
  rewrite slength_app, IH. simpl. lia.
Qed.

Lemma zpad_inj w :
  forall a b, 0 <= a < 10 ^ Z.of_nat w -> 0 <= b < 10 ^ Z.of_nat w ->
              Dt.zpad w a = Dt.zpad w b -> a = b.
Proof.
  induction w as [|w IH]; intros a b Ha Hb H.
  - simpl in Ha, Hb. lia.
  - rewrite Nat2Z.inj_succ, Z.pow_succ_r in Ha, Hb by lia.
    simpl in H. apply sapp_inj_r in H; [|reflexivity]. destruct H as [H1 H2].
    injection H2 as H2. apply digit_char_inj in H2.
    assert (E : a / 10 = b / 10).
    { apply IH; [| |exact H1].
      - split; [apply Z.div_pos; lia | apply Z.div_lt_upper_bound; lia].
      - split; [apply Z.div_pos; lia | apply Z.div_lt_upper_bound; lia]. }
    rewrite (Z.div_mod a 10), (Z.div_mod b 10) by lia. lia.
Qed.


(** ** The hashed text *)


Lemma valid_datetime_bounds x :
  valid_datetime x ->
  0 <= Dt.year (Dt.d_date x) < 10 ^ Z.of_nat 4
  /\ 0 <= Dt.month (Dt.d_date x) < 10 ^ Z.of_nat 2
  /\ 0 <= Dt.day (Dt.d_date x) < 10 ^ Z.of_nat 2
  /\ 0 <= Dt.hour x < 10 ^ Z.of_nat 2
  /\ 0 <= Dt.minute x < 10 ^ Z.of_nat 2
  /\ 0 <= Dt.second x < 10 ^ Z.of_nat 2.
Proof.
  intros [Hd Ht]. unfold Dt.valid_date, Dt.valid_time, Dt.MINYEAR, Dt.MAXYEAR in *.
  rewrite !andb_true_iff, !Z.leb_le in Hd, Ht.
  assert (Dt.days_in_month (Dt.year (Dt.d_date x)) (Dt.month (Dt.d_date x)) <= 31).
  { unfold Dt.days_in_month.
    repeat match goal with |- context [if ?c then _ else _] => destruct c end; lia. }
  change (10 ^ Z.of_nat 4) with 10000. change (10 ^ Z.of_nat 2) with 100. lia.
Qed.


Lemma sep_inj c a a' b b' :
  a ++ String c b = a' ++ String c b' ->
  String.length a = String.length a' -> a = a' /\ b = b'.
Proof.
  intros H L. apply sapp_inj_l in H; [|exact L].
  destruct H as [-> H]. injection H as ->. auto.
Qed.







(* ===================================================================== *)
(** * Further properties *)

(** ** More on escaping *)

Lemma escape_each_app a b : escape_each (a ++ b) = escape_each a ++ escape_each b.
Proof.
  induction a as [|c a IH]; [reflexivity|].
  cbn [append escape_each]. now rewrite IH, sapp_assoc.
Qed.

Lemma escape_char_cases c :
  (escape_char c = String "\" (String c "")
   /\ (Ascii.eqb c "\" || Ascii.eqb c ";" || Ascii.eqb c ",")%bool = true)
  \/ (escape_char c = String c ""
      /\ Ascii.eqb c "\" = false /\ Ascii.eqb c ";" = false
      /\ Ascii.eqb c "," = false).
Proof.
  unfold escape_char.
  destruct (Ascii.eqb c "\"), (Ascii.eqb c ";"), (Ascii.eqb c ","); simpl; auto.
Qed.

(** X1. Escaping loses nothing: reading the escaped text back, each
    backslash standing for the character after it, gives the text again;
    so different texts have different escaped forms. *)
Theorem ics_escape_round_trip :
  (forall s, ics_unescape (ics_escape s) = s)
  /\ (forall s t, ics_escape s = ics_escape t -> s = t).
Proof.
  assert (R : forall s, ics_unescape (ics_escape s) = s).
  { intros s. rewrite ics_escape_each.
    induction s as [|c s IH]; [reflexivity|].
    cbn [escape_each].
    destruct (escape_char_cases c) as [[-> _]|[-> (H1 & _ & _)]].
    - cbn [append ics_unescape]. rewrite Ascii.eqb_refl, IH. reflexivity.
    - cbn [append ics_unescape]. rewrite H1, IH. reflexivity. }
  split; [exact R|].
  intros s t H. rewrite <- (R s), <- (R t), H. reflexivity.
Qed.

Lemma ics_escape_round_trip_witness :
  ics_unescape "a\;b" = "a;b" /\ "a;b" = ics_unescape "a\;b".
Proof.
  split; [reflexivity|].
  apply (proj2 ics_escape_round_trip "a;b" (ics_unescape "a\;b")). reflexivity.
Defined.

(** X2. In an escaped text every semicolon and every comma stands right
    after a backslash that escapes it, and every backslash escapes the
    character after it: no separator of the feed is left bare. *)
Theorem ics_escape_guards_separators (s : string) :
  separators_guarded (ics_escape s) = true.
Proof.
  rewrite ics_escape_each.
  induction s as [|c s IH]; [reflexivity|].
  cbn [escape_each].
  destruct (escape_char_cases c) as [[-> _]|[-> (H1 & H2 & H3)]].
  - cbn [append separators_guarded]. rewrite Ascii.eqb_refl. exact IH.
  - cbn [append separators_guarded]. rewrite H1, H2, H3. exact IH.
Qed.

Lemma plain_text_escape s : plain_text s = true -> escape_each s = s.
Proof.
  unfold plain_text. induction s as [|c s IH]; [reflexivity|].
  cbn [Py.all_chars escape_each]. intros H.
  apply andb_true_iff in H. destruct H as [Hc Hs].
  unfold escape_char. apply negb_true_iff in Hc. rewrite Hc, (IH Hs). reflexivity.
Qed.

(** X3. Escaping works character by character: the escaped form of a
    concatenation is the concatenation of the escaped forms, and a text
    with no backslash, semicolon or comma is written as it is. *)
Theorem ics_escape_concat :
  (forall a b, ics_escape (a ++ b) = ics_escape a ++ ics_escape b)
  /\ (forall s, plain_text s = true -> ics_escape s = s).
Proof.
  split.
  - intros a b. rewrite !ics_escape_each. apply escape_each_app.
  - intros s H. rewrite ics_escape_each. now apply plain_text_escape.
Qed.

Lemma ics_escape_concat_witness :
  ics_escape "MyVMK Events" = "MyVMK Events".
Proof.
  apply (proj2 ics_escape_concat "MyVMK Events"). reflexivity.
Defined.

(** ** Text of a tag *)

Lemma lstrip_no_leading_space s :
  starts_with_space (Py.lstrip_of Py.isspace s) = false.
Proof.
  induction s as [|c s IH]; [reflexivity|].
  cbn [Py.lstrip_of]. destruct (Py.isspace c) eqn:E; [exact IH|].
  cbn [starts_with_space]. exact E.
Qed.

Lemma rstrip_keeps_start s :
  starts_with_space s = false ->
  starts_with_space (Py.rstrip_of Py.isspace s) = false.
Proof.
  destruct s as [|c s]; [reflexivity|].
  cbn [starts_with_space Py.rstrip_of]. intros E. rewrite E, andb_false_r.
  cbn [starts_with_space]. exact E.
Qed.

Lemma rstrip_no_trailing_space s :
  ends_with_space (Py.rstrip_of Py.isspace s) = false.
Proof.
  induction s as [|c s IH]; [reflexivity|].
  cbn [Py.rstrip_of].
  destruct (Py.rstrip_of Py.isspace s) as [|d r] eqn:E.
  - cbn [String.eqb andb]. destruct (Py.isspace c) eqn:Ec; [reflexivity|].
    cbn [ends_with_space]. exact Ec.
  - cbn [String.eqb andb]. exact IH.
Qed.

(** X4. [safe_text] gives the empty text for a missing tag, and the text
    it gives never starts or ends with white space. *)
Theorem safe_text_is_stripped :
  safe_text None = ""
  /\ (forall x, starts_with_space (safe_text x) = false
                /\ ends_with_space (safe_text x) = false).
Proof.
  split; [reflexivity|].
  intros x. unfold safe_text, Py.strip. split.
  - apply rstrip_keeps_start, lstrip_no_leading_space.
  - apply rstrip_no_trailing_space.
Qed.

(** ** The span of an interval *)

Lemma parse_time_range_shape (text : string) (base_date : Dt.date)
  (start_dt end_dt : Dt.datetime) :
  parse_time_range text base_date = Ok (start_dt, end_dt) ->
  Dt.d_date start_dt = base_date
  /\ Dt.second start_dt = 0 /\ Dt.second end_dt = 0
  /\ 0 <= Dt.hour start_dt <= 23 /\ 0 <= Dt.minute start_dt <= 59
  /\ 0 <= Dt.hour end_dt <= 23 /\ 0 <= Dt.minute end_dt <= 59
  /\ (Dt.d_date end_dt = base_date
      \/ (Dt.next_day base_date = Ok (Dt.d_date end_dt)
          /\ clock_le (Dt.hour end_dt) (Dt.minute end_dt)
                      (Dt.hour start_dt) (Dt.minute start_dt))).
Proof.
  destruct (Re.match_ TIME_RANGE_RE text) as [m|] eqn:Hm.
  - destruct (to_hm (Re.group m 1)) as [[sh sm]|x] eqn:Hs.
    2:{ unfold parse_time_range. rewrite Hm, Hs. discriminate. }
    destruct (to_hm (Re.group m 2)) as [[eh em]|x] eqn:He.
    2:{ unfold parse_time_range. rewrite Hm, Hs. simpl. rewrite He. discriminate. }
    rewrite (parse_time_range_matched _ base_date _ _ _ _ _ Hm Hs He).
    destruct (to_hm_range _ _ _ Hs) as [Hsh Hsm].
    destruct (to_hm_range _ _ _ He) as [Heh Hem].
    destruct (clock_later sh sm eh em) eqn:Hc.
    + intros H; inversion H; subst; simpl. repeat split; try lia. now left.
    + destruct (Dt.next_day base_date) as [d'|x] eqn:Hd; [|discriminate].
      intros H; inversion H; subst; simpl. repeat split; try lia.
      right. split; [reflexivity|].
      unfold clock_later in Hc. unfold clock_le.
      apply orb_false_iff in Hc. destruct Hc as [H1 H2].
      apply Z.ltb_ge in H1. apply andb_false_iff in H2.
      destruct H2 as [H2|H2]; [apply Z.eqb_neq in H2 | apply Z.ltb_ge in H2]; lia.
  - unfold parse_time_range. rewrite Hm, all_day_fallback.
    intros H; inversion H; subst; simpl. repeat split; try lia. now left.
Qed.

(** X5. An interval the time interpreter returns starts on the base
    date, has whole minutes at both ends, and ends on the base date or on
    the day after at a clock reading not later than the start's: it never
    lasts more than 24 hours. *)
Theorem parse_time_range_span (text : string) (base_date : Dt.date)
  (start_dt end_dt : Dt.datetime) :
  parse_time_range text base_date = Ok (start_dt, end_dt) ->
  Dt.d_date start_dt = base_date
  /\ Dt.second start_dt = 0 /\ Dt.second end_dt = 0
  /\ (Dt.d_date end_dt = base_date
      \/ (Dt.next_day base_date = Ok (Dt.d_date end_dt)
          /\ clock_le (Dt.hour end_dt) (Dt.minute end_dt)
                      (Dt.hour start_dt) (Dt.minute start_dt))).
Proof.
  intros H. destruct (parse_time_range_shape _ _ _ _ H)
    as (H1 & H2 & H3 & _ & _ & _ & _ & H4).
  auto.
Qed.

Lemma parse_time_range_span_witness :
  Dt.next_day (Dt.mkdate 2025 10 15) = Ok (Dt.mkdate 2025 10 16)
  /\ Dt.d_date (Dt.mkdatetime (Dt.mkdate 2025 10 15) 23 30 0) = Dt.mkdate 2025 10 15.
Proof.
  split; [reflexivity|].
  apply (parse_time_range_span "11:30 PM - 12:30 AM" (Dt.mkdate 2025 10 15)
           (Dt.mkdatetime (Dt.mkdate 2025 10 15) 23 30 0)
           (Dt.mkdatetime (Dt.mkdate 2025 10 16) 0 30 0)).
  reflexivity.
Defined.

(** ** The loops of the extractor *)

Lemma li_loop_ok url base_date li_nodes :
  forall events r,
    li_loop url base_date li_nodes events = Ok r ->
    r = (events ++ entry_events url base_date li_nodes)%list.
Proof.
  induction li_nodes as [|li rest IH]; intros events r H.
  - simpl in H. injection H as <-. unfold entry_events. simpl.
    now rewrite app_nil_r.
  - cbn [li_loop] in H. unfold entry_events. cbn [flat_map].
    destruct (li_event url base_date li) as [[ev|x]|] eqn:E.
    + simpl in H. apply IH in H. rewrite H, <- app_assoc. reflexivity.
    + discriminate.
    + apply IH in H. exact H.
Qed.

Lemma li_loop_raises url base_date li_nodes li e :
  In li li_nodes -> li_event url base_date li = Some (Raise e) ->
  forall events, exists e', li_loop url base_date li_nodes events = Raise e'.
Proof.
  induction li_nodes as [|li0 rest IH]; intros Hin He events; [contradiction|].
  cbn [li_loop].
  destruct (li_event url base_date li0) as [[ev|x]|] eqn:E.
  - simpl. destruct Hin as [->|Hin]; [congruence|]. apply (IH Hin He).
  - simpl. eauto.
  - destruct Hin as [->|Hin]; [congruence|]. apply (IH Hin He).
Qed.

Lemma day_loop_ok url verbose year month all_day_divs :
  forall events r,
    snd (day_loop url verbose year month all_day_divs events) = Ok r ->
    r = (events ++ flat_map (day_events url year month) all_day_divs)%list.
Proof.
  induction all_day_divs as [|day_div rest IH]; intros events r H.
  - simpl in H. injection H as <-. simpl. now rewrite app_nil_r.
  - cbn [day_loop] in H. cbn [flat_map]. unfold day_events at 1.
    destruct (day_date year month day_div) as [[base_date|]|x].
    + destruct (li_loop url base_date _ events) as [events'|x] eqn:E;
        [|discriminate].
      destruct (day_loop url verbose year month rest events') as [out' r'] eqn:E'.
      simpl in H. subst r'.
      apply li_loop_ok in E. subst events'.
      rewrite (IH _ r (f_equal snd E')). now rewrite <- app_assoc.
    + simpl. apply IH. exact H.
    + discriminate.
Qed.

Lemma day_loop_raises url verbose year month all_day_divs day_div base_date li e :
  In day_div all_day_divs ->
  day_date year month day_div = Ok (Some base_date) ->
  In li (Soup.find_all day_div ["li"] (has_class "event-li")) ->
  li_event url base_date li = Some (Raise e) ->
  forall events,
  exists e', snd (day_loop url verbose year month all_day_divs events) = Raise e'.
Proof.
  induction all_day_divs as [|d0 rest IH]; intros Hin Hd Hli He events;
    [contradiction|].
  cbn [day_loop].
  destruct (day_date year month d0) as [[b0|]|x] eqn:E0.
  - destruct (li_loop url b0 _ events) as [events'|x] eqn:EL.
    + destruct Hin as [->|Hin].
      * rewrite Hd in E0. injection E0 as <-.
        destruct (li_loop_raises url base_date _ li e Hli He events) as [e' He'].
        congruence.
      * destruct (IH Hin Hd Hli He events') as [e' He'].
        destruct (day_loop url verbose year month rest events') as [out' r'].
        simpl in *. eauto.
    + simpl. eauto.
  - destruct Hin as [->|Hin]; [congruence|]. apply (IH Hin Hd Hli He).
  - simpl. eauto.
Qed.





(** X7. The events come in document order, day container by day
    container and entry by entry: the list returned is the events of the
    first selected container, then those of the second, and so on;
    nothing is sorted, merged or dropped apart from the skipped
    containers and entries. *)
Theorem scrape_events_in_document_order
  (soup : Soup.node) (today : Dt.date) (url : string)
  (forced_year forced_month : option Z) (verbose : bool) (events : list event) :
  snd (scrape_events soup today url forced_year forced_month verbose) = Ok events ->
  exists year month,
    resolved_month soup today forced_year forced_month = Ok (year, month)
    /\ events = flat_map (day_events url year month)
                  (Soup.find_all soup ["div"] is_day_class).
Proof.
  unfold scrape_events, resolved_month.
  destruct (parse_header_month_year soup) as [parsed|x]; [|discriminate].
  destruct (month_context parsed forced_year forced_month today)
    as [[year month] defaulted].
  destruct (day_loop url verbose year month _ []) as [out3 r] eqn:E.
  intros H. exists year, month. split; [reflexivity|].
  assert (Hr : r = Ok events) by (destruct r; simpl in H; congruence).
  subst r.
  apply (day_loop_ok url verbose year month _ [] events).
  rewrite E. reflexivity.
Qed.

Lemma scrape_events_in_document_order_witness :
  exists year month,
    resolved_month Sample.october (Dt.mkdate 2026 11 3) None None = Ok (year, month)
    /\ [Sample.halloween]
       = flat_map (day_events Sample.url year month)
           (Soup.find_all Sample.october ["div"] is_day_class).
Proof.
  apply (scrape_events_in_document_order Sample.october (Dt.mkdate 2026 11 3)
           Sample.url None None false [Sample.halloween]).
  vm_compute. reflexivity.
Defined.

(** X8. One entry whose time text makes the interpreter raise loses
    them all: if any entry of any selected day container raises, the call
    ends with an exception and returns no event, whatever the other
    entries are. *)
Theorem scrape_events_all_or_nothing
  (soup : Soup.node) (today : Dt.date) (url : string)
  (forced_year forced_month : option Z) (verbose : bool)
  (year month : Z) (day_div li : Soup.node) (base_date : Dt.date) (e : exn) :
  resolved_month soup today forced_year forced_month = Ok (year, month) ->
  In day_div (Soup.find_all soup ["div"] is_day_class) ->
  day_date year month day_div = Ok (Some base_date) ->
  In li (Soup.find_all day_div ["li"] (has_class "event-li")) ->
  li_event url base_date li = Some (Raise e) ->
  exists e',
    snd (scrape_events soup today url forced_year forced_month verbose) = Raise e'.
Proof.
  unfold scrape_events, resolved_month.
  destruct (parse_header_month_year soup) as [parsed|x]; [|discriminate].
  destruct (month_context parsed forced_year forced_month today)
    as [[y m] defaulted].
  intros H Hd Hdate Hli He. injection H as -> ->.
  destruct (day_loop_raises url verbose year month _ day_div base_date li e
              Hd Hdate Hli He []) as [e' He'].
  destruct (day_loop url verbose year month _ []) as [out3 r].
  simpl in He'. subst r. simpl. eauto.
Qed.

(** ** Numerals *)

(** Decides a goal or a hypothesis about the character classes, which
    are comparisons of the character's code. *)
Ltac class_cases :=
  unfold Py.isdigit_char, Py.isdecimal, Py.int_space, Py.isspace, Py.between in *;
  repeat match goal with
    | |- context [?a <=? ?b] => destruct (Z.leb_spec a b)
    | |- context [?a =? ?b] => destruct (Z.eqb_spec a b)
    | H : context [?a <=? ?b] |- _ => destruct (Z.leb_spec a b)
    | H : context [?a =? ?b] |- _ => destruct (Z.eqb_spec a b)
    end;
  simpl in *; try reflexivity; try discriminate; try lia.

Lemma digit_not_int_space c : Py.isdigit_char c = true -> Py.int_space c = false.
Proof. intros H. class_cases. Qed.

Lemma decimal_is_digit c : Py.isdecimal c = true -> Py.isdigit_char c = true.
Proof. intros H. unfold Py.isdigit_char. now rewrite H. Qed.

Lemma digit_not_underscore c : Py.isdigit_char c = true -> (Py.ord c =? 95) = false.
Proof. intros H. class_cases. Qed.

Lemma all_chars_impl (p q : ascii -> bool) s :
  (forall c, p c = true -> q c = true) ->
  Py.all_chars p s = true -> Py.all_chars q s = true.
Proof.
  intros Hpq. induction s as [|c s IH]; [reflexivity|].
  cbn [Py.all_chars]. rewrite !andb_true_iff. intros [Hc Hs]. auto.
Qed.

Lemma lstrip_id sp c s : sp c = false -> Py.lstrip_of sp (String c s) = String c s.
Proof. intros H. cbn [Py.lstrip_of]. now rewrite H. Qed.

Lemma rstrip_id sp s :
  Py.all_chars (fun c => negb (sp c)) s = true -> Py.rstrip_of sp s = s.
Proof.
  induction s as [|c s IH]; [reflexivity|].
  cbn [Py.all_chars Py.rstrip_of]. rewrite andb_true_iff. intros [Hc Hs].
  apply negb_true_iff in Hc. rewrite (IH Hs), Hc, andb_false_r. reflexivity.
Qed.

Lemma int_strip_digits s :
  Py.all_chars Py.isdigit_char s = true ->
  Py.rstrip_of Py.int_space (Py.lstrip_of Py.int_space s) = s.
Proof.
  intros H. destruct s as [|c s]; [reflexivity|].
  assert (Hc : Py.isdigit_char c = true).
  { cbn [Py.all_chars] in H. now apply andb_true_iff in H. }
  rewrite (lstrip_id _ _ _ (digit_not_int_space c Hc)).
  apply rstrip_id. revert H. apply all_chars_impl.
  intros d Hd. now rewrite (digit_not_int_space d Hd).
Qed.

Lemma digits_value_decimal s :
  forall acc, Py.all_chars Py.isdecimal s = true ->
              Py.digits_value acc s = Some (decimal_value acc s).
Proof.
  induction s as [|c s IH]; intros acc H; [reflexivity|].
  cbn [Py.all_chars] in H. apply andb_true_iff in H. destruct H as [Hc Hs].
  cbn [Py.digits_value decimal_value]. rewrite Hc. now apply IH.
Qed.

Lemma digits_value_not_decimal s :
  forall acc, Py.all_chars Py.isdigit_char s = true ->
              Py.all_chars Py.isdecimal s = false ->
              Py.digits_value acc s = None.
Proof.
  induction s as [|c s IH]; intros acc H N; [discriminate|].
  cbn [Py.all_chars] in H, N. apply andb_true_iff in H. destruct H as [Hc Hs].
  cbn [Py.digits_value].
  destruct (Py.isdecimal c) eqn:E.
  - simpl in N. now apply IH.
  - now rewrite (digit_not_underscore c Hc).
Qed.

Lemma decimal_value_bounds s :
  Py.all_chars Py.isdecimal s = true ->
  forall acc, 0 <= acc -> 0 <= decimal_value acc s.
Proof.
  induction s as [|c s IH]; intros H acc Hacc; [exact Hacc|].
  cbn [Py.all_chars] in H. apply andb_true_iff in H. destruct H as [Hc Hs].
  cbn [decimal_value]. apply (IH Hs).
  unfold Py.isdecimal, Py.between in Hc. apply andb_true_iff in Hc.
  rewrite !Z.leb_le in Hc. lia.
Qed.

(** [int] on a text of digit characters: the sign and the white space
    play no part, and the value is read by [digits_value]. *)
Lemma int_of_digits c s :
  Py.all_chars Py.isdigit_char (String c s) = true ->
  Py.int (String c s) =
  match (if Py.isdecimal c
         then (if Py.INT_MAX_STR_DIGITS <? Py.digit_count (String c s) then None
               else Py.digits_value 0 (String c s))
         else None) with
  | Some z => Ok z
  | None => Raise ValueError
  end.
Proof.
  intros H. unfold Py.int. rewrite (int_strip_digits _ H).
  assert (Hc : Py.isdigit_char c = true).
  { cbn [Py.all_chars] in H. now apply andb_true_iff in H. }
  clear H.
  destruct c as [[] [] [] [] [] [] [] []]; try discriminate Hc; reflexivity.
Qed.

Lemma digit_count_decimal s :
  Py.all_chars Py.isdecimal s = true ->
  Py.digit_count s = Z.of_nat (String.length s).
Proof.
  induction s as [|c s IH]; [reflexivity|].
  cbn [Py.all_chars]. rewrite andb_true_iff. intros [Hc Hs].
  cbn [Py.digit_count String.length]. rewrite Hc, (IH Hs). lia.
Qed.

(** [int] on a text of decimal digits: its value, unless the text is
    longer than the interpreter's limit. *)
Lemma int_decimal s :
  s <> "" -> Py.all_chars Py.isdecimal s = true ->
  Py.int s =
  if Py.INT_MAX_STR_DIGITS <? Z.of_nat (String.length s) then Raise ValueError
  else Ok (decimal_value 0 s).
Proof.
  intros Hne H. destruct s as [|c s]; [contradiction|].
  rewrite int_of_digits by (revert H; apply all_chars_impl, decimal_is_digit).
  assert (Hc : Py.isdecimal c = true).
  { cbn [Py.all_chars] in H. now apply andb_true_iff in H. }
  rewrite Hc, (digit_count_decimal _ H), (digits_value_decimal _ 0 H).
  destruct (Py.INT_MAX_STR_DIGITS <? _); reflexivity.
Qed.

Lemma int_superscript s :
  Py.isdigit s = true -> Py.all_chars Py.isdecimal s = false ->
  Py.int s = Raise ValueError.
Proof.
  unfold Py.isdigit. intros H N. apply andb_true_iff in H. destruct H as [Hne H].
  destruct s as [|c s]; [discriminate|].
  rewrite (int_of_digits _ _ H).
  destruct (Py.isdecimal c); [|reflexivity].
  destruct (Py.INT_MAX_STR_DIGITS <? _); [reflexivity|].
  now rewrite (digits_value_not_decimal _ 0 H N).
Qed.


(** ** Day containers, one by one *)



(** X10. A label that passes [isdigit] without being made of decimal
    digits only (a superscript two, for one) is not skipped: [int] raises
    [ValueError] outside the [try], and the container ends the call. *)
Theorem day_date_superscript_raises (year month : Z) (day_div : Soup.node)
  (label : string) :
  day_label day_div = Some label ->
  Py.isdigit label = true ->
  Py.all_chars Py.isdecimal label = false ->
  day_date year month day_div = Raise ValueError
  /\ (forall url verbose rest events,
         snd (day_loop url verbose year month (day_div :: rest) events)
         = Raise ValueError).
Proof.
  unfold day_label. intros H Hd N.
  assert (E : day_date year month day_div = Raise ValueError).
  { unfold day_date.
    destruct (Soup.find day_div "p" (has_class "number")) as [num_tag|];
      [|discriminate].
    injection H as Hl. rewrite Hl, Hd, (int_superscript _ Hd N). reflexivity. }
  split; [exact E|].
  intros url verbose rest events. cbn [day_loop]. rewrite E. reflexivity.
Qed.

Lemma scrape_events_all_or_nothing_witness :
  exists e',
    snd (scrape_events bad_clock_page (Dt.mkdate 2026 11 3) Sample.url
           None None false) = Raise e'.
Proof.
  apply (scrape_events_all_or_nothing bad_clock_page (Dt.mkdate 2026 11 3)
           Sample.url None None false 2025 10
           (Sample.day_cell ["day"] "15"
              [Sample.entry "Parade" "6:00 PM - 7:00 PM";
               Sample.entry "Fireworks" "13:00 PM - 2:00 PM"])
           (Sample.entry "Fireworks" "13:00 PM - 2:00 PM")
           (Dt.mkdate 2025 10 15) ValueError).
  - reflexivity.
  - left. reflexivity.
  - reflexivity.
  - right. left. reflexivity.
  - vm_compute. reflexivity.
Defined.

Lemma day_date_superscript_raises_witness :
  day_date 2025 10 superscript_cell = Raise ValueError.
Proof.
  apply (day_date_superscript_raises 2025 10 superscript_cell
           (String (Py.chr 178) "")); reflexivity.
Defined.

(** ** The events of a page *)

Lemma days_in_month_bounds y m : 28 <= Dt.days_in_month y m <= 31.
Proof.
  unfold Dt.days_in_month.
  repeat match goal with |- context [if ?c then _ else _] => destruct c end; lia.
Qed.

Lemma next_day_calendar_date d d' :
  calendar_date d -> Dt.next_day d = Ok d' -> calendar_date d'.
Proof.
  unfold calendar_date, Dt.valid_date, Dt.next_day, Dt.MINYEAR, Dt.MAXYEAR.
  destruct d as [y m dd]. cbn [Dt.year Dt.month Dt.day].
  rewrite !andb_true_iff, !Z.leb_le. intros H.
  destruct (Z.ltb_spec dd (Dt.days_in_month y m)).
  { intros E. injection E as <-. cbn [Dt.year Dt.month Dt.day]. lia. }
  destruct (Z.ltb_spec m 12).
  { intros E. injection E as <-. cbn [Dt.year Dt.month Dt.day].
    pose proof (days_in_month_bounds y (m + 1)). lia. }
  destruct (Z.ltb_spec y 9999); [|discriminate].
  intros E. injection E as <-. cbn [Dt.year Dt.month Dt.day].
  pose proof (days_in_month_bounds (y + 1) 1). lia.
Qed.

Lemma day_date_some year month day_div base_date :
  day_date year month day_div = Ok (Some base_date) ->
  Dt.year base_date = year /\ Dt.month base_date = month
  /\ calendar_date base_date.
Proof.
  unfold day_date.
  destruct (Soup.find day_div "p" (has_class "number")) as [num_tag|];
    [|discriminate].
  destruct (negb _); [discriminate|].
  destruct (Py.int _) as [day_num|x]; [|discriminate].
  cbn [rbind]. unfold Dt.date_new.
  destruct (negb _); [discriminate|].
  destruct (Dt.valid_date year month day_num) eqn:V; [|discriminate].
  intros H. injection H as <-. unfold calendar_date. cbn. auto.
Qed.

Lemma or_default_not_empty t : or_default t <> "".
Proof.
  unfold or_default. destruct (Py.truthy t) eqn:E; [|discriminate].
  intros ->. discriminate.
Qed.

Lemma valid_time_of_bounds h mi :
  0 <= h <= 23 -> 0 <= mi <= 59 -> Dt.valid_time h mi 0 = true.
Proof.
  intros. unfold Dt.valid_time. rewrite !andb_true_iff, !Z.leb_le. lia.
Qed.

(** X11. Every event the extractor returns has a title that is not
    empty, starts on a date the calendar has, in the year and the month
    the call resolved, and has real date-times at both ends. *)
Theorem scraped_events_are_dated
  (soup : Soup.node) (today : Dt.date) (url : string)
  (forced_year forced_month : option Z) (verbose : bool) (events : list event) :
  snd (scrape_events soup today url forced_year forced_month verbose) = Ok events ->
  exists year month,
    resolved_month soup today forced_year forced_month = Ok (year, month)
    /\ Forall (fun ev =>
                 ev_title ev <> ""
                 /\ Dt.year (Dt.d_date (ev_start ev)) = year
                 /\ Dt.month (Dt.d_date (ev_start ev)) = month
                 /\ valid_datetime (ev_start ev)
                 /\ valid_datetime (ev_end ev)) events.
Proof.
  unfold scrape_events, resolved_month.
  destruct (parse_header_month_year soup) as [parsed|x]; [|discriminate].
  destruct (month_context parsed forced_year forced_month today)
    as [[year month] defaulted].
  destruct (day_loop url verbose year month _ []) as [out3 r] eqn:E.
  intros H. exists year, month. split; [reflexivity|].
  assert (Hr : r = Ok events) by (destruct r; simpl in H; congruence).
  subst r. clear H.
  rewrite (day_loop_ok url verbose year month _ [] events (f_equal snd E)).
  cbn [app]. apply Forall_flat_map, Forall_forall. intros day_div _.
  unfold day_events.
  destruct (day_date year month day_div) as [[base_date|]|x] eqn:Hd;
    try constructor.
  destruct (day_date_some _ _ _ _ Hd) as (Hy & Hm & Hv).
  unfold entry_events. apply Forall_flat_map, Forall_forall. intros li _.
  destruct (li_event url base_date li) as [[ev|x]|] eqn:Hli; try constructor;
    [|constructor].
  destruct (li_event_ok _ _ _ _ Hli) as (s & e & Hp & ->).
  destruct (parse_time_range_shape _ _ _ _ Hp)
    as (H1 & H2 & H3 & H4 & H5 & H6 & H7 & H8).
  cbn [ev_title ev_start ev_end].
  split; [apply or_default_not_empty|].
  rewrite H1. split; [exact Hy|]. split; [exact Hm|].
  unfold valid_datetime. rewrite H1, H2, H3.
  split; (split; [|now apply valid_time_of_bounds]).
  - exact Hv.
  - destruct H8 as [->|[Hn _]]; [exact Hv|].
    exact (next_day_calendar_date _ _ Hv Hn).
Qed.

Lemma scraped_events_are_dated_witness :
  exists year month,
    resolved_month Sample.october (Dt.mkdate 2026 11 3) None None = Ok (year, month)
    /\ Forall (fun ev =>
                 ev_title ev <> ""
                 /\ Dt.year (Dt.d_date (ev_start ev)) = year
                 /\ Dt.month (Dt.d_date (ev_start ev)) = month
                 /\ valid_datetime (ev_start ev)
                 /\ valid_datetime (ev_end ev)) [Sample.halloween].
Proof.
  apply (scraped_events_are_dated Sample.october (Dt.mkdate 2026 11 3)
           Sample.url None None false [Sample.halloween]).
  vm_compute. reflexivity.
Defined.

(** ** Time stamps of the feed *)

Lemma strftime_compact_length x :
  String.length (Dt.strftime_compact x)
  = (Dt.year_width (Dt.year (Dt.d_date x)) + 11)%nat.
Proof.
  unfold Dt.strftime_compact. rewrite !slength_app, !zpad_length. reflexivity.
Qed.

Lemma year_width_bound y :
  0 <= y < 10 ^ Z.of_nat 4 -> 0 <= y < 10 ^ Z.of_nat (Dt.year_width y).
Proof.
  unfold Dt.year_width. intros H.
  destruct (Z.ltb_spec y 10); [simpl; lia|].
  destruct (Z.ltb_spec y 100); [simpl; lia|].
  destruct (Z.ltb_spec y 1000); [simpl; lia|]. exact H.
Qed.

Lemma strftime_compact_inj x y :
  valid_datetime x -> valid_datetime y ->
  Dt.strftime_compact x = Dt.strftime_compact y -> x = y.
Proof.
  intros Hx Hy H.
  apply valid_datetime_bounds in Hx, Hy.
  destruct Hx as (Hx1 & Hx2 & Hx3 & Hx4 & Hx5 & Hx6).
  destruct Hy as (Hy1 & Hy2 & Hy3 & Hy4 & Hy5 & Hy6).
  assert (W : Dt.year_width (Dt.year (Dt.d_date x))
              = Dt.year_width (Dt.year (Dt.d_date y))).
  { apply (f_equal String.length) in H.
    rewrite !strftime_compact_length in H. lia. }
  apply year_width_bound in Hx1, Hy1.
  unfold Dt.strftime_compact in H. rewrite W in H, Hx1. cbn [append] in H.
  apply sapp_inj_l in H; [|now rewrite !zpad_length]. destruct H as [E1 H].
  apply sapp_inj_l in H; [|now rewrite !zpad_length]. destruct H as [E2 H].
  apply sep_inj in H; [|now rewrite !zpad_length]. destruct H as [E3 H].
  apply sapp_inj_l in H; [|now rewrite !zpad_length]. destruct H as [E4 H].
  apply sapp_inj_l in H; [|now rewrite !zpad_length]. destruct H as [E5 E6].
  apply zpad_inj in E1, E2, E3, E4, E5, E6; try assumption.
  destruct x as [[xy xm xd] xh xmi xs], y as [[yy ym yd] yh ymi ys].
  simpl in *. congruence.
Qed.

(** X12. The value [ics_dt] writes after DTSTART and DTEND is the same
    whether the label is missing or empty.  Without a label it is a colon
    and the stamp, in which the year has no leading zeros: sixteen
    characters from year 1000 on, fewer before.  The stamp tells the
    date-time all the same: under one label two date-times are written
    alike only when they are equal. *)
Theorem ics_dt_tells_the_time (x y : Dt.datetime) (tzid : option string) :
  valid_datetime x -> valid_datetime y ->
  ics_dt x (Some "") = ics_dt x None
  /\ String.length (ics_dt x None)
     = (12 + Dt.year_width (Dt.year (Dt.d_date x)))%nat
  /\ (1000 <= Dt.year (Dt.d_date x) -> String.length (ics_dt x None) = 16%nat)
  /\ (ics_dt x tzid = ics_dt y tzid -> x = y).
Proof.
  intros Hx Hy. split; [reflexivity|].
  assert (L : String.length (ics_dt x None)
              = (12 + Dt.year_width (Dt.year (Dt.d_date x)))%nat).
  { unfold ics_dt. cbn [append String.length].
    rewrite strftime_compact_length. lia. }
  split; [exact L|]. split.
  - intros Hyear. rewrite L. unfold Dt.year_width.
    destruct (Z.ltb_spec (Dt.year (Dt.d_date x)) 10); [lia|].
    destruct (Z.ltb_spec (Dt.year (Dt.d_date x)) 100); [lia|].
    destruct (Z.ltb_spec (Dt.year (Dt.d_date x)) 1000); [lia|]. reflexivity.
  - unfold ics_dt. intros H.
    apply (strftime_compact_inj x y Hx Hy).
    destruct tzid as [tz|]; [destruct (Py.truthy tz)|].
    + apply sapp_inj_l in H; [|reflexivity]. destruct H as [_ H].
      apply sapp_inj_l in H; [|reflexivity]. destruct H as [_ H].
      apply sapp_inj_l in H; [|reflexivity]. now destruct H.
    + apply sapp_inj_l in H; [|reflexivity]. now destruct H.
    + apply sapp_inj_l in H; [|reflexivity]. now destruct H.
Qed.

Lemma ics_dt_tells_the_time_witness :
  ics_dt (Dt.mkdatetime (Dt.mkdate 2025 10 15) 18 0 0) (Some "America/New_York")
  = ";TZID=America/New_York:20251015T180000"
  /\ ics_dt (Dt.mkdatetime (Dt.mkdate 999 1 2) 3 4 5) None = ":9990102T030405"
  /\ String.length (ics_dt (Dt.mkdatetime (Dt.mkdate 999 1 2) 3 4 5) None)
     = (12 + 3)%nat
  /\ String.length (ics_dt (Dt.mkdatetime (Dt.mkdate 2025 10 15) 18 0 0) None)
     = 16%nat.
Proof.
  split; [reflexivity|]. split; [reflexivity|]. split.
  - apply (ics_dt_tells_the_time (Dt.mkdatetime (Dt.mkdate 999 1 2) 3 4 5)
             (Dt.mkdatetime (Dt.mkdate 2025 10 15) 19 0 0) None);
      split; reflexivity.
  - apply (ics_dt_tells_the_time (Dt.mkdatetime (Dt.mkdate 2025 10 15) 18 0 0)
             (Dt.mkdatetime (Dt.mkdate 2025 10 15) 19 0 0) None);
      try (split; reflexivity). cbn. lia.
Defined.

(** ** One block for each event *)

Lemma count_lines_app l a b :
  count_lines l (a ++ b)%list = (count_lines l a + count_lines l b)%nat.
Proof. unfold count_lines. now rewrite filter_app, length_app. Qed.

Lemma event_lines_counts now tzid ev :
  count_lines "BEGIN:VEVENT" (event_lines now tzid ev) = 1%nat
  /\ count_lines "END:VEVENT" (event_lines now tzid ev) = 1%nat.
Proof.
  unfold event_lines. cbv zeta.
  destruct (ev_source ev) as [src|]; [destruct (Py.truthy src)|];
    split; reflexivity.
Qed.

Lemma flat_map_counts now tzid events :
  count_lines "BEGIN:VEVENT" (flat_map (event_lines now tzid) events)
  = List.length events
  /\ count_lines "END:VEVENT" (flat_map (event_lines now tzid) events)
     = List.length events.
Proof.
  induction events as [|ev events [IH1 IH2]]; [split; reflexivity|].
  cbn [flat_map List.length]. rewrite !count_lines_app, IH1, IH2.
  destruct (event_lines_counts now tzid ev) as [-> ->]. split; reflexivity.
Qed.

(** X13. The document has one block for each event, however many there
    are and whether or not two of them are alike: when no title, source,
    label or display name holds a line feed, it has as many BEGIN:VEVENT
    lines, and as many END:VEVENT lines, as there are events. *)
Theorem build_ics_one_block_per_event
  (events : list event) (tzid : option string) (cal_name : string)
  (utcnow : Dt.datetime) :
  Forall (fun ev => event_one_line ev = true) events ->
  label_one_line tzid = true ->
  one_line cal_name = true ->
  count_lines "BEGIN:VEVENT" (split_lines (build_ics events tzid cal_name utcnow))
  = List.length events
  /\ count_lines "END:VEVENT" (split_lines (build_ics events tzid cal_name utcnow))
     = List.length events.
Proof.
  intros He Ht Hc.
  assert (E : split_lines (build_ics events tzid cal_name utcnow)
              = (ics_lines events tzid cal_name utcnow ++ [""])%list).
  { unfold build_ics. apply split_lines_build.
    - now apply ics_lines_one_line.
    - rewrite ics_lines_shape. discriminate. }
  rewrite E, ics_lines_shape, !count_lines_app.
  destruct (flat_map_counts (Dt.strftime_compact utcnow ++ "Z") tzid events)
    as [-> ->].
  split.
  - change (count_lines "BEGIN:VEVENT" (header_lines cal_name)) with 0%nat.
    cbn. lia.
  - change (count_lines "END:VEVENT" (header_lines cal_name)) with 0%nat.
    cbn. lia.
Qed.

Lemma build_ics_one_block_per_event_witness :
  count_lines "BEGIN:VEVENT"
    (split_lines
       (build_ics [Sample.halloween; Sample.halloween] None DEFAULT_CAL_NAME
          (Dt.mkdatetime (Dt.mkdate 2026 11 3) 12 0 0))) = 2%nat.
Proof.
  apply (build_ics_one_block_per_event [Sample.halloween; Sample.halloween] None
           DEFAULT_CAL_NAME (Dt.mkdatetime (Dt.mkdate 2026 11 3) 12 0 0)).
  - repeat constructor.
  - reflexivity.
  - reflexivity.
Defined.

(** ** What the matcher finds is a match *)

Lemma run_sound {A : Type} (r : Re.regex) :
  forall pos s c (k : nat -> string -> Re.caps -> option A) res,
    Re.run r pos s c k = Some res ->
    exists w s' c',
      s = w ++ s' /\ matched r pos w c c'
      /\ k (pos + String.length w)%nat s' c' = Some res.
Proof.
  induction r as [|p|a IHa b IHb|a IHa b IHb|a IHa|i a IHa| |];
    intros pos s c k res H; cbn [Re.run] in H.
  - exists "", s, c. rewrite Nat.add_0_r. repeat split; [constructor | exact H].
  - destruct s as [|x s']; [discriminate|].
    destruct (p x) eqn:E; [|discriminate].
    exists (String x ""), s', c. cbn [String.length]. rewrite Nat.add_1_r.
    repeat split; [now constructor | exact H].
  - apply IHa in H. destruct H as (w1 & s1 & c1 & -> & M1 & H).
    apply IHb in H. destruct H as (w2 & s2 & c2 & -> & M2 & H).
    exists (w1 ++ w2), s2, c2. rewrite sapp_assoc, slength_app, Nat.add_assoc.
    repeat split; [econstructor; eassumption | exact H].
  - destruct (Re.run a pos s c k) as [m|] eqn:E.
    + injection H as <-. apply IHa in E.
      destruct E as (w & s' & c' & -> & M & E).
      exists w, s', c'. repeat split; [now apply matched_alt_l | exact E].
    + apply IHb in H. destruct H as (w & s' & c' & -> & M & H).
      exists w, s', c'. repeat split; [now apply matched_alt_r | exact H].
  - remember (String.length s) as fuel eqn:F. clear F.
    revert pos s c H. induction fuel as [|fuel IHf]; intros pos s c H.
    + exists "", s, c. rewrite Nat.add_0_r.
      repeat split; [constructor | exact H].
    + match type of H with
      | match ?x with _ => _ end = _ => destruct x as [m|] eqn:E
      end.
      * injection H as <-. apply IHa in E.
        destruct E as (w1 & s1 & c1 & -> & M1 & E).
        destruct (pos <? pos + String.length w1)%nat; [|discriminate].
        apply IHf in E. destruct E as (w2 & s2 & c2 & -> & M2 & E).
        exists (w1 ++ w2), s2, c2.
        rewrite sapp_assoc, slength_app, Nat.add_assoc.
        repeat split; [econstructor; eassumption | exact E].
      * exists "", s, c. rewrite Nat.add_0_r.
        repeat split; [constructor | exact H].
  - apply IHa in H. destruct H as (w & s' & c' & -> & M & H).
    exists w, s', ((i, (pos, (pos + String.length w)%nat)) :: c').
    repeat split; [now constructor | exact H].
  - destruct (Nat.eqb_spec pos 0) as [->|]; [|discriminate].
    exists "", s, c. repeat split; [constructor | exact H].
  - destruct (_ || _)%bool; [|discriminate].
    exists "", s, c. rewrite Nat.add_0_r.
    repeat split; [constructor | exact H].
Qed.

Lemma matched_groupless r pos w c c' :
  matched r pos w c c' -> groupless r = true -> c' = c.
Proof.
  induction 1 as [| | a b pos w1 w2 c c1 c2 _ IH1 _ IH2 | a b pos w c c' _ IH
                 | a b pos w c c' _ IH | | a pos w1 w2 c c1 c2 _ IH1 _ IH2
                 | | |]; cbn [groupless]; intros G;
    try reflexivity; try discriminate.
  - apply andb_true_iff in G. destruct G as [Ga Gb].
    rewrite (IH2 Gb). exact (IH1 Ga).
  - apply andb_true_iff in G. destruct G as [Ga _]. exact (IH Ga).
  - apply andb_true_iff in G. destruct G as [_ Gb]. exact (IH Gb).
  - rewrite (IH2 G). exact (IH1 G).
Qed.

Lemma matched_eps_inv pos w c c' :
  matched Re.Eps pos w c c' -> w = "" /\ c' = c.
Proof. intros H. inversion H; subst. auto. Qed.

Lemma matched_chr_inv p pos w c c' :
  matched (Re.Chr p) pos w c c' ->
  exists x, w = String x "" /\ p x = true /\ c' = c.
Proof. intros H. inversion H; subst. eauto. Qed.

Lemma matched_seq_inv a b pos w c c' :
  matched (Re.Seq a b) pos w c c' ->
  exists w1 w2 c1,
    w = w1 ++ w2 /\ matched a pos w1 c c1
    /\ matched b (pos + String.length w1) w2 c1 c'.
Proof. intros H. inversion H; subst. eauto 7. Qed.

Lemma matched_alt_inv a b pos w c c' :
  matched (Re.Alt a b) pos w c c' ->
  matched a pos w c c' \/ matched b pos w c c'.
Proof. intros H. inversion H; subst; auto. Qed.

Lemma matched_group_inv i a pos w c c' :
  matched (Re.Group i a) pos w c c' ->
  exists c1, matched a pos w c c1
             /\ c' = (i, (pos, (pos + String.length w)%nat)) :: c1.
Proof. intros H. inversion H; subst. eauto. Qed.

Lemma matched_alts l pos w c c' :
  matched (Re.alts l) pos w c c' -> exists r, In r l /\ matched r pos w c c'.
Proof.
  induction l as [|a l IH]; cbn [Re.alts]; intros H.
  - apply matched_chr_inv in H. destruct H as (x & _ & E & _). discriminate.
  - destruct l as [|b l].
    + exists a. split; [now left | exact H].
    + apply matched_alt_inv in H. destruct H as [H|H].
      * exists a. split; [now left | assumption].
      * destruct (IH H) as (r & Hr & M). exists r. split; [now right | exact M].
Qed.

Lemma matched_ci x pos w c c' :
  matched (Re.ci x) pos w c c' ->
  Py.lower w = String (Py.lower_char x) "" /\ c' = c.
Proof.
  unfold Re.ci. intros H. apply matched_chr_inv in H.
  destruct H as (y & -> & E & ->). apply Ascii.eqb_eq in E.
  cbn. now rewrite E.
Qed.

Lemma lower_app a b : Py.lower (a ++ b) = Py.lower a ++ Py.lower b.
Proof.
  unfold Py.lower. induction a as [|c a IH]; [reflexivity|].
  cbn [append Py.map_chars]. now rewrite IH.
Qed.

Lemma matched_word_ci k :
  forall pos w c c', matched (Re.word_ci k) pos w c c' -> Py.lower w = Py.lower k.
Proof.
  induction k as [|x k IH]; intros pos w c c' H; cbn [Re.word_ci] in H.
  - apply matched_eps_inv in H. destruct H as [-> _]. reflexivity.
  - destruct k as [|y k].
    + apply matched_ci in H. now destruct H.
    + apply matched_seq_inv in H. destruct H as (w1 & w2 & c1 & -> & M1 & M2).
      apply matched_ci in M1. destruct M1 as [E ->].
      apply IH in M2. rewrite lower_app, E, M2. reflexivity.
Qed.

(** ** The text of a group *)

Lemma substring_prefix b c : String.substring 0 (String.length b) (b ++ c) = b.
Proof.
  induction b as [|x b IH]; cbn.
  - destruct c; reflexivity.
  - now rewrite IH.
Qed.

Lemma substring_skip a n t :
  String.substring (String.length a) n (a ++ t) = String.substring 0 n t.
Proof. induction a as [|x a IH]; [reflexivity|]. cbn. exact IH. Qed.

Lemma substring_middle a b c :
  String.substring (String.length a) (String.length a + String.length b
                                       - String.length a) (a ++ b ++ c) = b.
Proof.
  replace (String.length a + String.length b - String.length a)%nat
    with (String.length b) by lia.
  rewrite substring_skip. apply substring_prefix.
Qed.

Lemma search_go_sound r text s :
  forall pre m,
    text = pre ++ s ->
    Re.search_go r text (String.length pre) s = Some m ->
    exists pre' s0,
      text = pre' ++ s0 /\ Re.run_at r text (String.length pre') s0 = Some m.
Proof.
  induction s as [|x s IH]; intros pre m Ht H; cbn [Re.search_go] in H.
  - destruct (Re.run_at r text (String.length pre) "") eqn:E; [|discriminate].
    injection H as <-. eauto.
  - destruct (Re.run_at r text (String.length pre) (String x s)) eqn:E.
    + injection H as <-. eauto.
    + apply (IH (pre ++ String x "")).
      * now rewrite sapp_assoc.
      * rewrite slength_app. cbn [String.length]. now rewrite Nat.add_1_r.
Qed.

(** ** The header pattern *)

Lemma months_table :
  forall kv, In kv MONTHS ->
    Py.lower (fst kv) = fst kv
    /\ exists mo, MONTHS_get MONTHS (fst kv) = Some mo /\ 1 <= mo <= 12.
Proof.
  assert (H : forallb (fun kv =>
                         (Py.lower (fst kv) =? fst kv)%string
                         && match MONTHS_get MONTHS (fst kv) with
                            | Some mo => (1 <=? mo) && (mo <=? 12)
                            | None => false
                            end) MONTHS = true) by (vm_compute; reflexivity).
  intros kv Hin. rewrite forallb_forall in H. specialize (H kv Hin).
  apply andb_true_iff in H. destruct H as [H1 H2].
  apply String.eqb_eq in H1. split; [exact H1|].
  destruct (MONTHS_get MONTHS (fst kv)) as [mo|]; [|discriminate].
  apply andb_true_iff in H2. rewrite !Z.leb_le in H2. eauto.
Qed.

Lemma decimal_ord c : Py.isdecimal c = true -> 48 <= Py.ord c <= 57.
Proof.
  unfold Py.isdecimal, Py.between. rewrite andb_true_iff, !Z.leb_le. auto.
Qed.

Lemma matched_digit pos w c c' :
  matched Re.digit pos w c c' ->
  exists x, w = String x "" /\ Py.isdecimal x = true /\ c' = c.
Proof. apply matched_chr_inv. Qed.

Lemma four_digits pos w c c' :
  matched (Re.seqs [Re.digit; Re.digit; Re.digit; Re.digit]) pos w c c' ->
  exists y, Py.int w = Ok y /\ 0 <= y <= 9999.
Proof.
  cbn [Re.seqs]. intros H.
  apply matched_seq_inv in H. destruct H as (w1 & r1 & c1 & -> & M1 & H).
  apply matched_seq_inv in H. destruct H as (w2 & r2 & c2 & -> & M2 & H).
  apply matched_seq_inv in H. destruct H as (w3 & w4 & c3 & -> & M3 & M4).
  apply matched_digit in M1, M2, M3, M4.
  destruct M1 as (x1 & -> & D1 & _), M2 as (x2 & -> & D2 & _),
           M3 as (x3 & -> & D3 & _), M4 as (x4 & -> & D4 & _).
  cbn [append].
  exists (decimal_value 0 (String x1 (String x2 (String x3 (String x4 ""))))).
  split.
  - apply int_decimal; [discriminate|].
    cbn [Py.all_chars]. now rewrite D1, D2, D3, D4.
  - cbn [decimal_value].
    apply decimal_ord in D1, D2, D3, D4. lia.
Qed.

Lemma header_groups text m :
  Re.search HEADER_RE text = Some m ->
  (exists y, Py.int (Re.group m 2) = Ok y /\ 0 <= y <= 9999)
  /\ (exists mo, MONTHS_get MONTHS (Py.lower (Re.group m 1)) = Some mo
                 /\ 1 <= mo <= 12).
Proof.
  unfold Re.search. intros H.
  apply (search_go_sound HEADER_RE text text "" m eq_refl) in H.
  destruct H as (pre & s0 & Ht & H).
  unfold Re.run_at in H. apply run_sound in H.
  destruct H as (w & s' & c' & -> & M & H). injection H as <-.
  unfold HEADER_RE in M. cbn [Re.seqs Re.plus] in M.
  apply matched_seq_inv in M. destruct M as (w1 & w23 & c1 & -> & M1 & M).
  apply matched_seq_inv in M. destruct M as (w2 & w3 & c2 & -> & M2 & M3).
  apply matched_group_inv in M1. destruct M1 as (cx & M1 & ->).
  pose proof (matched_groupless _ _ _ _ _ M1 eq_refl) as G1. subst cx.
  pose proof (matched_groupless _ _ _ _ _ M2 eq_refl) as G2. subst c2.
  apply matched_group_inv in M3. destruct M3 as (cd & M3 & ->).
  pose proof (matched_groupless _ _ _ _ _ M3 eq_refl) as G3. subst cd.
  unfold Re.group. cbn [Re.m_caps Re.m_text Re.lookup Nat.eqb].
  assert (E2 : String.substring
                 (String.length pre + String.length w1 + String.length w2)
                 (String.length pre + String.length w1 + String.length w2
                  + String.length w3
                  - (String.length pre + String.length w1 + String.length w2))
                 text = w3).
  { rewrite Ht, !sapp_assoc.
    rewrite <- (sapp_assoc pre w1), <- (sapp_assoc (pre ++ w1) w2).
    replace (String.length pre + String.length w1 + String.length w2)%nat
      with (String.length ((pre ++ w1) ++ w2)) by (rewrite !slength_app; lia).
    apply substring_middle. }
  assert (E1 : String.substring (String.length pre)
                 (String.length pre + String.length w1 - String.length pre)
                 text = w1).
  { rewrite Ht, !sapp_assoc. apply substring_middle. }
  rewrite E1, E2. split.
  - exact (four_digits _ _ _ _ M3).
  - apply matched_alts in M1. destruct M1 as (r & Hr & M1).
    apply in_map_iff in Hr. destruct Hr as (kv & <- & Hkv).
    apply matched_word_ci in M1.
    destruct (months_table kv Hkv) as (L & mo & E & B).
    rewrite M1, L. eauto.
Qed.

Lemma first_header_match_total candidates :
  exists r,
    first_header_match candidates = Ok r
    /\ (r = (None, None)
        \/ exists y mo, r = (Some y, Some mo) /\ 0 <= y <= 9999 /\ 1 <= mo <= 12).
Proof.
  induction candidates as [|node rest IH]; cbn [first_header_match].
  - exists (None, None). auto.
  - destruct (Re.search HEADER_RE _) as [m|] eqn:E; [|exact IH].
    destruct (header_groups _ _ E) as ((y & Hy & By) & (mo & Hm & Bm)).
    rewrite Hy. cbn [rbind]. rewrite Hm.
    exists (Some y, Some mo). split; [reflexivity|]. right. eauto 6.
Qed.

(** X14. On a page whose text is made of characters up to U+00FF (the
    texts of this embedding) reading the header does not fail:
    [parse_header_month_year] returns a result, which is either no year
    and no month, or a year from 0 to 9999 with a month from 1 to 12, and
    the year and the month of the call are resolved.  On such a text the
    pattern captures four ASCII digits and, the text being in lower case,
    one of the twelve keys of [MONTHS].  (Beyond U+00FF the pattern also
    takes the long s and the dotless i for [s] and [i], and the lookup in
    [MONTHS] then raises [KeyError]; such texts are outside the
    embedding.) *)
Theorem parse_header_month_year_total (soup : Soup.node) :
  (exists r,
      parse_header_month_year soup = Ok r
      /\ (r = (None, None)
          \/ exists y mo,
               r = (Some y, Some mo) /\ 0 <= y <= 9999 /\ 1 <= mo <= 12))
  /\ (forall today forced_year forced_month,
         exists year month,
           resolved_month soup today forced_year forced_month = Ok (year, month)).
Proof.
  assert (T : exists r,
             parse_header_month_year soup = Ok r
             /\ (r = (None, None)
                 \/ exists y mo,
                      r = (Some y, Some mo) /\ 0 <= y <= 9999 /\ 1 <= mo <= 12)).
  { unfold parse_header_month_year. apply first_header_match_total. }
  split; [exact T|].
  intros today fy fm. destruct T as (r & E & _).
  unfold resolved_month. rewrite E.
  destruct (month_context r fy fm today) as [[year month] d]. eauto.
Qed.

(** ** Clock readings *)

(** What [to_hm] hands to [strptime]: the text in upper case, its spaces
    removed. *)
Lemma upper_app a b : Py.upper (a ++ b) = Py.upper a ++ Py.upper b.
Proof.
  unfold Py.upper. induction a as [|c a IH]; [reflexivity|].
  cbn [append Py.map_chars]. now rewrite IH.
Qed.

Lemma squeeze_app a b :
  Py.replace " " "" (Py.upper (a ++ b))
  = Py.replace " " "" (Py.upper a) ++ Py.replace " " "" (Py.upper b).
Proof. now rewrite upper_app, !replace_one_char, subst_char_app. Qed.

Lemma squeeze_digit n :
  Py.replace " " "" (Py.upper (String (Dt.digit_char n) ""))
  = String (Dt.digit_char n) "".
Proof.
  pose proof (digit_char_cases n) as H. simpl in H.
  repeat (destruct H as [<- | H]; [reflexivity|]). contradiction.
Qed.

Lemma squeeze_zpad w : forall n,
  Py.replace " " "" (Py.upper (Dt.zpad w n)) = Dt.zpad w n.
Proof.
  induction w as [|w IH]; intros n; [reflexivity|].
  cbn [Dt.zpad]. now rewrite squeeze_app, IH, squeeze_digit.
Qed.

Lemma squeeze_spaces n : Py.replace " " "" (Py.upper (spaces n)) = "".
Proof.
  induction n as [|n IH]; [reflexivity|].
  change (spaces (S n)) with (" " ++ spaces n). now rewrite squeeze_app, IH.
Qed.

Lemma squeeze_meridiem ap pm :
  In (ap, pm) MERIDIEMS ->
  Py.replace " " "" (Py.upper ap) = (if pm then "PM" else "AM").
Proof.
  unfold MERIDIEMS. intros H.
  repeat (destruct H as [H|H]; [injection H as <- <-; reflexivity|]).
  contradiction.
Qed.

Lemma to_hm_reading w h mi n ap pm :
  In (ap, pm) MERIDIEMS ->
  to_hm (Dt.zpad w h ++ ":" ++ Dt.zpad 2 mi ++ spaces n ++ ap)
  = to_hm (Dt.zpad w h ++ ":" ++ Dt.zpad 2 mi ++ (if pm then "PM" else "AM")).
Proof.
  intros H. unfold to_hm. f_equal. f_equal.
  rewrite !squeeze_app, !squeeze_zpad, squeeze_spaces, (squeeze_meridiem _ _ H).
  destruct pm; reflexivity.
Qed.

Lemma clock_result_eqb_eq a b : clock_result_eqb a b = true -> a = b.
Proof.
  destruct a as [[h mi]|ea]; destruct b as [[h' mi']|eb];
    try destruct ea; try destruct eb; cbn; try discriminate; try reflexivity.
  rewrite andb_true_iff, !Z.eqb_eq. intros [-> ->]. reflexivity.
Qed.

Lemma in_upto n z : 0 <= z < Z.of_nat n -> In z (upto n).
Proof.
  intros H. unfold upto. apply in_map_iff. exists (Z.to_nat z).
  split; [lia|]. apply in_seq. lia.
Qed.

Lemma to_hm_table_entry (w hours : nat) (h mi : Z) (pm : bool) :
  to_hm_table w hours = true ->
  0 <= h < Z.of_nat hours -> 0 <= mi <= 99 ->
  to_hm (Dt.zpad w h ++ ":" ++ Dt.zpad 2 mi ++ (if pm then "PM" else "AM"))
  = clock24 h mi pm.
Proof.
  unfold to_hm_table. intros T Hh Hm.
  rewrite forallb_forall in T. specialize (T h (in_upto _ _ Hh)).
  assert (Hm' : 0 <= mi < Z.of_nat 100)
    by (change (Z.of_nat 100) with 100; lia).
  rewrite forallb_forall in T. specialize (T mi (in_upto 100 _ Hm')).
  rewrite forallb_forall in T.
  apply clock_result_eqb_eq. apply (T pm). destruct pm; cbn; auto.
Qed.

Lemma to_hm_table_two_digits : to_hm_table 2 100 = true.
Proof. vm_compute. reflexivity. Qed.

Lemma to_hm_table_one_digit : to_hm_table 1 10 = true.
Proof. vm_compute. reflexivity. Qed.

(** X15. [to_hm] reads every text of a twelve-hour clock: an hour of
    one or two digits, a colon, two minute digits, any number of spaces
    and AM or PM in either case.  Hours 1 to 12 with minutes up to 59 give
    the reading of the 24-hour clock (12 AM is hour 0, 12 PM hour 12,
    every other PM hour 12 more); hour 0, hours above 12 and minutes
    above 59, which the time-range pattern lets through, are a
    [ValueError]. *)
Theorem to_hm_twelve_hour_clock (h mi : Z) (n : nat) (ap : string) (pm : bool) :
  0 <= h <= 99 -> 0 <= mi <= 99 -> In (ap, pm) MERIDIEMS ->
  to_hm (Dt.zpad 2 h ++ ":" ++ Dt.zpad 2 mi ++ spaces n ++ ap) = clock24 h mi pm
  /\ (h <= 9 ->
      to_hm (Dt.zpad 1 h ++ ":" ++ Dt.zpad 2 mi ++ spaces n ++ ap)
      = clock24 h mi pm).
Proof.
  intros Hh Hm Hap. split.
  - rewrite (to_hm_reading 2 h mi n ap pm Hap).
    apply (to_hm_table_entry 2 100); [exact to_hm_table_two_digits | | lia].
    change (Z.of_nat 100) with 100. lia.
  - intros H9. rewrite (to_hm_reading 1 h mi n ap pm Hap).
    apply (to_hm_table_entry 1 10); [exact to_hm_table_one_digit | | lia].
    change (Z.of_nat 10) with 10. lia.
Qed.

Lemma to_hm_twelve_hour_clock_witness :
  to_hm "11:30 pm" = Ok (23, 30)
  /\ to_hm "7:05AM" = Ok (7, 5)
  /\ to_hm "13:00 PM" = Raise ValueError.
Proof.
  split; [|split].
  - apply (proj1 (to_hm_twelve_hour_clock 11 30 1 "pm" true
                    ltac:(lia) ltac:(lia) ltac:(cbn; tauto))).
  - apply (proj2 (to_hm_twelve_hour_clock 7 5 0 "AM" false
                    ltac:(lia) ltac:(lia) ltac:(cbn; tauto))). lia.
  - apply (proj1 (to_hm_twelve_hour_clock 13 0 1 "PM" true
                    ltac:(lia) ltac:(lia) ltac:(cbn; tauto))).
Defined.

(** ** Characters of a clock reading *)

Lemma all_chars_app p a b :
  Py.all_chars p (a ++ b) = Py.all_chars p a && Py.all_chars p b.
Proof.
  induction a as [|c a IH]; [reflexivity|].
  cbn [append Py.all_chars]. now rewrite IH, andb_assoc.
Qed.

Lemma matched_alphabet r pos w c c' :
  matched r pos w c c' -> Py.all_chars (accepts_char r) w = true.
Proof.
  induction 1 as [| p pos x c Hp | a b pos w1 w2 c c1 c2 _ IH1 _ IH2
                 | a b pos w c c' _ IH | a b pos w c c' _ IH |
                 | a pos w1 w2 c c1 c2 _ IH1 _ IH2 | i a pos w c c' _ IH | |];
    cbn [accepts_char Py.all_chars]; try reflexivity.
  - now rewrite Hp.
  - rewrite all_chars_app. apply andb_true_iff. split.
    + revert IH1. apply all_chars_impl. intros x ->. reflexivity.
    + revert IH2. apply all_chars_impl. intros x ->. apply orb_true_r.
  - revert IH. apply all_chars_impl. intros x ->. reflexivity.
  - revert IH. apply all_chars_impl. intros x ->. apply orb_true_r.
  - rewrite all_chars_app. apply andb_true_iff. split; assumption.
  - exact IH.
Qed.

Lemma strptime_alphabet data t :
  Dt.strptime_I_M_p data = Ok t ->
  Py.all_chars (accepts_char Dt.STRPTIME_RE) data = true.
Proof.
  unfold Dt.strptime_I_M_p, Re.match_, Re.run_at.
  destruct (Re.run Dt.STRPTIME_RE 0 data [] _) as [m|] eqn:E; [|discriminate].
  apply run_sound in E. destruct E as (w & s' & c' & Hd & M & E).
  cbv beta in E. injection E as <-. cbn [Re.m_end].
  cbn [Nat.add].
  destruct (Nat.eqb_spec (String.length w) (String.length data)) as [L|L];
    [|cbn [negb]; intros HH; discriminate HH].
  intros _. rewrite Hd in L. rewrite slength_app in L.
  assert (s' = "") by (destruct s'; [reflexivity | cbn in L; lia]).
  subst s'. rewrite Hd, sapp_nil_r. exact (matched_alphabet _ _ _ _ _ M).
Qed.

Lemma clock_char_squeezed c :
  (if Ascii.eqb " " (Py.upper_char c) then true
   else accepts_char Dt.STRPTIME_RE (Py.upper_char c)) = true ->
  clock_char c = true.
Proof.
  destruct c as [[] [] [] [] [] [] [] []]; vm_compute; intros H;
    first [reflexivity | discriminate H].
Qed.

Lemma squeezed_alphabet s :
  Py.all_chars (accepts_char Dt.STRPTIME_RE) (Py.replace " " "" (Py.upper s)) = true ->
  Py.all_chars clock_char s = true.
Proof.
  rewrite replace_one_char. unfold Py.upper.
  induction s as [|c s IH]; [reflexivity|].
  cbn [Py.map_chars subst_char Py.all_chars]. intros H.
  apply andb_true_iff. split.
  - apply clock_char_squeezed.
    destruct (Ascii.eqb " " (Py.upper_char c)); [reflexivity|].
    cbn [Py.all_chars] in H. now apply andb_true_iff in H.
  - apply IH. destruct (Ascii.eqb " " (Py.upper_char c)).
    + exact H.
    + cbn [Py.all_chars] in H. now apply andb_true_iff in H.
Qed.

(** X16. [to_hm] reads a text only if it is made of decimal digits, the
    colon, spaces and the letters A, M and P: any other character, such as
    the tab or the no-break space that the time-range pattern accepts as
    white space before AM or PM, makes it raise. *)
Theorem to_hm_reads_clock_characters_only (s : string) (h mi : Z) :
  to_hm s = Ok (h, mi) -> Py.all_chars clock_char s = true.
Proof.
  unfold to_hm. intros H. apply rbind_ok in H. destruct H as (t & Ht & _).
  apply squeezed_alphabet. exact (strptime_alphabet _ _ Ht).
Qed.

Lemma to_hm_reads_clock_characters_only_witness :
  Py.all_chars clock_char "6:00 pm" = true
  /\ clock_char (Py.chr 9) = false /\ clock_char (Py.chr 160) = false
  /\ Re.match_ TIME_RANGE_RE ("6:00" ++ String (Py.chr 9) "PM - 7:00 PM") <> None.
Proof.
  split; [|split; [reflexivity | split; [reflexivity | discriminate]]].
  apply (to_hm_reads_clock_characters_only "6:00 pm" 18 0). reflexivity.
Defined.

(** ** The characters of an identifier *)

Lemma hex_char_is_hex n : hex_digit (Sha1.hex_char n) = true.
Proof.
  pose proof (hex_char_cases n) as H. simpl in H.
  repeat (destruct H as [<- | H]; [reflexivity|]). contradiction.
Qed.

Lemma hexpad_is_hex w : forall n, Py.all_chars hex_digit (Sha1.hexpad w n) = true.
Proof.
  induction w as [|w IH]; intros n; [reflexivity|].
  cbn [Sha1.hexpad]. rewrite all_chars_app, IH. cbn [Py.all_chars].
  now rewrite hex_char_is_hex.
Qed.

(** X17. For a title made of characters up to U+00FF (the texts of this
    embedding), whatever separators or line feeds it holds, the identifier
    is forty lower-case hexadecimal digits followed by [@myvmk]: it needs
    no escaping and stays on one line.  (A title with a lone surrogate,
    which [encode] rejects with [UnicodeEncodeError], is outside the
    embedding.) *)
Theorem make_uid_is_hex (title : string) (start end_ : Dt.datetime) :
  exists digest,
    make_uid title start end_ = digest ++ "@myvmk"
    /\ String.length digest = 40%nat
    /\ Py.all_chars hex_digit digest = true
    /\ ics_escape (make_uid title start end_) = make_uid title start end_
    /\ one_line (make_uid title start end_) = true.
Proof.
  exists (Sha1.hexdigest (Sha1.utf8 (uid_data title start end_))).
  unfold Sha1.hexdigest.
  split; [reflexivity|]. split; [apply hexpad_length|].
  split; [apply hexpad_is_hex|]. split; [|apply one_line_make_uid].
  rewrite ics_escape_each. apply plain_text_escape.
  unfold make_uid, Sha1.hexdigest, plain_text. rewrite all_chars_app.
  apply andb_true_iff. split; [|reflexivity].
  generalize (hexpad_is_hex 40 (Sha1.sha1 (Sha1.utf8 (uid_data title start end_)))).
  apply all_chars_impl. intros c Hc.
  destruct c as [[] [] [] [] [] [] [] []]; first [reflexivity | discriminate Hc].
Qed.

(** ** What the class filters select *)

Lemma split_go_token t : forall cur rest,
  Py.all_chars (fun c => negb (Py.isspace c)) t = true ->
  Py.split_go cur (t ++ rest) = Py.split_go (cur ++ t) rest.
Proof.
  induction t as [|c t IH]; intros cur rest H.
  - now rewrite sapp_nil_r.
  - cbn [Py.all_chars] in H. apply andb_true_iff in H. destruct H as [Hc Ht].
    cbn [append Py.split_go].
    destruct (Py.isspace c); [discriminate Hc|].
    rewrite (IH _ _ Ht), sapp_assoc. reflexivity.
Qed.

Lemma class_token_parts t :
  class_token t = true ->
  (t =? "")%string = false /\ Py.all_chars (fun c => negb (Py.isspace c)) t = true.
Proof.
  unfold class_token, Py.truthy. intros H. apply andb_true_iff in H.
  destruct H as [H1 H2]. split; [|exact H2].
  now destruct (t =? "")%string.
Qed.

Lemma split_token t : class_token t = true -> Py.split t = [t].
Proof.
  intros H. destruct (class_token_parts _ H) as [Hn Hs].
  unfold Py.split. rewrite <- (sapp_nil_r t) at 1.
  rewrite (split_go_token _ _ _ Hs). cbn [append Py.split_go]. now rewrite Hn.
Qed.

Lemma split_join toks :
  Forall (fun t => class_token t = true) toks ->
  Py.split (Py.join " " toks) = toks.
Proof.
  induction 1 as [|t toks Ht _ IH]; [reflexivity|].
  destruct toks as [|t' toks]; [exact (split_token _ Ht)|].
  destruct (class_token_parts _ Ht) as [Hn Hs].
  change (Py.join " " (t :: t' :: toks))
    with (t ++ String " " (Py.join " " (t' :: toks))).
  unfold Py.split. rewrite (split_go_token _ _ _ Hs).
  cbn [append Py.split_go]. change (Py.isspace " ") with true. cbv iota.
  rewrite Hn. f_equal. exact IH.
Qed.

Lemma join_truthy t toks :
  class_token t = true -> Py.truthy (Py.join " " (t :: toks)) = true.
Proof.
  intros H. destruct (class_token_parts _ H) as [Hn _].
  unfold Py.truthy. destruct t as [|c t]; [discriminate Hn|].
  destruct toks; reflexivity.
Qed.

Lemma tokens_of_token t :
  class_token t = true -> tokens_of (Some t) = Some [t].
Proof.
  intros H. unfold tokens_of. rewrite (split_token _ H).
  unfold class_token in H. apply andb_true_iff in H. now rewrite (proj1 H).
Qed.

Lemma tokens_of_join toks :
  Forall (fun t => class_token t = true) toks ->
  tokens_of (Some (Py.join " " toks)) = match toks with [] => None | _ => Some toks end.
Proof.
  intros H. unfold tokens_of. destruct toks as [|t toks]; [reflexivity|].
  rewrite (join_truthy t toks) by (inversion H; assumption).
  now rewrite split_join.
Qed.

Lemma existsb_false {A} (f : A -> bool) l :
  (forall x, In x l -> f x = false) -> existsb f l = false.
Proof.
  induction l as [|x l IH]; intros H; [reflexivity|].
  cbn [existsb]. rewrite (H x (or_introl eq_refl)). apply IH.
  intros y Hy. apply H. now right.
Qed.

Lemma existsb_same {A} (f g : A -> bool) l :
  (forall x, In x l -> f x = g x) -> existsb f l = existsb g l.
Proof.
  induction l as [|x l IH]; intros H; [reflexivity|].
  cbn [existsb]. rewrite (H x (or_introl eq_refl)). f_equal. apply IH.
  intros y Hy. apply H. now right.
Qed.

(** X18. On a tag whose class tokens are well formed (not empty, no
    white space inside) the filters of [scrape_events] are membership
    tests: a token filter selects the tags that carry the token, the
    container filter those that carry both [event] and [day-targetable],
    and the day filter those that carry [day], whether or not they carry
    [hidden] as well.  A tag without a class is never selected. *)
Theorem class_filters_select (toks : list string) (tok : string) :
  Forall (fun t => class_token t = true) toks ->
  Soup.class_matches (has_class tok) (Some toks) = Py.mem tok toks
  /\ Soup.class_matches is_event_container_class (Some toks)
     = Py.mem "event" toks && Py.mem "day-targetable" toks
  /\ Soup.class_matches is_day_class (Some toks) = Py.mem "day" toks
  /\ Soup.class_matches (has_class tok) None = false
  /\ Soup.class_matches is_event_container_class None = false
  /\ Soup.class_matches is_day_class None = false.
Proof.
  intros W. pose proof (proj1 (Forall_forall _ _) W) as Wt.
  unfold Soup.class_matches.
  repeat split; try reflexivity.
  - unfold has_class at 2. rewrite (tokens_of_join _ W).
    rewrite (existsb_same _ (String.eqb tok) toks).
    + fold (Py.mem tok toks). destruct toks; [reflexivity|]. apply orb_diag.
    + intros t Ht. unfold has_class. rewrite (tokens_of_token _ (Wt _ Ht)).
      unfold Py.mem. cbn [existsb]. apply orb_false_r.
  - unfold is_event_container_class at 2. rewrite (tokens_of_join _ W).
    rewrite existsb_false.
    + destruct toks; reflexivity.
    + intros t Ht. unfold is_event_container_class.
      rewrite (tokens_of_token _ (Wt _ Ht)). unfold Py.mem. cbn [existsb].
      rewrite !orb_false_r.
      destruct (String.eqb_spec "event" t) as [<-|]; reflexivity.
  - rewrite (existsb_same _ (String.eqb "day") toks).
    + fold (Py.mem "day" toks). unfold is_day_class. rewrite (tokens_of_join _ W).
      destruct toks as [|t0 toks0]; [reflexivity|].
      destruct (Py.mem "day" (t0 :: toks0)); reflexivity.
    + intros t Ht. unfold is_day_class. rewrite (tokens_of_token _ (Wt _ Ht)).
      unfold Py.mem. cbn [existsb]. rewrite !orb_false_r.
      destruct (String.eqb_spec "day" t) as [<-|]; [reflexivity|].
      reflexivity.
Qed.

Lemma class_filters_select_witness :
  Soup.class_matches is_day_class (Some ["day"; "hidden"]) = true
  /\ Soup.class_matches (has_class "event-li") (Some ["event"; "day-targetable"]) = false.
Proof.
  assert (W : forall l, forallb class_token l = true ->
                        Forall (fun t => class_token t = true) l).
  { intros l H. apply Forall_forall. intros t Ht.
    exact (proj1 (forallb_forall _ _) H t Ht). }
  split.
  - rewrite (proj1 (proj2 (proj2
      (class_filters_select ["day"; "hidden"] "day" (W ["day"; "hidden"] eq_refl))))).
    reflexivity.
  - rewrite (proj1
      (class_filters_select ["event"; "day-targetable"] "event-li"
         (W ["event"; "day-targetable"] eq_refl))).
    reflexivity.
Defined.

(** ** When the local date is consulted *)

(** X19. The local date is consulted only when a year or a month is
    missing: on a page whose header gives a year other than 0, and on any
    page when both overrides are given and not 0, [scrape_events] returns
    and prints the same whatever the day it runs. *)
Theorem scrape_events_local_date_unused (soup : Soup.node) (url : string)
  (forced_year forced_month : option Z) (verbose : bool) (today today' : Dt.date) :
  (exists y m, parse_header_month_year soup = Ok (Some y, Some m) /\ y <> 0)
  \/ (truthy_int forced_year = true /\ truthy_int forced_month = true) ->
  scrape_events soup today url forced_year forced_month verbose
  = scrape_events soup today' url forced_year forced_month verbose.
Proof.
  intros H. unfold scrape_events.
  destruct (parse_header_month_year soup) as [parsed|e] eqn:E; [|reflexivity].
  assert (M : month_context parsed forced_year forced_month today
              = month_context parsed forced_year forced_month today').
  { destruct H as [(y & m & Hp & Hy) | [Hy Hm]].
    - injection Hp as ->.
      assert (Hm : m <> 0).
      { unfold parse_header_month_year in E.
        match type of E with
        | first_header_match ?c = _ =>
            destruct (first_header_match_total c)
              as (r & Hr & [->|(y' & m' & -> & _ & Bm)])
        end.
        all: rewrite Hr in E; injection E as E1 E2; try discriminate; lia. }
      now rewrite !month_context_header_found.
    - unfold month_context. destruct parsed as [py pm].
      destruct forced_year as [fy|]; [|discriminate Hy].
      destruct forced_month as [fm|]; [|discriminate Hm].
      rewrite Hy, Hm. cbv iota. rewrite Hy, Hm. reflexivity. }
  now rewrite M.
Qed.

Lemma scrape_events_local_date_unused_witness :
  scrape_events Sample.october (Dt.mkdate 2026 11 3) Sample.url None None true
  = scrape_events Sample.october (Dt.mkdate 1999 1 1) Sample.url None None true.
Proof.
  apply scrape_events_local_date_unused. left. exists 2025, 10.
  split; [reflexivity | discriminate].
Defined.
